(** * nojo: the manifest-driven, non-destructive file synchronisation engine

    A shallow embedding of the TypeScript sources

    - [src/cli/features/manifest/manifest.ts]  (manifest store, content hasher)
    - [src/cli/features/manifest/loader.ts]    (manifest loader, uninstall)
    - the skills feature loader                (directory synchroniser)
    - [src/cli/config.ts]                      (configuration record)

    and the properties of the specification that concern them.

    Conventions of the embedding.

    - A computation that may throw is a value of [option]: [None] is a
      thrown exception, [try_catch] is [try { ... } catch { ... }].
    - The file system is a finite map from paths to nodes.  A path is the
      list of its segments, relative to the install directory, so that
      [path.join dir name] is [dir ++ [name]] and
      [path.relative installDir p] is [p] itself.
    - Values produced by [JSON.parse] are terms of [Js.value]; an object is
      the list of its own properties in enumeration order.
    - [crypto]'s SHA-256, [JSON.parse], [JSON.stringify], the wall clock, the
      package version and [substituteTemplatePaths] are parameters of the
      development: nothing is assumed about them. *)

From Stdlib Require Import ZArith Ascii String.
From stdpp Require Import gmap strings list fin_maps pretty.

Local Open Scope string_scope.
Local Open Scope list_scope.

(** ** Exceptions *)

(** [try { body } catch { handler }] for a body without observable effect
    before the point where it throws. *)
Definition try_catch {A : Type} (body handler : option A) : option A :=
  match body with
  | Some a => Some a
  | None => handler
  end.

(** ** JavaScript values *)

Module Js.

#[warnings="-register-all"] Inductive value : Type :=
| VNull
| VBool (b : bool)
| VNum (n : Z)
| VStr (s : string)
| VArr (items : list value)
| VObj (props : list (string * value)).

(** The result of a property read: [None] is [undefined]. *)
Abbreviation maybe := (option value).

Fixpoint assoc {A : Type} (k : string) (l : list (string * A)) : option A :=
  match l with
  | [] => None
  | (k', a) :: l' => if bool_decide (k' = k) then Some a else assoc k l'
  end.

(** [o.k] for a value [o] that is not [null].  Only objects carry the
    property names the program reads; arrays and primitives answer
    [undefined]. *)
Definition prop (o : value) (k : string) : maybe :=
  match o with
  | VObj ps => assoc k ps
  | _ => None
  end.

(** [o?.k] on the result of a previous read. *)
Definition opt_prop (o : maybe) (k : string) : maybe :=
  match o with
  | None | Some VNull => None
  | Some v => prop v k
  end.

Fixpoint assoc_set {A : Type} (k : string) (a : A) (l : list (string * A))
  : list (string * A) :=
  match l with
  | [] => [(k, a)]
  | (k', a') :: l' =>
      if bool_decide (k' = k) then (k, a) :: l' else (k', a') :: assoc_set k a l'
  end.

Definition assoc_del {A : Type} (k : string) (l : list (string * A))
  : list (string * A) :=
  filter (fun kv => kv.1 ≠ k) l.

(** [o.k = v]: on an object an existing property keeps its place and a
    new one goes last; on [null] and on a primitive the assignment is a
    [TypeError] (modules are strict code).  The program never assigns to
    a property of an array. *)
Definition set (o : value) (k : string) (v : value) : option value :=
  match o with
  | VObj ps => Some (VObj (assoc_set k v ps))
  | _ => None
  end.

(** [delete o.k] *)
Definition del (o : value) (k : string) : value :=
  match o with
  | VObj ps => VObj (assoc_del k ps)
  | _ => o
  end.

(** [typeof v]; [typeof undefined] is ["undefined"]. *)
Definition typeof (o : maybe) : string :=
  match o with
  | None => "undefined"
  | Some VNull => "object"
  | Some (VBool _) => "boolean"
  | Some (VNum _) => "number"
  | Some (VStr _) => "string"
  | Some (VArr _) => "object"
  | Some (VObj _) => "object"
  end.

(** [v == null] *)
Definition nullish (o : maybe) : bool :=
  match o with
  | None | Some VNull => true
  | _ => false
  end.

(** [v ?? d] *)
Definition coalesce (o : maybe) (d : value) : value :=
  match o with
  | None | Some VNull => d
  | Some v => v
  end.

(** [v === n] and [v === s] against a primitive literal. *)
Definition is_num (o : maybe) (n : Z) : bool :=
  match o with
  | Some (VNum m) => bool_decide (m = n)
  | _ => false
  end.

Definition is_str (o : maybe) (s : string) : bool :=
  match o with
  | Some (VStr s') => bool_decide (s' = s)
  | _ => false
  end.

(** Truthiness, as tested by [if (v)]. *)
Definition truthy (o : maybe) : bool :=
  match o with
  | None | Some VNull => false
  | Some (VBool b) => b
  | Some (VNum n) => negb (bool_decide (n = 0%Z))
  | Some (VStr s) => negb (bool_decide (s = ""))
  | Some (VArr _) | Some (VObj _) => true
  end.

Definition indices (n : nat) : list string :=
  (fun i : nat => pretty i) <$> seq 0 n.

(** [Object.keys(v)] for [v] not [null]. *)
Definition keys (v : value) : list string :=
  match v with
  | VObj ps => ps.*1
  | VArr items => indices (length items)
  | VStr s => indices (String.length s)
  | _ => []
  end.

End Js.

(** ** The file system *)

Module Fs.

Inductive node : Type :=
| File (content : string)
| Dir.

Abbreviation path := (list string).
Abbreviation t := (gmap (list string) node).

Definition dirname (p : path) : path := take (length p - 1) p.

(** [existsSync] *)
Definition exists_ (fs : t) (p : path) : bool :=
  bool_decide (is_Some (fs !! p)).

(** [fs.access]: throws when the path does not exist. *)
Definition access (fs : t) (p : path) : option unit :=
  if exists_ fs p then Some () else None.

(** [fs.readFile]: throws on a missing path and on a directory. *)
Definition readFile (fs : t) (p : path) : option string :=
  match fs !! p with
  | Some (File c) => Some c
  | _ => None
  end.

Definition ensure_dir (fs : t) (p : path) : option t :=
  match fs !! p with
  | None => Some (<[p := Dir]> fs)
  | Some Dir => Some fs
  | Some (File _) => None
  end.

Fixpoint mkdir_from (fs : t) (done rest : path) : option t :=
  fs' ← ensure_dir fs done;
  match rest with
  | [] => Some fs'
  | x :: rest' => mkdir_from fs' (done ++ [x]) rest'
  end.

(** [fs.mkdir(p, { recursive: true })]: creates the missing ancestors,
    accepts directories that exist, throws when a file is in the way. *)
Definition mkdir_p (fs : t) (p : path) : option t := mkdir_from fs [] p.

(** [fs.writeFile]: the parent must be a directory and the target must
    not be one. *)
Definition writeFile (fs : t) (p : path) (c : string) : option t :=
  match p with
  | [] => None
  | _ =>
      match fs !! dirname p with
      | Some Dir =>
          match fs !! p with
          | Some Dir => None
          | _ => Some (<[p := File c]> fs)
          end
      | _ => None
      end
  end.

(** [fs.copyFile(src, dest)] where [c] is the content of [src]. *)
Definition copyFile (fs : t) (c : string) (dest : path) : option t :=
  writeFile fs dest c.

(** [unlinkSync]: removes a file, throws on a directory or a missing path. *)
Definition unlink (fs : t) (p : path) : option t :=
  match fs !! p with
  | Some (File _) => Some (delete p fs)
  | _ => None
  end.

Definition is_child (d p : path) : bool :=
  bool_decide (p ≠ [] ∧ dirname p = d).

(** [readdirSync]: the names directly under a directory. *)
Definition readdir (fs : t) (d : path) : option (list path) :=
  match fs !! d with
  | Some Dir => Some (filter (fun p => is_child d p) (map_to_list fs).*1)
  | _ => None
  end.

(** [rmdirSync]: removes an empty directory. *)
Definition rmdir (fs : t) (d : path) : option t :=
  entries ← readdir fs d;
  match entries with
  | [] => Some (delete d fs)
  | _ => None
  end.

(** [fs.rm(p, { recursive: true, force: true })] *)
Definition rm_rf (fs : t) (p : path) : t :=
  filter (fun kv => ¬ p `prefix_of` kv.1) fs.

End Fs.

(** ** The manifest (types.ts) *)

Inductive Source : Type := nojo | user | existing.

#[global] Instance Source_eq_dec : EqDecision Source.
Proof. solve_decision. Defined.

Record ManifestEntry : Type := {
  path : Fs.path;
  hash : string;
  source : Source;
  profile : option string;
  version : string;
  installedAt : string
}.

Record PreInstallSnapshot : Type := {
  snapshotCreatedAt : string;
  snapshotFiles : list (Fs.path * string)
}.

Record Manifest : Type := {
  schemaVersion : Z;
  nojoVersion : string;
  createdAt : string;
  updatedAt : string;
  files : gmap (list string) ManifestEntry;
  preInstallSnapshot : option PreInstallSnapshot
}.

Definition set_files (m : Manifest) (f : gmap (list string) ManifestEntry) : Manifest :=
  {| schemaVersion := schemaVersion m;
     nojoVersion := nojoVersion m;
     createdAt := createdAt m;
     updatedAt := updatedAt m;
     files := f;
     preInstallSnapshot := preInstallSnapshot m |}.

(** ** The source tree read by [fs.readdir(src, { withFileTypes: true })]

    The profile directory that a sync run copies from lies outside the
    destination directory, so the run never changes it: it is read as a
    tree.  An entry that is not a directory is read as a file. *)

#[warnings="-register-all"] Inductive src_node : Type :=
| SFile (content : string)
| SDir (entries : list (string * src_node)).

(** What a sync run reports on the console, with the relative path of the
    file in place of its name: one event per file of the source tree. *)
Inductive Event : Type :=
| PreservedModified (p : Fs.path)
| PreservedExisting (p : Fs.path)
| Installed (p : Fs.path).

#[global] Instance Event_eq_dec : EqDecision Event.
Proof. solve_decision. Defined.

(** The return value [{ preserved, installed }]. *)
Record Counts : Type := { preserved : nat; installed : nat }.

(** The world a run acts on: the file system, the manifest object the
    caller passes in (mutated in place), the number of clock reads so far,
    and the console. *)
Record State : Type := {
  st_fs : Fs.t;
  st_manifest : Manifest;
  st_ticks : nat;
  st_log : list Event
}.

Definition endsWith (s suffix : string) : bool :=
  let n := String.length s in
  let k := String.length suffix in
  Nat.leb k n && bool_decide (substring (n - k) k s = suffix).

Definition startsWith (s pre : string) : bool := String.prefix pre s.

(** ** A reference JSON codec

    [JSON.parse] and [JSON.stringify] are parameters of the engine.  This
    small codec (integers for numbers, the two-character escapes in
    strings, later duplicates of a key overriding earlier ones) instantiates
    them where a property is evaluated on a concrete file. *)

Module Json.
Import Js.

Definition dquote : ascii := "034"%char.
Definition backslash : ascii := "092"%char.

Fixpoint escape (s : string) : string :=
  match s with
  | EmptyString => EmptyString
  | String c s' =>
      if Ascii.eqb c dquote then String backslash (String dquote (escape s'))
      else if Ascii.eqb c backslash then String backslash (String backslash (escape s'))
      else if Ascii.eqb c "010"%char then String backslash (String "n"%char (escape s'))
      else String c (escape s')
  end.

Definition quote (s : string) : string :=
  String dquote (escape s +:+ String dquote EmptyString).

Fixpoint print (v : value) : string :=
  match v with
  | VNull => "null"
  | VBool true => "true"
  | VBool false => "false"
  | VNum n => pretty n
  | VStr s => quote s
  | VArr items =>
      "[" +:+
      (fix go (l : list value) : string :=
         match l with
         | [] => ""
         | x :: l' =>
             print x +:+ match l' with [] => "" | _ => "," +:+ go l' end
         end) items +:+ "]"
  | VObj ps =>
      "{" +:+
      (fix go (l : list (string * value)) : string :=
         match l with
         | [] => ""
         | (k, x) :: l' =>
             quote k +:+ ":" +:+ print x +:+
             match l' with [] => "" | _ => "," +:+ go l' end
         end) ps +:+ "}"
  end.

Definition is_ws (c : ascii) : bool :=
  Ascii.eqb c " "%char || Ascii.eqb c "010"%char
  || Ascii.eqb c "013"%char || Ascii.eqb c "009"%char.

Fixpoint skip_ws (s : string) : string :=
  match s with
  | String c s' => if is_ws c then skip_ws s' else s
  | EmptyString => s
  end.

Definition unescape (c : ascii) : option ascii :=
  if Ascii.eqb c dquote then Some dquote
  else if Ascii.eqb c backslash then Some backslash
  else if Ascii.eqb c "/"%char then Some "/"%char
  else if Ascii.eqb c "n"%char then Some "010"%char
  else if Ascii.eqb c "r"%char then Some "013"%char
  else if Ascii.eqb c "t"%char then Some "009"%char
  else None.

(** The text after an opening quote, up to the closing one. *)
Fixpoint str_body (s : string) : option (string * string) :=
  match s with
  | EmptyString => None
  | String c s' =>
      if Ascii.eqb c dquote then Some (EmptyString, s')
      else if Ascii.eqb c backslash then
        match s' with
        | String e s'' =>
            c' ← unescape e;
            '(r, rest) ← str_body s'';
            Some (String c' r, rest)
        | EmptyString => None
        end
      else
        '(r, rest) ← str_body s';
        Some (String c r, rest)
  end.

Definition digit (c : ascii) : option Z :=
  let n := nat_of_ascii c in
  if Nat.leb 48 n && Nat.leb n 57 then Some (Z.of_nat (n - 48)) else None.

Fixpoint digits (s : string) (acc : Z) : Z * string :=
  match s with
  | String c s' =>
      match digit c with
      | Some d => digits s' (10 * acc + d)%Z
      | None => (acc, s)
      end
  | EmptyString => (acc, s)
  end.

(** An integer literal; a fraction or an exponent is refused. *)
Definition number (s : string) : option (Z * string) :=
  let '(neg, s1) :=
    match s with
    | String c s' => if Ascii.eqb c "-"%char then (true, s') else (false, s)
    | EmptyString => (false, s)
    end in
  match s1 with
  | String c _ =>
      match digit c with
      | Some _ =>
          let '(n, rest) := digits s1 0%Z in
          match rest with
          | String c' _ =>
              if Ascii.eqb c' "."%char || Ascii.eqb c' "e"%char || Ascii.eqb c' "E"%char
              then None
              else Some (if neg then (- n)%Z else n, rest)
          | EmptyString => Some (if neg then (- n)%Z else n, rest)
          end
      | None => None
      end
  | EmptyString => None
  end.

Definition literal (word : string) (v : value) (s : string)
  : option (value * string) :=
  if String.prefix word s
  then Some (v, substring (String.length word) (String.length s - String.length word) s)
  else None.

Fixpoint value_ (fuel : nat) (s : string) : option (value * string) :=
  match fuel with
  | O => None
  | S fuel' =>
      match skip_ws s with
      | EmptyString => None
      | String c s' =>
          if Ascii.eqb c "n"%char then literal "null" VNull (String c s')
          else if Ascii.eqb c "t"%char then literal "true" (VBool true) (String c s')
          else if Ascii.eqb c "f"%char then literal "false" (VBool false) (String c s')
          else if Ascii.eqb c dquote then
            '(str, rest) ← str_body s'; Some (VStr str, rest)
          else if Ascii.eqb c "["%char then
            match skip_ws s' with
            | String "]"%char rest => Some (VArr [], rest)
            | _ => '(items, rest) ← elems_ fuel' s'; Some (VArr items, rest)
            end
          else if Ascii.eqb c "{"%char then
            match skip_ws s' with
            | String "}"%char rest => Some (VObj [], rest)
            | _ => '(ps, rest) ← members_ fuel' s' []; Some (VObj ps, rest)
            end
          else
            '(n, rest) ← number (String c s'); Some (VNum n, rest)
      end
  end
with elems_ (fuel : nat) (s : string) : option (list value * string) :=
  match fuel with
  | O => None
  | S fuel' =>
      '(x, rest) ← value_ fuel' s;
      match skip_ws rest with
      | String "]"%char rest' => Some ([x], rest')
      | String ","%char rest' =>
          '(xs, rest'') ← elems_ fuel' rest'; Some (x :: xs, rest'')
      | _ => None
      end
  end
with members_ (fuel : nat) (s : string) (acc : list (string * value))
  : option (list (string * value) * string) :=
  match fuel with
  | O => None
  | S fuel' =>
      match skip_ws s with
      | String c s1 =>
          if Ascii.eqb c dquote then
            '(k, rest) ← str_body s1;
            match skip_ws rest with
            | String ":"%char rest1 =>
                '(x, rest2) ← value_ fuel' rest1;
                let acc' := assoc_set k x acc in
                match skip_ws rest2 with
                | String "}"%char rest3 => Some (acc', rest3)
                | String ","%char rest3 => members_ fuel' rest3 acc'
                | _ => None
                end
            | _ => None
            end
          else None
      | EmptyString => None
      end
  end.

Definition parse (s : string) : option value :=
  '(v, rest) ← value_ (S (2 * String.length s)) s;
  match skip_ws rest with
  | EmptyString => Some v
  | _ => None
  end.

End Json.

(** ** JSON-schema validation (the Ajv instance of config.ts)

    [new Ajv({ allErrors: true, useDefaults: true, removeAdditional: true })]
    restricted to the keywords the configuration schema uses.  A failed
    validation is [None]; a successful one returns the validated data with
    the defaults filled in and, where [additionalProperties] is [false], the
    unlisted properties removed. *)

Module Ajv.
Import Js.

Inductive jtype : Type := TObject | TArray | TString | TNumber | TBoolean | TNull.

(** [additionalProperties]: [None] is an absent keyword, [Some None] is
    [false], [Some (Some s)] is a schema. *)
#[warnings="-register-all"] Inductive schema : Type :=
| Schema (type_ : list jtype)
         (enum : option (list string))
         (default_ : option value)
         (properties : option (list (string * schema)))
         (additionalProperties : option (option schema)).

Definition has_type (v : value) (t : jtype) : bool :=
  match t, v with
  | TObject, VObj _ | TArray, VArr _ | TString, VStr _
  | TNumber, VNum _ | TBoolean, VBool _ | TNull, VNull => true
  | _, _ => false
  end.

Definition type_ok (types : list jtype) (v : value) : bool :=
  match types with
  | [] => true
  | _ => existsb (has_type v) types
  end.

(** [enum] over string literals *)
Definition enum_ok (enum : option (list string)) (v : value) : bool :=
  match enum with
  | None => true
  | Some allowed => existsb (is_str (Some v)) allowed
  end.

Definition has_key (k : string) (ps : list (string * value)) : bool :=
  bool_decide (is_Some (assoc k ps)).

Definition listed (k : string) (props : option (list (string * schema))) : bool :=
  match props with
  | Some l => bool_decide (k ∈ l.*1)
  | None => false
  end.

Fixpoint validate (s : schema) (v : value) : option value :=
  match s with
  | Schema types enum _ props addl =>
      if type_ok types v && enum_ok enum v then
        match v with
        | VObj ps =>
            (* useDefaults: a missing property takes its schema's default *)
            let ps1 :=
              match props with
              | Some l =>
                  (fix defaults (l : list (string * schema)) (ps : list (string * value)) :=
                     match l with
                     | [] => ps
                     | (k, Schema _ _ (Some d) _ _) :: l' =>
                         defaults l' (if has_key k ps then ps else ps ++ [(k, d)])
                     | _ :: l' => defaults l' ps
                     end) l ps
              | None => ps
              end in
            (* additionalProperties, with removeAdditional *)
            ps2 ←
              match addl with
              | None => Some ps1
              | Some None => Some (filter (fun kv => listed kv.1 props = true) ps1)
              | Some (Some extra) =>
                  (fix each (ps : list (string * value)) :=
                     match ps with
                     | [] => Some []
                     | (k, x) :: ps' =>
                         x' ← (if listed k props then Some x else validate extra x);
                         rest ← each ps';
                         Some ((k, x') :: rest)
                     end) ps1
              end;
            (* properties *)
            ps3 ←
              match props with
              | Some l =>
                  (fix each (l : list (string * schema)) (ps : list (string * value)) :=
                     match l with
                     | [] => Some ps
                     | (k, sub) :: l' =>
                         ps' ← match assoc k ps with
                               | Some x => x' ← validate sub x; Some (assoc_set k x' ps)
                               | None => Some ps
                               end;
                         each l' ps'
                     end) l ps2
              | None => Some ps2
              end;
            Some (VObj ps3)
        | _ => Some v
        end
      else None
  end.

End Ajv.

(** ** The configuration (config.ts) *)

(** [Config]; a field that is [None] is [undefined]. *)
Record Config : Type := {
  config_autoupdate : Js.maybe;
  config_installDir : Js.value;
  config_agents : Js.maybe;
  config_version : Js.maybe
}.

Definition stringSchema : Ajv.schema :=
  Ajv.Schema [Ajv.TString] None None None None.

Definition profileSchema : Ajv.schema :=
  Ajv.Schema [Ajv.TObject; Ajv.TNull] None None
    (Some [("baseProfile", stringSchema)]) None.

Definition autoupdateSchema : Ajv.schema :=
  Ajv.Schema [Ajv.TString] (Some ["enabled"; "disabled"])
    (Some (Js.VStr "disabled")) None None.

Definition agentSchema : Ajv.schema :=
  Ajv.Schema [Ajv.TObject] None None (Some [("profile", profileSchema)]) None.

Definition agentsSchema : Ajv.schema :=
  Ajv.Schema [Ajv.TObject] None None None (Some (Some agentSchema)).

Definition configProperties : list (string * Ajv.schema) :=
  [("autoupdate", autoupdateSchema);
   ("profile", profileSchema);
   ("installDir", stringSchema);
   ("agents", agentsSchema);
   ("version", stringSchema)].

Definition configSchema : Ajv.schema :=
  Ajv.Schema [Ajv.TObject] None None (Some configProperties) (Some None).

Definition validateConfigSchema : Js.value -> option Js.value :=
  Ajv.validate configSchema.

(** [getInstalledAgents({ config })] *)
Definition getInstalledAgents (config : Config) : list string :=
  let agents := Js.keys (Js.coalesce (config_agents config) (Js.VObj [])) in
  if Nat.ltb 0 (length agents) then agents else ["claude-code"].

(** [getAgentProfile({ config, agentName })]; the result is the profile
    object or [null]. *)
Definition getAgentProfile (config : Config) (agentName : string) : Js.value :=
  match config_agents config with
  | None | Some Js.VNull => Js.VNull
  | Some agents =>
      let agentConfig := Js.prop agents agentName in
      match Js.opt_prop agentConfig "profile" with
      | None | Some Js.VNull => Js.VNull
      | Some p => p
      end
  end.

(** ** Destination layout

    Modelled from the spec: paths.ts is not part of the sources.  The spec
    fixes "subdirectories for skills, subagents, commands, profiles ... under
    a single configuration root resolved from the install directory"; the
    loaders name them [.claude/skills] and [.claude/settings.json]. *)

Definition claudeDir : Fs.path := [".claude"].
Definition claudeSkillsDir : Fs.path := [".claude"; "skills"].
Definition claudeSettingsFile : Fs.path := [".claude"; "settings.json"].

(** [getManifestPath] and [getConfigPath] *)
Definition manifestPath : Fs.path := [".claude"; ".nojo-manifest.json"].
Definition configPath : Fs.path := [".claude"; ".nojo-config.json"].

(** ** Concrete data

    An instance of the parameters of the engine and a small installation,
    on which the properties are evaluated. *)

Module Ex.

Definition sha256 (content : string) : string := "sha256:" +:+ content.

Definition clock (n : nat) : string := "2026-01-01T00:00:00Z+" +:+ pretty n.

Definition pkgVersion : option string := Some "13.0.0".

(** A template substitution that puts the install directory in front. *)
Definition substitute (content installDir : string) : string :=
  installDir +:+ "|" +:+ content.

Definition installDir : string := "/home/u".

Definition stringify (space : nat) (v : Js.value) : string := Json.print v.

(** The profile ships a skill with three files and one top-level file. *)
Definition skill : src_node :=
  SDir [("SKILL.md", SFile "v2");
        ("README.md", SFile "see SKILL.md");
        ("helper.sh", SFile "echo hi")].

Definition entries : list (string * src_node) :=
  [("using-skills", skill); ("notes.txt", SFile "shipped notes")].

Definition src : src_node := SDir entries.

Definition skillMd : Fs.path := [".claude"; "skills"; "using-skills"; "SKILL.md"].
Definition readmeMd : Fs.path := [".claude"; "skills"; "using-skills"; "README.md"].
Definition helperSh : Fs.path := [".claude"; "skills"; "using-skills"; "helper.sh"].
Definition notesTxt : Fs.path := [".claude"; "skills"; "notes.txt"].

(** The manifest remembers SKILL.md as installed with content [v1]. *)
Definition skillEntry : ManifestEntry :=
  {| path := skillMd;
     hash := sha256 (substitute "v1" installDir);
     source := nojo;
     profile := Some "alpha";
     version := "12.0.0";
     installedAt := "2025-12-01T00:00:00Z" |}.

Definition manifest : Manifest :=
  {| schemaVersion := 1;
     nojoVersion := "12.0.0";
     createdAt := "2025-12-01T00:00:00Z";
     updatedAt := "2025-12-01T00:00:00Z";
     files := {[ skillMd := skillEntry ]};
     preInstallSnapshot := None |}.

(** The manifest file of that installation. *)
Definition manifestJson : Js.value :=
  Js.VObj
    [("schemaVersion", Js.VNum 1);
     ("nojoVersion", Js.VStr "12.0.0");
     ("createdAt", Js.VStr "2025-12-01T00:00:00Z");
     ("updatedAt", Js.VStr "2025-12-01T00:00:00Z");
     ("files",
      Js.VObj
        [(".claude/skills/using-skills/SKILL.md",
          Js.VObj
            [("path", Js.VStr ".claude/skills/using-skills/SKILL.md");
             ("hash", Js.VStr (sha256 (substitute "v1" installDir)));
             ("source", Js.VStr "nojo");
             ("profile", Js.VStr "alpha");
             ("version", Js.VStr "12.0.0");
             ("installedAt", Js.VStr "2025-12-01T00:00:00Z")])]);
     ("preInstallSnapshot", Js.VNull)].

(** The same manifest after a save by version 13.0.0. *)
Definition savedAt : string := "2026-02-02T00:00:00Z".

Definition savedManifestJson : Js.value :=
  Js.VObj
    [("schemaVersion", Js.VNum 1);
     ("nojoVersion", Js.VStr "13.0.0");
     ("createdAt", Js.VStr "2025-12-01T00:00:00Z");
     ("updatedAt", Js.VStr savedAt);
     ("files",
      Js.VObj
        [(".claude/skills/using-skills/SKILL.md",
          Js.VObj
            [("path", Js.VStr ".claude/skills/using-skills/SKILL.md");
             ("hash", Js.VStr (sha256 (substitute "v1" installDir)));
             ("source", Js.VStr "nojo");
             ("profile", Js.VStr "alpha");
             ("version", Js.VStr "12.0.0");
             ("installedAt", Js.VStr "2025-12-01T00:00:00Z")])]);
     ("preInstallSnapshot", Js.VNull)].

Definition settingsJson : Js.value :=
  Js.VObj
    [("permissions",
      Js.VObj [("additionalDirectories", Js.VArr [Js.VStr "/home/u/.claude/skills"])])].

(** On disk: SKILL.md edited by the user since, notes.txt put there by the
    user and never installed by the engine. *)
Definition disk : Fs.t :=
  {[ [] := Fs.Dir;
     [".claude"] := Fs.Dir;
     [".claude"; "skills"] := Fs.Dir;
     [".claude"; "skills"; "using-skills"] := Fs.Dir;
     skillMd := Fs.File "v1-edited";
     notesTxt := Fs.File "my notes";
     [".claude"; ".nojo-manifest.json"] := Fs.File (Json.print manifestJson);
     [".claude"; "settings.json"] := Fs.File (Json.print settingsJson) ]}.

Definition state : State :=
  {| st_fs := disk; st_manifest := manifest; st_ticks := 0; st_log := [] |}.

(** A manifest file whose [files] is [null]. *)
Definition nullFilesJson : Js.value :=
  Js.VObj [("schemaVersion", Js.VNum 1); ("files", Js.VNull)].

Definition nullFilesDisk : Fs.t :=
  {[ [] := Fs.Dir;
     [".claude"] := Fs.Dir;
     [".claude"; ".nojo-manifest.json"] := Fs.File (Json.print nullFilesJson) ]}.

(** Configuration files: a legacy one, a legacy one with a bad
    [autoupdate], and one with both [profile] and [agents]. *)
Definition legacyConfig : list (string * Js.value) :=
  [("profile", Js.VObj [("baseProfile", Js.VStr "amol")])].

Definition badLegacyConfig : list (string * Js.value) :=
  [("profile", Js.VObj [("baseProfile", Js.VStr "amol")]);
   ("autoupdate", Js.VStr "sometimes")].

Definition bothConfig : list (string * Js.value) :=
  [("profile", Js.VObj [("baseProfile", Js.VStr "legacy-profile")]);
   ("agents",
    Js.VObj [("claude-code",
              Js.VObj [("profile", Js.VObj [("baseProfile", Js.VStr "new-profile")])])])].

Definition configDisk (ps : list (string * Js.value)) : Fs.t :=
  {[ [] := Fs.Dir;
     [".claude"] := Fs.Dir;
     [".claude"; ".nojo-config.json"] := Fs.File (Json.print (Js.VObj ps)) ]}.

Definition noAgents : Config :=
  {| config_autoupdate := None;
     config_installDir := Js.VStr installDir;
     config_agents := Some (Js.VObj []);
     config_version := None |}.

Definition twoAgents : Config :=
  {| config_autoupdate := None;
     config_installDir := Js.VStr installDir;
     config_agents :=
       Some (Js.VObj
               [("claude-code",
                 Js.VObj [("profile", Js.VObj [("baseProfile", Js.VStr "senior-swe")])]);
                ("cursor-agent",
                 Js.VObj [("profile", Js.VObj [("baseProfile", Js.VStr "documenter")])])]);
     config_version := None |}.

(** A directory without any [.claude], and a manifest without entries. *)
Definition bareDisk : Fs.t := {[ [] := Fs.Dir ]}.

Definition freshManifest : Manifest :=
  {| schemaVersion := 1;
     nojoVersion := "13.0.0";
     createdAt := "2026-01-01T00:00:00Z";
     updatedAt := "2026-01-01T00:00:00Z";
     files := ∅;
     preInstallSnapshot := None |}.

Definition freshState : State :=
  {| st_fs := bareDisk; st_manifest := freshManifest; st_ticks := 0; st_log := [] |}.

(** A file stands where the [.claude] directory has to be. *)
Definition blockedState : State :=
  {| st_fs := {[ [] := Fs.Dir; [".claude"] := Fs.File "not a directory" ]};
     st_manifest := freshManifest; st_ticks := 0; st_log := [] |}.

(** The destination of notes.txt is a directory that the manifest
    tracks. *)
Definition notesEntry : ManifestEntry :=
  {| path := notesTxt;
     hash := sha256 "shipped notes";
     source := nojo;
     profile := Some "alpha";
     version := "12.0.0";
     installedAt := "2025-12-01T00:00:00Z" |}.

Definition trackedDirState : State :=
  {| st_fs := {[ [] := Fs.Dir;
                 [".claude"] := Fs.Dir;
                 [".claude"; "skills"] := Fs.Dir;
                 notesTxt := Fs.Dir ]};
     st_manifest :=
       {| schemaVersion := 1;
          nojoVersion := "12.0.0";
          createdAt := "2025-12-01T00:00:00Z";
          updatedAt := "2025-12-01T00:00:00Z";
          files := {[ notesTxt := notesEntry ]};
          preInstallSnapshot := None |};
     st_ticks := 0; st_log := [] |}.

(** A profile that also ships a paid skill. *)
Definition paidSkill : list (string * src_node) := [("SKILL.md", SFile "paid")].

Definition paidEntries : list (string * src_node) :=
  [("paid-recall", SDir paidSkill); ("using-skills", skill)].

Definition paidSkillMd : Fs.path := [".claude"; "skills"; "paid-recall"; "SKILL.md"].

(** A configuration file with two agents, next to a legacy file. *)
Definition twoAgentsList : list (string * Js.value) :=
  [("claude-code",
    Js.VObj [("profile", Js.VObj [("baseProfile", Js.VStr "senior-swe")])]);
   ("cursor-agent",
    Js.VObj [("profile", Js.VObj [("baseProfile", Js.VStr "documenter")])])].

Definition twoAgentsConfig : list (string * Js.value) :=
  [("agents", Js.VObj twoAgentsList);
   ("autoupdate", Js.VStr "enabled");
   ("version", Js.VStr "12.0.0");
   ("installDir", Js.VStr installDir)].

Definition loadedTwoAgents : Config :=
  {| config_autoupdate := Some (Js.VStr "enabled");
     config_installDir := Js.VStr installDir;
     config_agents := Some (Js.VObj twoAgentsList);
     config_version := Some (Js.VStr "12.0.0") |}.

Definition installedDisk : Fs.t :=
  {[ [] := Fs.Dir;
     [".nojo-config.json"] := Fs.File "{}";
     [".claude"] := Fs.Dir;
     [".claude"; ".nojo-config.json"] := Fs.File (Json.print (Js.VObj twoAgentsConfig)) ]}.

(** A configuration file whose [agents] object is empty. *)
Definition emptyAgentsConfig : list (string * Js.value) :=
  [("agents", Js.VObj []);
   ("autoupdate", Js.VStr "enabled");
   ("version", Js.VStr "12.0.0")].

Definition loadedEmptyAgents : Config :=
  {| config_autoupdate := Some (Js.VStr "enabled");
     config_installDir := Js.VStr installDir;
     config_agents := Some (Js.VObj []);
     config_version := Some (Js.VStr "12.0.0") |}.

(** The runtime configurations of an uninstall of one agent and of both. *)
Definition removeCursor : Config :=
  {| config_autoupdate := None;
     config_installDir := Js.VStr installDir;
     config_agents := Some (Js.VObj [("cursor-agent", Js.VObj [])]);
     config_version := None |}.

Definition removeBoth : Config :=
  {| config_autoupdate := None;
     config_installDir := Js.VStr installDir;
     config_agents :=
       Some (Js.VObj [("cursor-agent", Js.VObj []); ("claude-code", Js.VObj [])]);
     config_version := None |}.

End Ex.
(** ** The engine *)

Section Engine.

(** [crypto.createHash("sha256").update(content).digest("hex")] *)
Variable sha256 : string -> string.
(** [new Date().toISOString()] at the n-th read of the clock *)
Variable clock : nat -> string.
(** [getCurrentPackageVersion()] (version.ts); [None] is [null] *)
Variable getCurrentPackageVersion : option string.
(** [substituteTemplatePaths({ content, installDir })] (template.ts) *)
Variable substituteTemplatePaths : string -> string -> string.
(** The absolute path of the install directory *)
Variable installDir : string.
(** [JSON.parse(text)]; [None] is a [SyntaxError] *)
Variable JSON_parse : string -> option Js.value.
(** [JSON.stringify(value, null, space)] *)
Variable JSON_stringify : nat -> Js.value -> string.

(** *** Content hasher and manifest store (manifest.ts) *)

Definition computeFileHash (fs : Fs.t) (filePath : Fs.path) : option string :=
  content ← Fs.readFile fs filePath;
  Some (sha256 content).

Definition isFileModified (fs : Fs.t) (filePath : Fs.path) (expectedHash : string)
  : option bool :=
  try_catch
    (currentHash ← computeFileHash fs filePath;
     Some (negb (bool_decide (currentHash = expectedHash))))
    (Some false).

Definition fileExists (fs : Fs.t) (filePath : Fs.path) : option bool :=
  try_catch
    (_ ← Fs.access fs filePath;
     Some true)
    (Some false).

Definition packageVersion : string := default "unknown" getCurrentPackageVersion.

Definition createManifest (now : string) : Manifest :=
  {| schemaVersion := 1%Z;
     nojoVersion := packageVersion;
     createdAt := now;
     updatedAt := now;
     files := ∅;
     preInstallSnapshot := None |}.

Definition addToManifest (m : Manifest) (filePath : Fs.path) (h : string)
    (src : Source) (prof : option string) (ver : string) (now : string) : Manifest :=
  let entry :=
    {| path := filePath;
       hash := h;
       source := src;
       profile := prof;
       version := ver;
       installedAt := now |} in
  set_files m (<[filePath := entry]> (files m)).

Definition removeFromManifest (m : Manifest) (filePath : Fs.path) : Manifest :=
  set_files m (delete filePath (files m)).

Definition getManifestEntry (m : Manifest) (filePath : Fs.path)
  : option ManifestEntry :=
  files m !! filePath.

(** [Object.values(manifest.files).filter(...)]; the order of the result
    is that of the map, not the insertion order of the object. *)
Definition getEntriesForProfile (m : Manifest) (profileName : string)
  : list ManifestEntry :=
  filter (fun e => profile e = Some profileName) (map_to_list (files m)).*2.

Definition getNojoManagedEntries (m : Manifest) : list ManifestEntry :=
  filter (fun e => source e = nojo) (map_to_list (files m)).*2.

(** *** Directory synchroniser (skills loader) *)

Definition bump_preserved (c : Counts) : Counts :=
  {| preserved := S (preserved c); installed := installed c |}.

Definition bump_installed (c : Counts) : Counts :=
  {| preserved := preserved c; installed := S (installed c) |}.

Definition add_counts (c sub : Counts) : Counts :=
  {| preserved := preserved c + preserved sub;
     installed := installed c + installed sub |}.

Definition zero : Counts := {| preserved := 0; installed := 0 |}.

(** [info(...); preserved++; continue] *)
Definition preserve (ev : Event) (st : State) (c : Counts) : State * Counts :=
  ({| st_fs := st_fs st;
      st_manifest := st_manifest st;
      st_ticks := st_ticks st;
      st_log := st_log st ++ [ev] |},
   bump_preserved c).

(** The content an install writes for the source file [name]: [.md] files
    go through the template substitution and [fs.writeFile], the others
    through [fs.copyFile]. *)
Definition finalContent (name content : string) : string :=
  if endsWith name ".md" then substituteTemplatePaths content installDir
  else content.

(** The "safe to install/update" tail of the loop body: write, hash what
    is now on disk, record it in the manifest, count it. *)
Definition install (name content : string) (destPath : Fs.path)
    (profileName ver : string) (st : State) (c : Counts)
  : option (State * Counts) :=
  fs' ← (if endsWith name ".md"
         then Fs.writeFile (st_fs st) destPath
                (substituteTemplatePaths content installDir)
         else Fs.copyFile (st_fs st) content destPath);
  newHash ← computeFileHash fs' destPath;
  Some ({| st_fs := fs';
           st_manifest :=
             addToManifest (st_manifest st) destPath newHash nojo
               (Some profileName) ver (clock (st_ticks st));
           st_ticks := S (st_ticks st);
           st_log := st_log st ++ [Installed destPath] |},
        bump_installed c).

(** The body of the loop for an entry that is not a directory. *)
Definition syncFile (name content : string) (dest : Fs.path)
    (profileName ver : string) (st : State) (c : Counts)
  : option (State * Counts) :=
  let destPath := dest ++ [name] in
  let relativePath := destPath in
  destExists ← fileExists (st_fs st) destPath;
  let manifestEntry := getManifestEntry (st_manifest st) relativePath in
  if destExists : bool then
    match manifestEntry with
    | Some e =>
        currentHash ← computeFileHash (st_fs st) destPath;
        if negb (bool_decide (currentHash = hash e))
        then Some (preserve (PreservedModified relativePath) st c)
        else install name content destPath profileName ver st c
    | None => Some (preserve (PreservedExisting relativePath) st c)
    end
  else install name content destPath profileName ver st c.

Definition with_fs (st : State) (fs : Fs.t) : State :=
  {| st_fs := fs;
     st_manifest := st_manifest st;
     st_ticks := st_ticks st;
     st_log := st_log st |}.

(** [copyDirWithManifestTracking({ src, dest, installDir, manifest,
    profileName })].  [fs.readdir] throws when [src] is not a directory. *)
Fixpoint copyDirWithManifestTracking (src : src_node) (dest : Fs.path)
    (profileName : string) (st : State) : option (State * Counts) :=
  fs1 ← Fs.mkdir_p (st_fs st) dest;
  match src with
  | SFile _ => None
  | SDir entries =>
      let ver := packageVersion in
      (fix loop (es : list (string * src_node)) (st : State) (c : Counts)
         : option (State * Counts) :=
         match es with
         | [] => Some (st, c)
         | (name, entry) :: es' =>
             match entry with
             | SDir _ =>
                 '(st', subResult) ←
                   copyDirWithManifestTracking entry (dest ++ [name]) profileName st;
                 loop es' st' (add_counts c subResult)
             | SFile content =>
                 '(st', c') ← syncFile name content dest profileName ver st c;
                 loop es' st' c'
             end
         end) entries (with_fs st fs1) zero
  end.

(** The loop of [installSkills] over the entries of the profile's skills
    directory: files at the top level are synchronised in place,
    [paid-] directories are skipped, the other directories go through
    [copyDirWithManifestTracking]. *)
Definition installSkillsFile (name content : string)
    (profileName ver : string) (st : State) (totals : Counts)
  : option (State * Counts) :=
  let destPath := claudeSkillsDir ++ [name] in
  let relativePath := destPath in
  destExists ← fileExists (st_fs st) destPath;
  let manifestEntry := getManifestEntry (st_manifest st) relativePath in
  if destExists : bool then
    match manifestEntry with
    | Some e =>
        currentHash ← computeFileHash (st_fs st) destPath;
        if negb (bool_decide (currentHash = hash e))
        then Some (preserve (PreservedModified relativePath) st totals)
        else install name content destPath profileName ver st totals
    | None => Some (preserve (PreservedExisting relativePath) st totals)
    end
  else install name content destPath profileName ver st totals.

Fixpoint installSkillsEntries (entries : list (string * src_node))
    (profileName : string) (st : State) (totals : Counts)
  : option (State * Counts) :=
  match entries with
  | [] => Some (st, totals)
  | (name, entry) :: rest =>
      match entry with
      | SFile content =>
          '(st', totals') ←
            installSkillsFile name content profileName packageVersion st totals;
          installSkillsEntries rest profileName st' totals'
      | SDir _ =>
          if startsWith name "paid-" then
            installSkillsEntries rest profileName st totals
          else
            '(st', result) ←
              copyDirWithManifestTracking entry (claudeSkillsDir ++ [name])
                profileName st;
            installSkillsEntries rest profileName st' (add_counts totals result)
      end
  end.

(** *** Loading and saving the manifest file (manifest.ts)

    The result of [loadManifest] is the parsed object itself, cast to
    [Manifest] without further checks, or [null]. *)

Definition loadManifest (fs : Fs.t) : option Js.value :=
  try_catch
    (_ ← Fs.access fs manifestPath;
     content ← Fs.readFile fs manifestPath;
     manifest ← JSON_parse content;
     if Js.nullish (Some manifest)
        || negb (bool_decide (Js.typeof (Some manifest) = "object"))
        || negb (Js.is_num (Js.prop manifest "schemaVersion") 1)
        || negb (bool_decide (Js.typeof (Js.prop manifest "files") = "object"))
     then Some Js.VNull
     else Some manifest)
    (Some Js.VNull).

(** [saveManifest({ installDir, manifest })] at clock reading [now]; the
    second component is the manifest object after the in-place update. *)
Definition saveManifest (fs : Fs.t) (manifest : Js.value) (now : string)
  : option (Fs.t * Js.value) :=
  fs1 ← Fs.mkdir_p fs (Fs.dirname manifestPath);
  manifest1 ← Js.set manifest "updatedAt" (Js.VStr now);
  manifest2 ← Js.set manifest1 "nojoVersion" (Js.VStr packageVersion);
  fs2 ← Fs.writeFile fs1 manifestPath (JSON_stringify 2 manifest2);
  Some (fs2, manifest2).

(** *** Uninstall (skills loader, manifest loader) *)

(** [path.join(installDir, ".claude", "skills")] as recorded in
    settings.json *)
Definition claudeSkillsDirName : string := installDir +:+ "/.claude/skills".

Definition removeSkillsPermissions (fs : Fs.t) : option Fs.t :=
  try_catch
    (content ← Fs.readFile fs claudeSettingsFile;
     settings ← JSON_parse content;
     permissions ←
       match settings with
       | Js.VNull => None
       | _ => Some (Js.prop settings "permissions")
       end;
     let additionalDirectories := Js.opt_prop permissions "additionalDirectories" in
     if Js.truthy additionalDirectories then
       match additionalDirectories, permissions with
       | Some (Js.VArr dirs), Some perms =>
           let kept :=
             filter (fun dir => Js.is_str (Some dir) claudeSkillsDirName = false) dirs in
           perms1 ← Js.set perms "additionalDirectories" (Js.VArr kept);
           let perms2 :=
             if bool_decide (length kept = 0)
             then Js.del perms1 "additionalDirectories" else perms1 in
           settings1 ← Js.set settings "permissions" perms2;
           let settings2 :=
             if bool_decide (length (Js.keys perms2) = 0)
             then Js.del settings1 "permissions" else settings1 in
           Fs.writeFile fs claudeSettingsFile (JSON_stringify 2 settings2)
       | _, _ => None
       end
     else Some fs)
    (Some fs).

Definition uninstallSkills (fs : Fs.t) : option Fs.t :=
  fs1 ← try_catch
          (_ ← Fs.access fs claudeSkillsDir;
           Some (Fs.rm_rf fs claudeSkillsDir))
          (Some fs);
  removeSkillsPermissions fs1.

Definition uninstallManifest (fs : Fs.t) : option Fs.t :=
  fs1 ← (if negb (Fs.exists_ fs manifestPath) then Some fs
         else Fs.unlink fs manifestPath);
  if Fs.exists_ fs1 claudeDir then
    entries ← Fs.readdir fs1 claudeDir;
    if bool_decide (length entries = 0) then Fs.rmdir fs1 claudeDir
    else Some fs1
  else Some fs1.

(** *** Loading the configuration file (config.ts)

    The outer [option] is the exception, the inner one is [null]. *)

Definition legacyAgents (baseProfile : Js.value) : Js.value :=
  Js.VObj [("claude-code",
            Js.VObj [("profile", Js.VObj [("baseProfile", baseProfile)])])].

Definition loadConfig (fs : Fs.t) : option (option Config) :=
  try_catch
    (_ ← Fs.access fs configPath;
     content ← Fs.readFile fs configPath;
     rawConfig ← JSON_parse content;
     if Js.nullish (Some rawConfig)
        || negb (bool_decide (Js.typeof (Some rawConfig) = "object"))
     then Some None
     else
       configClone ← JSON_parse (JSON_stringify 0 rawConfig);
       match validateConfigSchema configClone with
       | None => Some None
       | Some validated =>
           let agents :=
             if negb (Js.nullish (Js.prop validated "agents"))
             then Js.prop validated "agents"
             else
               match Js.opt_prop (Js.prop validated "profile") "baseProfile" with
               | None | Some Js.VNull => None
               | Some baseProfile => Some (legacyAgents baseProfile)
               end in
           let result :=
             {| config_installDir :=
                  Js.coalesce (Js.prop validated "installDir") (Js.VStr installDir);
                config_autoupdate := Js.prop validated "autoupdate";
                config_version := Js.prop validated "version";
                config_agents := agents |} in
           if negb (Js.nullish (config_agents result))
              || negb (Js.nullish (config_autoupdate result))
           then Some (Some result)
           else Some None
       end)
    (Some None).


(** *** Permissions for the skills directory (skills loader) *)

(** The settings [configureSkillsPermissions] starts from when
    settings.json cannot be read or parsed. *)
Definition defaultSettings : Js.value :=
  Js.VObj [("$schema",
            Js.VStr "https://json.schemastore.org/claude-code-settings.json")].

(** [s.includes(searchString)] on a string *)
Definition String_includes (s searchString : string) : bool :=
  bool_decide (is_Some (String.index 0 searchString s)).

(** [dirs.includes(claudeSkillsDir)] on an array *)
Definition includesSkillsDir (dirs : list Js.value) : bool :=
  existsb (fun dir => Js.is_str (Some dir) claudeSkillsDirName) dirs.

(** The three [if]s of [configureSkillsPermissions], on the parsed
    settings; the result is the value [JSON.stringify] then prints.

    - Reading a property of [null] and assigning a property of a primitive
      are [TypeError]s.
    - On an array, [permissions] is an own property that
      [JSON.stringify] does not print, so that an array is written back as
      it was read; the same holds for [additionalDirectories] on a
      [permissions] that is an array.
    - A string has an [includes], the substring test, and no [push]; the
      other values that are not arrays have neither. *)
Definition grantSkillsDir (settings : Js.value) : option Js.value :=
  match settings with
  | Js.VNull => None
  | Js.VArr _ => Some settings
  | _ =>
      settings1 ←
        (if negb (Js.truthy (Js.prop settings "permissions"))
         then Js.set settings "permissions" (Js.VObj [])
         else Some settings);
      permissions ← Js.prop settings1 "permissions";
      match permissions with
      | Js.VArr _ => Some settings1
      | _ =>
          permissions1 ←
            (if negb (Js.truthy (Js.prop permissions "additionalDirectories"))
             then Js.set permissions "additionalDirectories" (Js.VArr [])
             else Some permissions);
          additionalDirectories ← Js.prop permissions1 "additionalDirectories";
          permissions2 ←
            match additionalDirectories with
            | Js.VArr dirs =>
                if negb (includesSkillsDir dirs)
                then Js.set permissions1 "additionalDirectories"
                       (Js.VArr (dirs ++ [Js.VStr claudeSkillsDirName]))
                else Some permissions1
            | Js.VStr s =>
                if negb (String_includes s claudeSkillsDirName) then None
                else Some permissions1
            | _ => None
            end;
          Js.set settings1 "permissions" permissions2
      end
  end.

(** [configureSkillsPermissions({ config })]; the second component is the
    settings value that was written. *)
Definition configureSkillsPermissions (fs : Fs.t) : option (Fs.t * Js.value) :=
  fs1 ← Fs.mkdir_p fs (Fs.dirname claudeSettingsFile);
  settings ← try_catch
               (content ← Fs.readFile fs1 claudeSettingsFile;
                JSON_parse content)
               (Some defaultSettings);
  settings' ← grantSkillsDir settings;
  fs2 ← Fs.writeFile fs1 claudeSettingsFile (JSON_stringify 2 settings');
  Some (fs2, settings').

(** [settings.permissions?.additionalDirectories?.includes(claudeSkillsDir)]
    as tested by [validate]; [undefined] counts as [false]. *)
Definition skillsDirPermitted (settings : Js.value) : option bool :=
  match settings with
  | Js.VNull => None
  | _ =>
      match Js.opt_prop (Js.prop settings "permissions") "additionalDirectories" with
      | None | Some Js.VNull => Some false
      | Some (Js.VArr dirs) => Some (includesSkillsDir dirs)
      | Some (Js.VStr s) => Some (String_includes s claudeSkillsDirName)
      | Some _ => None
      end
  end.

(** *** Validation of the installed skills (skills loader) *)

Record ValidationResult : Type := {
  valid : bool;
  message : string;
  errors : option (list string)
}.

Definition quote : string := String (ascii_of_nat 34) EmptyString.

Definition runInstallTo (what : string) : string :=
  "Run " +:+ quote +:+ "nojo install" +:+ quote +:+ " to " +:+ what.

(** The errors of the loop over the entries of the profile's skills
    directory. *)
Definition expectedSkillErrors (fs : Fs.t)
    (sourceEntries : list (string * src_node)) : list string :=
  mjoin ((fun entry : string * src_node =>
            match entry.2 with
            | SFile _ => []
            | SDir _ =>
                if startsWith entry.1 "paid-" then []
                else if Fs.exists_ fs (claudeSkillsDir ++ [entry.1]) then []
                else ["Expected skill '" +:+ entry.1 +:+ "' not found"]
            end) <$> sourceEntries).

(** [validate({ config })]; [sourceEntries] is what [fs.readdir] gives for
    the skills directory of the profile, [None] when it throws.  A
    [baseProfile] that is not a string makes [path.join] throw. *)
Definition validate (fs : Fs.t) (config : Config)
    (sourceEntries : option (list (string * src_node)))
  : option ValidationResult :=
  if negb (Fs.exists_ fs claudeSkillsDir) then
    Some {| valid := false;
            message := "Skills directory not found";
            errors := Some ["Skills directory not found at " +:+ claudeSkillsDirName;
                            runInstallTo "install skills"] |}
  else
    match Js.opt_prop (Some (getAgentProfile config "claude-code")) "baseProfile" with
    | None | Some Js.VNull =>
        Some {| valid := false;
                message := "No profile configured";
                errors := Some ["No profile configured for claude-code";
                                "Run 'nojo install' to configure a profile"] |}
    | Some (Js.VStr profileName) =>
        let missing :=
          match sourceEntries with
          | Some entries => expectedSkillErrors fs entries
          | None => []
          end in
        if Nat.ltb 0 (length missing) then
          Some {| valid := false;
                  message := "Skills directory incomplete";
                  errors := Some (missing ++ [runInstallTo "reinstall skills"]) |}
        else
          match (content ← Fs.readFile fs claudeSettingsFile;
                 settings ← JSON_parse content;
                 skillsDirPermitted settings) with
          | Some true =>
              Some {| valid := true;
                      message := "Skills are properly installed";
                      errors := None |}
          | Some false =>
              Some {| valid := false;
                      message := "Skills permissions not configured";
                      errors :=
                        Some ["Skills directory not configured in permissions.additionalDirectories";
                              runInstallTo "configure permissions"] |}
          | None =>
              Some {| valid := false;
                      message := "Settings file error";
                      errors := Some ["Could not read or parse settings.json"] |}
          end
    | Some _ => None
    end.

(** *** Saving the configuration file (config.ts, config loader) *)

(** [path.join(installDir, ".nojo-config.json")] *)
Definition legacyConfigPath : Fs.path := [".nojo-config.json"].

(** The object [saveConfig] builds: [agents], [autoupdate] and [version]
    when they are not [null], then [installDir]. *)
Definition configObject (autoupdate agents version : Js.maybe) : Js.value :=
  let config : list (string * Js.value) := [] in
  let config :=
    match agents with
    | None | Some Js.VNull => config
    | Some a => Js.assoc_set "agents" a config
    end in
  let config :=
    match autoupdate with
    | None | Some Js.VNull => config
    | Some a => Js.assoc_set "autoupdate" a config
    end in
  let config :=
    match version with
    | None | Some Js.VNull => config
    | Some v => Js.assoc_set "version" v config
    end in
  Js.VObj (Js.assoc_set "installDir" (Js.VStr installDir) config).

(** [saveConfig({ autoupdate, agents, version, installDir })] *)
Definition saveConfig (fs : Fs.t) (autoupdate agents version : Js.maybe)
  : option Fs.t :=
  fs1 ← Fs.mkdir_p fs (Fs.dirname configPath);
  Fs.writeFile fs1 configPath
    (JSON_stringify 2 (configObject autoupdate agents version)).

(** [o[k]] for [o] not [null]: an own property of an object, an element
    or the length of an array, a character or the length of a string;
    [undefined] otherwise. *)
Definition ownProperty (o : Js.value) (k : string) : Js.maybe :=
  match o with
  | Js.VObj ps => Js.assoc k ps
  | Js.VArr items =>
      if bool_decide (k = "length") then Some (Js.VNum (Z.of_nat (length items)))
      else Js.assoc k (zip (Js.indices (length items)) items)
  | Js.VStr s =>
      if bool_decide (k = "length") then Some (Js.VNum (Z.of_nat (String.length s)))
      else Js.assoc k (zip (Js.indices (String.length s))
                         ((fun c => Js.VStr (String c EmptyString))
                            <$> list_ascii_of_string s))
  | _ => None
  end.

(** An object some of whose properties are [undefined], as
    [JSON.stringify] prints it: those properties are left out. *)
Definition printedObject (ps : list (string * Js.maybe)) : Js.value :=
  Js.VObj (omap (fun kv : string * Js.maybe => v ← kv.2; Some (kv.1, v)) ps).

(** The loop of [uninstallConfig] that collects the agents that stay.  The
    assignment [remainingAgentsObj[agentName] = existingConfig.agents[agentName]]
    creates the property also when the value read is [undefined]. *)
Definition remainingAgents (existingConfig : Config)
    (installedAgents agentsToRemove : list string) : list (string * Js.maybe) :=
  foldl (fun remainingAgentsObj agentName =>
           if negb (bool_decide (agentName ∈ agentsToRemove))
              && Js.truthy (config_agents existingConfig)
           then
             Js.assoc_set agentName
               (agents ← config_agents existingConfig; ownProperty agents agentName)
               remainingAgentsObj
           else remainingAgentsObj)
        [] installedAgents.

(** [config.agents ? Object.keys(config.agents) : []] *)
Definition agentsToRemove (config : Config) : list string :=
  match config_agents config with
  | Some agents => if Js.truthy (Some agents) then Js.keys agents else []
  | None => []
  end.

(** [uninstallConfig({ config })]: [config.agents] names the agents being
    uninstalled. *)
Definition uninstallConfig (fs : Fs.t) (config : Config) : option Fs.t :=
  fs1 ← (if Fs.exists_ fs legacyConfigPath then Fs.unlink fs legacyConfigPath
         else Some fs);
  if negb (Fs.exists_ fs1 configPath) then Some fs1
  else
    loaded ← loadConfig fs1;
    match loaded with
    | None => Fs.unlink fs1 configPath
    | Some existingConfig =>
        let installedAgents := getInstalledAgents existingConfig in
        if bool_decide (length installedAgents = 0) then Fs.unlink fs1 configPath
        else
          let remainingAgentsObj :=
            remainingAgents existingConfig installedAgents
              (agentsToRemove config) in
          if bool_decide (length remainingAgentsObj.*1 = 0)
          then Fs.unlink fs1 configPath
          else
            saveConfig fs1
              (Some (Js.coalesce (config_autoupdate existingConfig) Js.VNull))
              (Some (printedObject remainingAgentsObj))
              (Some (Js.coalesce (config_version existingConfig) Js.VNull))
    end.
(** *** Notions used to state the properties *)

(** One run of the synchroniser, flattened: the directories it creates
    and the files it decides on, in the order of the traversal. *)
Inductive op : Type :=
| Mkdir (d : Fs.path)
| Put (dest : Fs.path) (name content : string).

Fixpoint plan (src : src_node) (dest : Fs.path) : list op :=
  match src with
  | SFile _ => [Mkdir dest]
  | SDir entries =>
      Mkdir dest ::
      mjoin ((fun e : string * src_node =>
                match e.2 with
                | SDir _ => plan e.2 (dest ++ [e.1])
                | SFile content => [Put dest e.1 content]
                end) <$> entries)
  end.

Definition entry_plan (dest : Fs.path) (e : string * src_node) : list op :=
  match e.2 with
  | SDir _ => plan e.2 (dest ++ [e.1])
  | SFile content => [Put dest e.1 content]
  end.

Definition skills_entry_plan (e : string * src_node) : list op :=
  match e.2 with
  | SFile content => [Put claudeSkillsDir e.1 content]
  | SDir _ =>
      if startsWith e.1 "paid-" then []
      else plan e.2 (claudeSkillsDir ++ [e.1])
  end.

Definition skillsPlan (entries : list (string * src_node)) : list op :=
  mjoin (skills_entry_plan <$> entries).

Definition put_of (o : op) : option (Fs.path * string * string) :=
  match o with
  | Put dest name content => Some (dest ++ [name], name, content)
  | Mkdir _ => None
  end.

(** The files of the source tree: destination path, name, content. *)
Definition sourceFiles (src : src_node) (dest : Fs.path)
  : list (Fs.path * string * string) :=
  omap put_of (plan src dest).

Definition skillsFiles (entries : list (string * src_node))
  : list (Fs.path * string * string) :=
  omap put_of (skillsPlan entries).

Definition put_paths (ops : list op) : list Fs.path :=
  (fun f : Fs.path * string * string => f.1.1) <$> omap put_of ops.

(** A directory listing names each entry once. *)
Fixpoint wf_src (src : src_node) : bool :=
  match src with
  | SFile _ => true
  | SDir entries =>
      bool_decide (NoDup entries.*1) && forallb (fun e => wf_src e.2) entries
  end.

Definition is_preserved (ev : Event) : bool :=
  match ev with
  | PreservedModified _ | PreservedExisting _ => true
  | Installed _ => false
  end.

Definition event_path (ev : Event) : Fs.path :=
  match ev with
  | PreservedModified p | PreservedExisting p | Installed p => p
  end.

(** The files a run reported as preserved, and the counts its events
    add up to. *)
Definition preservedFiles (evs : list Event) : list Fs.path :=
  event_path <$> filter (fun ev => is_preserved ev = true) evs.

Definition count (ev : Event) (c : Counts) : Counts :=
  if is_preserved ev then bump_preserved c else bump_installed c.

Definition tally (evs : list Event) : Counts :=
  foldl (fun c ev => count ev c) zero evs.

(** What a run wrote on the console. *)
Definition events_since (before after : State) : list Event :=
  drop (length (st_log before)) (st_log after).

(** The loop of [copyDirWithManifestTracking] on its own. *)
Fixpoint copyEntries (es : list (string * src_node)) (dest : Fs.path)
    (profileName : string) (st : State) (c : Counts) : option (State * Counts) :=
  match es with
  | [] => Some (st, c)
  | (name, entry) :: es' =>
      match entry with
      | SDir _ =>
          '(st', subResult) ←
            copyDirWithManifestTracking entry (dest ++ [name]) profileName st;
          copyEntries es' dest profileName st' (add_counts c subResult)
      | SFile content =>
          '(st', c') ← syncFile name content dest profileName packageVersion st c;
          copyEntries es' dest profileName st' c'
      end
  end.

(** The effect of one step of a plan, and of a plan. *)
Definition exec_op (profileName : string) (o : op) (st : State) : option State :=
  match o with
  | Mkdir d =>
      fs' ← Fs.mkdir_p (st_fs st) d;
      Some (with_fs st fs')
  | Put dest name content =>
      '(st', _) ← syncFile name content dest profileName packageVersion st zero;
      Some st'
  end.

Fixpoint run_plan (profileName : string) (ops : list op) (st : State)
  : option State :=
  match ops with
  | [] => Some st
  | o :: ops' =>
      st' ← exec_op profileName o st;
      run_plan profileName ops' st'
  end.

(** The state an install of the source file [name] at [p] leads to. *)
Definition installed_state (name content : string) (p : Fs.path)
    (profileName : string) (st : State) : State :=
  {| st_fs := <[p := Fs.File (finalContent name content)]> (st_fs st);
     st_manifest :=
       addToManifest (st_manifest st) p (sha256 (finalContent name content))
         nojo (Some profileName) packageVersion (clock (st_ticks st));
     st_ticks := S (st_ticks st);
     st_log := st_log st ++ [Installed p] |}.

Definition step_result (name content : string) (p : Fs.path)
    (profileName : string) (st : State) (ev : Event) : State :=
  if is_preserved ev then (preserve ev st zero).1
  else installed_state name content p profileName st.

(** The decision of the synchroniser for the destination path [p]. *)
Inductive decision (fs : Fs.t) (m : Manifest) (p : Fs.path) : Event -> Prop :=
| decide_existing :
    is_Some (fs !! p) -> files m !! p = None ->
    decision fs m p (PreservedExisting p)
| decide_modified d e :
    fs !! p = Some (Fs.File d) -> files m !! p = Some e ->
    sha256 d ≠ hash e ->
    decision fs m p (PreservedModified p)
| decide_fresh :
    fs !! p = None ->
    decision fs m p (Installed p)
| decide_update d e :
    fs !! p = Some (Fs.File d) -> files m !! p = Some e ->
    sha256 d = hash e ->
    decision fs m p (Installed p).

(** A source file whose decision will not change as long as nobody but
    the synchroniser touches its destination. *)
Definition settled (st : State) (f : Fs.path * string * string) (ev : Event)
  : Prop :=
  let p := f.1.1 in
  let written := finalContent f.1.2 f.2 in
  match ev with
  | PreservedExisting q =>
      q = p /\ is_Some (st_fs st !! p) /\ files (st_manifest st) !! p = None
  | PreservedModified q =>
      q = p /\ exists d e,
        st_fs st !! p = Some (Fs.File d) /\
        files (st_manifest st) !! p = Some e /\ sha256 d ≠ hash e
  | Installed q =>
      q = p /\ st_fs st !! Fs.dirname p = Some Fs.Dir /\
      st_fs st !! p = Some (Fs.File written) /\
      exists e, files (st_manifest st) !! p = Some e /\ hash e = sha256 written
  end.

(** The file system only grows by directories. *)
Definition grows (fs fs' : Fs.t) : Prop :=
  forall q, fs' !! q = fs !! q \/ (fs !! q = None /\ fs' !! q = Some Fs.Dir).

(** Every prefix of [d] is a directory. *)
Definition dirs_ok (fs : Fs.t) (d : Fs.path) : Prop :=
  forall k, fs !! take k d = Some Fs.Dir.

(** The [properties] keyword of {!Ajv.validate} on its own. *)
Fixpoint validate_properties (l : list (string * Ajv.schema))
    (ps : list (string * Js.value)) : option (list (string * Js.value)) :=
  match l with
  | [] => Some ps
  | (k, sub) :: l' =>
      ps' ← match Js.assoc k ps with
            | Some x => x' ← Ajv.validate sub x; Some (Js.assoc_set k x' ps)
            | None => Some ps
            end;
      validate_properties l' ps'
  end.

(** No tracked file differs from what the manifest recorded for it. *)
Definition manifest_clean (fs : Fs.t) (m : Manifest) : Prop :=
  forall p e,
    getManifestEntry m p = Some e -> isFileModified fs p (hash e) = Some false.

(** The destination paths of the directories a plan creates. *)
Definition mkdir_paths (ops : list op) : list Fs.path :=
  omap (fun o => match o with Mkdir d => Some d | Put _ _ _ => None end) ops.

(** Settings that are an object whose [permissions], if any, is not an
    array. *)
Definition plainSettings (settings : Js.value) : bool :=
  match settings with
  | Js.VObj ps =>
      match Js.assoc "permissions" ps with
      | Some (Js.VArr _) => false
      | _ => true
      end
  | _ => false
  end.

(** The settings [configureSkillsPermissions] works on. *)
Definition currentSettings (fs : Fs.t) : option Js.value :=
  try_catch
    (content ← Fs.readFile fs claudeSettingsFile;
     JSON_parse content)
    (Some defaultSettings).

(** The settings [removeSkillsPermissions] writes for an object [ps]
    whose [permissions] is the object [pps] with the array [dirs] as
    [additionalDirectories]. *)
Definition keptDirs (dirs : list Js.value) : list Js.value :=
  filter (fun dir => Js.is_str (Some dir) claudeSkillsDirName = false) dirs.

(** What is left of the [permissions] object [pps] once the skills
    directory is taken out of its [additionalDirectories], [dirs]: the
    property holds the other directories, or is gone when there is none. *)
Definition remainingPermissions (pps : list (string * Js.value))
    (dirs : list Js.value) : list (string * Js.value) :=
  if bool_decide (keptDirs dirs = [])
  then Js.assoc_del "additionalDirectories" pps
  else Js.assoc_set "additionalDirectories" (Js.VArr (keptDirs dirs)) pps.

Definition revokedSettings (ps pps : list (string * Js.value))
    (dirs : list Js.value) : Js.value :=
  let perms1 := Js.assoc_set "additionalDirectories" (Js.VArr (keptDirs dirs)) pps in
  let perms2 :=
    if bool_decide (length (keptDirs dirs) = 0)
    then Js.assoc_del "additionalDirectories" perms1 else perms1 in
  let settings1 := Js.assoc_set "permissions" (Js.VObj perms2) ps in
  if bool_decide (length perms2.*1 = 0)
  then Js.VObj (Js.assoc_del "permissions" settings1)
  else Js.VObj settings1.

(** The [additionalProperties] keyword of {!Ajv.validate} with a schema
    and no listed property, on its own. *)
Definition validate_each (extra : Ajv.schema)
  : list (string * Js.value) -> option (list (string * Js.value)) :=
  fix each ps :=
    match ps with
    | [] => Some []
    | (k, x) :: ps' =>
        x' ← Ajv.validate extra x;
        rest ← each ps';
        Some ((k, x') :: rest)
    end.

(** A value that is given, as [saveConfig] tests it with [!= null]. *)
Definition given (o : Js.maybe) : Js.maybe :=
  if Js.nullish o then None else o.

(** The agents of [aps] that are not being removed. *)
Definition keptAgents (toRemove : list string) (aps : list (string * Js.value))
  : list (string * Js.value) :=
  filter (fun kv => kv.1 ∉ toRemove) aps.

(** ** Properties *)

(** *** The file system *)

Lemma grows_refl fs : grows fs fs.
Proof. intros q; by left. Qed.

Lemma grows_trans fs1 fs2 fs3 : grows fs1 fs2 -> grows fs2 fs3 -> grows fs1 fs3.
Proof.
  intros H12 H23 q.
  destruct (H12 q) as [E12 | [N1 D2]], (H23 q) as [E23 | [N2 D3]].
  - left; congruence.
  - right; split; congruence.
  - right; split; congruence.
  - congruence.
Qed.

Lemma grows_Some fs fs' q n : grows fs fs' -> fs !! q = Some n -> fs' !! q = Some n.
Proof. intros G Hq. destruct (G q) as [E | [N _]]; congruence. Qed.

Lemma grows_File fs fs' q c :
  grows fs fs' -> fs' !! q = Some (Fs.File c) -> fs !! q = Some (Fs.File c).
Proof. intros G Hq. destruct (G q) as [E | [_ D]]; congruence. Qed.

Lemma ensure_dir_grows fs p fs' :
  Fs.ensure_dir fs p = Some fs' -> grows fs fs' /\ fs' !! p = Some Fs.Dir.
Proof.
  unfold Fs.ensure_dir. destruct (fs !! p) as [[c|]|] eqn:E; intros H; simplify_eq.
  - split; [apply grows_refl | done].
  - split; [| apply lookup_insert_eq].
    intros q. destruct (decide (p = q)) as [<- | Hne].
    + right. by rewrite lookup_insert_eq.
    + left. by rewrite lookup_insert_ne.
Qed.

Lemma mkdir_from_grows rest : forall fs done_ fs',
  Fs.mkdir_from fs done_ rest = Some fs' ->
  grows fs fs' /\ forall k, fs' !! (done_ ++ take k rest) = Some Fs.Dir.
Proof.
  induction rest as [| x rest IH]; intros fs done_ fs' H; simpl in H.
  - destruct (Fs.ensure_dir fs done_) as [fs1|] eqn:E; simplify_eq/=.
    apply ensure_dir_grows in E as [G D]. split; [done |].
    intros k. by rewrite take_nil, app_nil_r.
  - destruct (Fs.ensure_dir fs done_) as [fs1|] eqn:E; simplify_eq/=.
    apply ensure_dir_grows in E as [G D].
    apply IH in H as [G' D']. split; [by eapply grows_trans |].
    intros [| k]; simpl.
    + rewrite app_nil_r. by eapply grows_Some.
    + specialize (D' k). by rewrite <- app_assoc in D'.
Qed.

Lemma mkdir_p_grows fs d fs' : Fs.mkdir_p fs d = Some fs' -> grows fs fs'.
Proof. intros H. by apply mkdir_from_grows in H as [G _]. Qed.

Lemma mkdir_p_dirs_ok fs d fs' : Fs.mkdir_p fs d = Some fs' -> dirs_ok fs' d.
Proof. intros H k. apply mkdir_from_grows in H as [_ D]. apply (D k). Qed.

Lemma mkdir_from_id rest : forall fs done_,
  (forall k, fs !! (done_ ++ take k rest) = Some Fs.Dir) ->
  Fs.mkdir_from fs done_ rest = Some fs.
Proof.
  induction rest as [| x rest IH]; intros fs done_ D; simpl.
  - specialize (D 0). rewrite take_0, app_nil_r in D.
    unfold Fs.ensure_dir. by rewrite D.
  - pose proof (D 0) as D0. rewrite take_0, app_nil_r in D0.
    unfold Fs.ensure_dir. rewrite D0. simpl. apply IH.
    intros k. specialize (D (S k)). simpl in D. by rewrite <- app_assoc.
Qed.

Lemma mkdir_p_id fs d : dirs_ok fs d -> Fs.mkdir_p fs d = Some fs.
Proof. intros D. apply mkdir_from_id. intros k. apply (D k). Qed.

Lemma dirs_ok_grows fs fs' d : grows fs fs' -> dirs_ok fs d -> dirs_ok fs' d.
Proof. intros G D k. eapply grows_Some; [done | apply D]. Qed.

Lemma dirname_snoc (d : Fs.path) (name : string) : Fs.dirname (d ++ [name]) = d.
Proof.
  unfold Fs.dirname. rewrite length_app. simpl.
  replace (length d + 1 - 1) with (length d) by lia.
  by rewrite take_app_length.
Qed.

Lemma writeFile_snoc fs d name c fs' :
  Fs.writeFile fs (d ++ [name]) c = Some fs' <->
  fs !! d = Some Fs.Dir /\ fs !! (d ++ [name]) ≠ Some Fs.Dir /\
  fs' = <[d ++ [name] := Fs.File c]> fs.
Proof.
  unfold Fs.writeFile. rewrite dirname_snoc.
  destruct (d ++ [name]) as [| x l] eqn:E.
  { by destruct d. }
  rewrite <- E. clear E.
  destruct (fs !! d) as [[?|]|]; try (split; [done | by intros (? & ? & ?)]).
  destruct (fs !! (d ++ [name])) as [[?|]|];
    (split; [intros ?; simplify_eq | intros (? & ? & ?); simplify_eq]); done.
Qed.


(** *** One file of the source tree *)

Lemma fileExists_spec fs p :
  fileExists fs p = Some (bool_decide (is_Some (fs !! p))).
Proof.
  unfold fileExists, Fs.access, Fs.exists_.
  by destruct (bool_decide (is_Some (fs !! p))).
Qed.

Lemma install_spec name content dest prof st c st' c' :
  install name content (dest ++ [name]) prof packageVersion st c = Some (st', c') <->
  st_fs st !! dest = Some Fs.Dir /\
  st_fs st !! (dest ++ [name]) ≠ Some Fs.Dir /\
  st' = installed_state name content (dest ++ [name]) prof st /\
  c' = bump_installed c.
Proof.
  unfold install, installed_state, finalContent, Fs.copyFile.
  set (p := dest ++ [name]).
  set (written := if endsWith name ".md"
                  then substituteTemplatePaths content installDir else content).
  assert (Hw : (if endsWith name ".md"
                then Fs.writeFile (st_fs st) p (substituteTemplatePaths content installDir)
                else Fs.writeFile (st_fs st) p content)
               = Fs.writeFile (st_fs st) p written).
  { unfold written. by destruct (endsWith name ".md"). }
  rewrite Hw. clear Hw.
  destruct (Fs.writeFile (st_fs st) p written) as [fs'|] eqn:W; simpl.
  - apply writeFile_snoc in W as (Hd & Hp & ->).
    unfold computeFileHash, Fs.readFile. rewrite lookup_insert_eq. simpl.
    split.
    + intros ?; by simplify_eq.
    + by intros (_ & _ & -> & ->).
  - split; [done |]. intros (Hd & Hp & _).
    assert (W' : Fs.writeFile (st_fs st) p written
                 = Some (<[p := Fs.File written]> (st_fs st)))
      by (apply writeFile_snoc; done).
    congruence.
Qed.

Lemma decision_path fs m p ev : decision fs m p ev -> event_path ev = p.
Proof. by destruct 1. Qed.

Lemma syncFile_spec name content dest prof st c st' c' :
  syncFile name content dest prof packageVersion st c = Some (st', c') <->
  exists ev,
    decision (st_fs st) (st_manifest st) (dest ++ [name]) ev /\
    (is_preserved ev = false -> st_fs st !! dest = Some Fs.Dir) /\
    st' = step_result name content (dest ++ [name]) prof st ev /\
    c' = count ev c.
Proof.
  unfold syncFile, getManifestEntry, preserve, step_result, count.
  rewrite fileExists_spec. simpl.
  destruct (st_fs st !! (dest ++ [name])) as [n|] eqn:Hp.
  - rewrite bool_decide_eq_true_2 by eauto.
    destruct (files (st_manifest st) !! (dest ++ [name])) as [e|] eqn:He.
    + unfold computeFileHash, Fs.readFile. rewrite Hp.
      destruct n as [d|]; simpl.
      * destruct (decide (sha256 d = hash e)) as [Heq | Hne].
        -- rewrite bool_decide_eq_true_2 by done. simpl.
           rewrite install_spec. split.
           ++ intros (Hd & _ & -> & ->).
              exists (Installed (dest ++ [name])). split_and!; try done.
              by eapply decide_update.
           ++ intros (ev & Hdec & Hdir & -> & ->).
              inversion Hdec; simplify_eq; try done.
              split_and!; try done; [by apply Hdir | congruence].
        -- rewrite bool_decide_eq_false_2 by done. simpl. split.
           ++ intros ?; simplify_eq.
              exists (PreservedModified (dest ++ [name])). split_and!; try done.
              by eapply decide_modified.
           ++ intros (ev & Hdec & Hdir & -> & ->).
              inversion Hdec; simplify_eq; done.
      * split; [done |]. intros (ev & Hdec & _).
        inversion Hdec; simplify_eq.
    + split.
      * intros ?; simplify_eq.
        exists (PreservedExisting (dest ++ [name])). split_and!; try done.
        apply decide_existing; eauto.
      * intros (ev & Hdec & Hdir & -> & ->).
        inversion Hdec; simplify_eq; try done.
  - rewrite bool_decide_eq_false_2 by (intros [? ?]; done).
    rewrite install_spec. split.
    + intros (Hd & _ & -> & ->).
      exists (Installed (dest ++ [name])). split_and!; try done.
      by apply decide_fresh.
    + intros (ev & Hdec & Hdir & -> & ->).
      inversion Hdec as [[? ?] | | |]; simplify_eq; try done.
      split_and!; try done; [by apply Hdir | congruence].
Qed.

Lemma installSkillsFile_syncFile name content prof ver st c :
  installSkillsFile name content prof ver st c
  = syncFile name content claudeSkillsDir prof ver st c.
Proof. reflexivity. Qed.

(** *** A run of the synchroniser is the execution of its plan *)

Lemma src_node_induction (P : src_node -> Prop) :
  (forall c, P (SFile c)) ->
  (forall es, Forall (fun e => P e.2) es -> P (SDir es)) ->
  forall n, P n.
Proof.
  intros HF HD.
  fix IH 1. intros [c | es]; [apply HF | apply HD].
  induction es as [| [name e] es IHes]; constructor; [apply IH | apply IHes].
Qed.

Lemma plan_SDir es dest :
  plan (SDir es) dest = Mkdir dest :: mjoin (entry_plan dest <$> es).
Proof. reflexivity. Qed.

Lemma copyDir_SDir es dest prof st :
  copyDirWithManifestTracking (SDir es) dest prof st
  = fs1 ← Fs.mkdir_p (st_fs st) dest;
    copyEntries es dest prof (with_fs st fs1) zero.
Proof.
  simpl. destruct (Fs.mkdir_p (st_fs st) dest) as [fs1|]; simpl; [| done].
  generalize (with_fs st fs1) zero.
  induction es as [| [name entry] es IH]; intros st1 c; simpl; [done |].
  destruct entry as [content | sub].
  - destruct (syncFile name content dest prof packageVersion st1 c)
      as [[st' c']|]; simpl; [apply IH | done].
  - destruct (copyDirWithManifestTracking (SDir sub) (dest ++ [name]) prof st1)
      as [[st' r]|]; simpl; [apply IH | done].
Qed.

Lemma run_plan_app prof ops1 ops2 st :
  run_plan prof (ops1 ++ ops2) st
  = st' ← run_plan prof ops1 st; run_plan prof ops2 st'.
Proof.
  revert st. induction ops1 as [| o ops1 IH]; intros st; simpl; [done |].
  destruct (exec_op prof o st) as [st1|]; simpl; [apply IH | done].
Qed.

Lemma count_foldl evs : forall c,
  foldl (fun c ev => count ev c) c evs = add_counts c (tally evs).
Proof.
  unfold tally.
  induction evs as [| ev evs IH] using rev_ind; intros c.
  - simpl. destruct c as [a b]. unfold add_counts; simpl. f_equal; lia.
  - rewrite !foldl_app. simpl. rewrite IH.
    unfold count, add_counts, bump_preserved, bump_installed.
    destruct (is_preserved ev); simpl; f_equal; lia.
Qed.

Lemma tally_app evs1 evs2 :
  tally (evs1 ++ evs2) = add_counts (tally evs1) (tally evs2).
Proof. unfold tally at 1. rewrite foldl_app. apply count_foldl. Qed.

Lemma tally_singleton ev : tally [ev] = count ev zero.
Proof. reflexivity. Qed.

Lemma count_add ev c : count ev c = add_counts c (count ev zero).
Proof.
  unfold count, add_counts, bump_preserved, bump_installed.
  destruct (is_preserved ev), c; simpl; f_equal; lia.
Qed.

Lemma add_counts_assoc a b c :
  add_counts (add_counts a b) c = add_counts a (add_counts b c).
Proof. unfold add_counts; simpl; f_equal; lia. Qed.

Lemma add_counts_zero_l c : add_counts zero c = c.
Proof. by destruct c. Qed.

Lemma add_counts_zero_r c : add_counts c zero = c.
Proof. destruct c. unfold add_counts; simpl. f_equal; lia. Qed.

Lemma step_result_log name content p prof st ev :
  event_path ev = p ->
  st_log (step_result name content p prof st ev) = st_log st ++ [ev].
Proof. intros <-. by destruct ev. Qed.

(** The counter a file is decided with does not influence the decision. *)
Lemma syncFile_zero name content dest prof st c st' c' :
  syncFile name content dest prof packageVersion st c = Some (st', c') ->
  exists ev,
    syncFile name content dest prof packageVersion st zero = Some (st', count ev zero) /\
    st_log st' = st_log st ++ [ev] /\ c' = count ev c.
Proof.
  intros H. apply syncFile_spec in H as (ev & Hdec & Hdir & -> & ->).
  exists ev. split_and!; [| | done].
  - apply syncFile_spec. by exists ev.
  - apply step_result_log. by eapply decision_path.
Qed.

Lemma syncFile_any_count name content dest prof st c st' c0 :
  syncFile name content dest prof packageVersion st zero = Some (st', c0) ->
  exists c', syncFile name content dest prof packageVersion st c = Some (st', c').
Proof.
  intros H. apply syncFile_spec in H as (ev & Hdec & Hdir & -> & ->).
  exists (count ev c). apply syncFile_spec. by exists ev.
Qed.

Lemma copyEntries_run prof dest es :
  Forall (fun e : string * src_node =>
            forall dest st st' r,
              copyDirWithManifestTracking e.2 dest prof st = Some (st', r) ->
              run_plan prof (plan e.2 dest) st = Some st' /\
              exists evs, st_log st' = st_log st ++ evs /\ r = tally evs) es ->
  forall st c st' c',
    copyEntries es dest prof st c = Some (st', c') ->
    run_plan prof (mjoin (entry_plan dest <$> es)) st = Some st' /\
    exists evs, st_log st' = st_log st ++ evs /\ c' = add_counts c (tally evs).
Proof.
  induction 1 as [| [name entry] es Hentry _ IH]; intros st c st' c' H; simpl in H.
  - simplify_eq. split; [done |]. exists []. rewrite app_nil_r. split; [done |].
    by rewrite add_counts_zero_r.
  - simpl. rewrite run_plan_app. unfold entry_plan at 1. simpl.
    destruct entry as [content | sub].
    + destruct (syncFile name content dest prof packageVersion st c)
        as [[st1 c1]|] eqn:E; simplify_eq/=.
      apply syncFile_zero in E as (ev & E0 & Hlog & ->).
      rewrite E0. simpl.
      apply IH in H as (Hrun & evs & Hlog' & ->).
      split; [done |]. exists (ev :: evs). split.
      * rewrite Hlog', Hlog. by rewrite <- app_assoc.
      * change (ev :: evs) with ([ev] ++ evs).
        rewrite tally_app, tally_singleton, <- add_counts_assoc.
        by rewrite <- count_add.
    + destruct (copyDirWithManifestTracking (SDir sub) (dest ++ [name]) prof st)
        as [[st1 r1]|] eqn:E; simplify_eq/=.
      apply Hentry in E as (Hrun1 & evs1 & Hlog1 & ->).
      rewrite Hrun1. simpl.
      apply IH in H as (Hrun & evs & Hlog' & ->).
      split; [done |]. exists (evs1 ++ evs). split.
      * rewrite Hlog', Hlog1. by rewrite <- app_assoc.
      * by rewrite tally_app, add_counts_assoc.
Qed.

Lemma copyDir_run prof src : forall dest st st' r,
  copyDirWithManifestTracking src dest prof st = Some (st', r) ->
  run_plan prof (plan src dest) st = Some st' /\
  exists evs, st_log st' = st_log st ++ evs /\ r = tally evs.
Proof.
  induction src as [c | es IH] using src_node_induction; intros dest st st' r H.
  - simpl in H. by destruct (Fs.mkdir_p (st_fs st) dest).
  - rewrite copyDir_SDir in H. rewrite plan_SDir. simpl.
    destruct (Fs.mkdir_p (st_fs st) dest) as [fs1|]; simplify_eq/=.
    eapply copyEntries_run in H as (Hrun & evs & Hlog & ->); [| done].
    split; [done |]. exists evs. split; [done |].
    by rewrite add_counts_zero_l.
Qed.

Lemma run_copyEntries prof dest es :
  Forall (fun e : string * src_node =>
            forall dest st st' sub,
              e.2 = SDir sub ->
              run_plan prof (plan e.2 dest) st = Some st' ->
              exists r, copyDirWithManifestTracking e.2 dest prof st = Some (st', r)) es ->
  forall st c st',
    run_plan prof (mjoin (entry_plan dest <$> es)) st = Some st' ->
    exists c', copyEntries es dest prof st c = Some (st', c').
Proof.
  induction 1 as [| [name entry] es Hentry _ IH]; intros st c st' H; simpl in H.
  - simplify_eq. by exists c.
  - rewrite run_plan_app in H.
    destruct (run_plan prof (entry_plan dest (name, entry)) st) as [st1|] eqn:E;
      simplify_eq/=.
    destruct entry as [content | sub].
    + unfold entry_plan in E. simpl in E.
      destruct (syncFile name content dest prof packageVersion st zero)
        as [[st2 c2]|] eqn:E2; simplify_eq/=.
      eapply syncFile_any_count in E2 as [c' E2]. rewrite E2. simpl.
      by apply IH.
    + unfold entry_plan in E. simpl in E.
      eapply Hentry in E as [r Hr]; [| done].
      cbn [snd] in Hr. cbn [copyEntries]. rewrite Hr. cbn [mbind option_bind]. by apply IH.
Qed.

Lemma run_copyDir prof src : forall dest st st' es,
  src = SDir es ->
  run_plan prof (plan src dest) st = Some st' ->
  exists r, copyDirWithManifestTracking src dest prof st = Some (st', r).
Proof.
  induction src as [c | es' IH] using src_node_induction;
    intros dest st st' es Hsrc H; [done |].
  rewrite copyDir_SDir. rewrite plan_SDir in H. simpl in H.
  destruct (Fs.mkdir_p (st_fs st) dest) as [fs1|]; simplify_eq/=.
  by eapply run_copyEntries.
Qed.

(** *** Invariants of a plan *)

Lemma exec_Mkdir prof d st st' :
  exec_op prof (Mkdir d) st = Some st' <->
  exists fs', Fs.mkdir_p (st_fs st) d = Some fs' /\ st' = with_fs st fs'.
Proof.
  simpl. destruct (Fs.mkdir_p (st_fs st) d) as [fs'|]; simpl.
  - split; [intros ?; simplify_eq; eauto | by intros (? & ? & ->); simplify_eq].
  - split; [done | by intros (? & ? & _)].
Qed.

Lemma exec_Put prof dest name content st st' :
  exec_op prof (Put dest name content) st = Some st' <->
  exists ev,
    decision (st_fs st) (st_manifest st) (dest ++ [name]) ev /\
    (is_preserved ev = false -> st_fs st !! dest = Some Fs.Dir) /\
    st' = step_result name content (dest ++ [name]) prof st ev.
Proof.
  simpl.
  destruct (syncFile name content dest prof packageVersion st zero)
    as [[st1 c1]|] eqn:E; simpl.
  - apply syncFile_spec in E as (ev & Hdec & Hdir & -> & ->).
    split; [intros ?; simplify_eq; eauto |].
    intros (ev' & Hdec' & Hdir' & ->). f_equal.
    assert (E1 : syncFile name content dest prof packageVersion st zero
                 = Some (step_result name content (dest ++ [name]) prof st ev, count ev zero))
      by (apply syncFile_spec; eauto).
    assert (E2 : syncFile name content dest prof packageVersion st zero
                 = Some (step_result name content (dest ++ [name]) prof st ev', count ev' zero))
      by (apply syncFile_spec; eauto).
    congruence.
  - split; [done |]. intros (ev & Hdec & Hdir & ->).
    assert (E1 : syncFile name content dest prof packageVersion st zero
                 = Some (step_result name content (dest ++ [name]) prof st ev, count ev zero))
      by (apply syncFile_spec; eauto).
    congruence.
Qed.

Lemma events_since_app st st' evs :
  st_log st' = st_log st ++ evs -> events_since st st' = evs.
Proof. intros H. unfold events_since. rewrite H. by rewrite drop_app_length. Qed.

Lemma put_paths_cons_Put dest name content ops :
  put_paths (Put dest name content :: ops) = (dest ++ [name]) :: put_paths ops.
Proof. reflexivity. Qed.

Lemma put_paths_cons_Mkdir d ops : put_paths (Mkdir d :: ops) = put_paths ops.
Proof. reflexivity. Qed.

Lemma put_paths_app ops1 ops2 :
  put_paths (ops1 ++ ops2) = put_paths ops1 ++ put_paths ops2.
Proof. unfold put_paths. by rewrite omap_app, fmap_app. Qed.

(** An invariant [I] of the steps holds after the run, and every event of
    the run satisfies what [I] grants at the moment of the decision. *)
Lemma run_plan_events prof (I : State -> Prop) (Q : Event -> Prop) :
  (forall st d fs',
      I st -> Fs.mkdir_p (st_fs st) d = Some fs' -> I (with_fs st fs')) ->
  (forall st dest name content ev,
      I st ->
      decision (st_fs st) (st_manifest st) (dest ++ [name]) ev ->
      (is_preserved ev = false -> st_fs st !! dest = Some Fs.Dir) ->
      I (step_result name content (dest ++ [name]) prof st ev) /\ Q ev) ->
  forall ops st st',
    run_plan prof ops st = Some st' -> I st ->
    I st' /\
    exists evs,
      st_log st' = st_log st ++ evs /\ Forall Q evs /\
      event_path <$> evs = put_paths ops.
Proof.
  intros Hmk Hput. induction ops as [| o ops IH]; intros st st' H HI; simpl in H.
  - simplify_eq. split; [done |]. exists []. by rewrite app_nil_r.
  - destruct (exec_op prof o st) as [st1|] eqn:E; simplify_eq/=.
    destruct o as [d | dest name content].
    + apply exec_Mkdir in E as (fs' & Hfs & ->).
      apply IH in H as (HI' & evs & Hlog & HQ & Hpaths); [| by eapply Hmk].
      split; [done |]. by exists evs.
    + apply exec_Put in E as (ev & Hdec & Hdir & ->).
      destruct (Hput st dest name content ev HI Hdec Hdir) as [HI1 HQ1].
      apply IH in H as (HI' & evs & Hlog & HQ & Hpaths); [| done].
      split; [done |]. exists (ev :: evs). split_and!.
      * rewrite Hlog, step_result_log by (by eapply decision_path).
        by rewrite <- app_assoc.
      * by constructor.
      * rewrite put_paths_cons_Put, fmap_cons. f_equal; [| done].
        by eapply decision_path.
Qed.

Lemma step_result_preserved name content p prof st ev :
  is_preserved ev = true ->
  st_fs (step_result name content p prof st ev) = st_fs st /\
  st_manifest (step_result name content p prof st ev) = st_manifest st.
Proof. unfold step_result. by intros ->. Qed.

Lemma step_result_frame name content p prof st ev q :
  q ≠ p ->
  st_fs (step_result name content p prof st ev) !! q = st_fs st !! q /\
  files (st_manifest (step_result name content p prof st ev)) !! q
  = files (st_manifest st) !! q.
Proof.
  intros Hne. unfold step_result. destruct (is_preserved ev); simpl; [done |].
  by rewrite !lookup_insert_ne.
Qed.

Lemma sourceFiles_put_paths src dest f :
  f ∈ sourceFiles src dest -> f.1.1 ∈ put_paths (plan src dest).
Proof. intros H. unfold put_paths. apply list_elem_of_fmap. eauto. Qed.

Lemma skillsFiles_put_paths entries f :
  f ∈ skillsFiles entries -> f.1.1 ∈ put_paths (skillsPlan entries).
Proof. intros H. unfold put_paths. apply list_elem_of_fmap. eauto. Qed.

(** A tracked file edited by the user stays as it is through a plan. *)
Lemma run_plan_modified prof ops st st' p d e :
  run_plan prof ops st = Some st' ->
  st_fs st !! p = Some (Fs.File d) ->
  files (st_manifest st) !! p = Some e ->
  sha256 d ≠ hash e ->
  st_fs st' !! p = Some (Fs.File d) /\
  files (st_manifest st') !! p = Some e /\
  exists evs,
    st_log st' = st_log st ++ evs /\
    (p ∈ put_paths ops -> PreservedModified p ∈ evs) /\
    Installed p ∉ evs.
Proof.
  intros Hrun Hfs Hm Hne.
  pose (I := fun st : State =>
    st_fs st !! p = Some (Fs.File d) /\ files (st_manifest st) !! p = Some e).
  pose (Q := fun ev : Event => event_path ev = p -> ev = PreservedModified p).
  destruct (run_plan_events prof I Q) with (ops := ops) (st := st) (st' := st')
    as ((Hfs' & Hm') & evs & Hlog & HQ & Hpaths); try done.
  - intros st0 d0 fs' [H1 H2] Hmk. split; [| done]. simpl.
    eapply grows_Some; [by eapply mkdir_p_grows | done].
  - intros st0 dest name content ev [H1 H2] Hdec Hdir.
    destruct (decide (dest ++ [name] = p)) as [Heq | Hneq].
    + rewrite Heq in Hdec |- *.
      inversion Hdec; simplify_eq; done.
    + split.
      * unfold I.
        destruct (step_result_frame name content (dest ++ [name]) prof st0 ev p)
          as [-> ->]; done.
      * intros Hp. apply decision_path in Hdec. congruence.
  - split_and!; try done. exists evs. split_and!; try done.
    + intros Hin. rewrite <- Hpaths in Hin.
      apply list_elem_of_fmap in Hin as (ev & Hp & Hin).
      rewrite Forall_forall in HQ. symmetry in Hp.
      by rewrite <- (HQ ev Hin Hp).
    + intros Hin. rewrite Forall_forall in HQ.
      by specialize (HQ _ Hin eq_refl).
Qed.

(** A file the manifest does not know stays as it is through a plan. *)
Lemma run_plan_untracked prof ops st st' p n :
  run_plan prof ops st = Some st' ->
  st_fs st !! p = Some n ->
  files (st_manifest st) !! p = None ->
  st_fs st' !! p = Some n /\
  files (st_manifest st') !! p = None /\
  exists evs,
    st_log st' = st_log st ++ evs /\
    (p ∈ put_paths ops -> PreservedExisting p ∈ evs) /\
    Installed p ∉ evs.
Proof.
  intros Hrun Hfs Hm.
  pose (I := fun st : State =>
    st_fs st !! p = Some n /\ files (st_manifest st) !! p = None).
  pose (Q := fun ev : Event => event_path ev = p -> ev = PreservedExisting p).
  destruct (run_plan_events prof I Q) with (ops := ops) (st := st) (st' := st')
    as ((Hfs' & Hm') & evs & Hlog & HQ & Hpaths); try done.
  - intros st0 d0 fs' [H1 H2] Hmk. split; [| done]. simpl.
    eapply grows_Some; [by eapply mkdir_p_grows | done].
  - intros st0 dest name content ev [H1 H2] Hdec Hdir.
    destruct (decide (dest ++ [name] = p)) as [Heq | Hneq].
    + rewrite Heq in Hdec |- *.
      inversion Hdec; simplify_eq; done.
    + split.
      * unfold I.
        destruct (step_result_frame name content (dest ++ [name]) prof st0 ev p)
          as [-> ->]; done.
      * intros Hp. apply decision_path in Hdec. congruence.
  - split_and!; try done. exists evs. split_and!; try done.
    + intros Hin. rewrite <- Hpaths in Hin.
      apply list_elem_of_fmap in Hin as (ev & Hp & Hin).
      rewrite Forall_forall in HQ. symmetry in Hp.
      by rewrite <- (HQ ev Hin Hp).
    + intros Hin. rewrite Forall_forall in HQ.
      by specialize (HQ _ Hin eq_refl).
Qed.

Lemma skillsPlan_cons e entries :
  skillsPlan (e :: entries) = skills_entry_plan e ++ skillsPlan entries.
Proof. reflexivity. Qed.

Lemma installSkillsEntries_run prof entries : forall st c st' c',
  installSkillsEntries entries prof st c = Some (st', c') ->
  run_plan prof (skillsPlan entries) st = Some st' /\
  exists evs, st_log st' = st_log st ++ evs /\ c' = add_counts c (tally evs).
Proof.
  induction entries as [| [name entry] entries IH]; intros st c st' c' H;
    cbn [installSkillsEntries] in H.
  - simplify_eq. split; [done |]. exists []. rewrite app_nil_r.
    by rewrite add_counts_zero_r.
  - rewrite skillsPlan_cons, run_plan_app.
    unfold skills_entry_plan. cbn [fst snd].
    destruct entry as [content | sub].
    + rewrite installSkillsFile_syncFile in H.
      destruct (syncFile name content claudeSkillsDir prof packageVersion st c)
        as [[st1 c1]|] eqn:E; simplify_eq/=.
      apply syncFile_zero in E as (ev & E0 & Hlog & ->).
      rewrite E0. simpl.
      apply IH in H as (Hrun & evs & Hlog' & ->).
      split; [done |]. exists (ev :: evs). split.
      * rewrite Hlog', Hlog. by rewrite <- app_assoc.
      * change (ev :: evs) with ([ev] ++ evs).
        rewrite tally_app, tally_singleton, <- add_counts_assoc.
        by rewrite <- count_add.
    + destruct (startsWith name "paid-").
      * cbn [run_plan mbind option_bind]. by apply IH.
      * destruct (copyDirWithManifestTracking (SDir sub)
                    (claudeSkillsDir ++ [name]) prof st)
          as [[st1 r1]|] eqn:E; [| done].
        cbn [mbind option_bind] in H.
        apply copyDir_run in E as (Hrun1 & evs1 & Hlog1 & ->).
        rewrite Hrun1. cbn [mbind option_bind].
        apply IH in H as (Hrun & evs & Hlog' & ->).
        split; [done |]. exists (evs1 ++ evs). split.
        -- rewrite Hlog', Hlog1. by rewrite <- app_assoc.
        -- by rewrite tally_app, add_counts_assoc.
Qed.

(** *** Settled files *)

(** What a plan leaves alone: directories stay directories, and a path the
    plan does not decide on keeps its node and its manifest entry. *)
Lemma run_plan_frame prof ops : forall st st',
  run_plan prof ops st = Some st' ->
  (forall q, st_fs st !! q = Some Fs.Dir -> st_fs st' !! q = Some Fs.Dir) /\
  (forall q, q ∉ put_paths ops ->
     files (st_manifest st') !! q = files (st_manifest st) !! q /\
     forall n, st_fs st !! q = Some n -> st_fs st' !! q = Some n).
Proof.
  induction ops as [| o ops IH]; intros st st' H; simpl in H.
  - by simplify_eq.
  - destruct (exec_op prof o st) as [st1|] eqn:E; simplify_eq/=.
    apply IH in H as [Hdir Hframe].
    destruct o as [d | dest name content].
    + apply exec_Mkdir in E as (fs' & Hmk & ->).
      apply mkdir_p_grows in Hmk.
      split.
      * intros q Hq. apply Hdir. simpl. by eapply grows_Some.
      * intros q Hq. rewrite put_paths_cons_Mkdir in Hq.
        destruct (Hframe q Hq) as [Hm Hfs]. split; [done |].
        intros n Hn. apply Hfs. simpl. by eapply grows_Some.
    + apply exec_Put in E as (ev & Hdec & Hd & ->).
      split.
      * intros q Hq. apply Hdir.
        destruct (decide (q = dest ++ [name])) as [-> | Hne].
        -- inversion Hdec; simplify_eq.
           by destruct (step_result_preserved name content (dest ++ [name]) prof st
                          (PreservedExisting (dest ++ [name])) eq_refl) as [-> _].
        -- by destruct (step_result_frame name content (dest ++ [name]) prof st ev q Hne)
             as [-> _].
      * intros q Hq. rewrite put_paths_cons_Put in Hq.
        apply not_elem_of_cons in Hq as [Hne Hq].
        destruct (Hframe q Hq) as [Hm Hfs].
        destruct (step_result_frame name content (dest ++ [name]) prof st ev q Hne)
          as [Efs Em].
        split; [congruence |].
        intros n Hn. apply Hfs. congruence.
Qed.

Lemma decision_settles name content dest prof st ev :
  decision (st_fs st) (st_manifest st) (dest ++ [name]) ev ->
  (is_preserved ev = false -> st_fs st !! dest = Some Fs.Dir) ->
  settled (step_result name content (dest ++ [name]) prof st ev)
    (dest ++ [name], name, content) ev.
Proof.
  assert (Hne : dest ≠ dest ++ [name]).
  { intros E. apply (f_equal length) in E. rewrite length_app in E. simpl in E. lia. }
  intros Hdec Hdir. unfold settled. cbn [fst snd].
  inversion Hdec; subst; unfold step_result; simpl.
  - done.
  - split; [done |]. eauto.
  - rewrite dirname_snoc, lookup_insert_ne, !lookup_insert_eq by done.
    split_and!; try done; [by apply Hdir | eauto].
  - rewrite dirname_snoc, lookup_insert_ne, !lookup_insert_eq by done.
    split_and!; try done; [by apply Hdir | eauto].
Qed.

Lemma settled_frame st st' f ev :
  (forall n, st_fs st !! f.1.1 = Some n -> st_fs st' !! f.1.1 = Some n) ->
  files (st_manifest st') !! f.1.1 = files (st_manifest st) !! f.1.1 ->
  (st_fs st !! Fs.dirname f.1.1 = Some Fs.Dir ->
   st_fs st' !! Fs.dirname f.1.1 = Some Fs.Dir) ->
  settled st f ev -> settled st' f ev.
Proof.
  intros Hfs Hm Hdir. unfold settled. rewrite Hm.
  destruct ev as [q | q | q].
  - intros (-> & d & e & H1 & H2 & H3). split; [done |].
    exists d, e. split_and!; try done. by apply Hfs.
  - intros (-> & [n Hn] & H2). split_and!; try done.
    exists n. by apply Hfs.
  - intros (-> & H1 & H2 & H3). split_and!; try done; [by apply Hdir | by apply Hfs].
Qed.

Lemma settled_path st f ev : settled st f ev -> event_path ev = f.1.1.
Proof. destruct ev; by intros [-> _]. Qed.

Lemma settled_decision name content dest prof st ev :
  settled st (dest ++ [name], name, content) ev ->
  decision (st_fs st) (st_manifest st) (dest ++ [name]) ev /\
  (is_preserved ev = false -> st_fs st !! dest = Some Fs.Dir) /\
  st_fs (step_result name content (dest ++ [name]) prof st ev) = st_fs st.
Proof.
  unfold settled. cbn [fst snd]. destruct ev as [q | q | q].
  - intros (-> & d & e & H1 & H2 & H3). split_and!; try done.
    by eapply decide_modified.
  - intros (-> & H1 & H2). split_and!; try done. by apply decide_existing.
  - rewrite dirname_snoc. intros (-> & H1 & H2 & e & H3 & H4). split_and!; try done.
    + by eapply decide_update.
    + unfold step_result. simpl. by apply insert_id.
Qed.

Lemma Forall2_impl_Forall {A B} (P Q : A -> B -> Prop) (R : A -> Prop) l k :
  Forall2 P l k -> Forall R l ->
  (forall x y, R x -> P x y -> Q x y) ->
  Forall2 Q l k.
Proof.
  intros H2 HR HPQ. induction H2 as [| x y l k Hxy _ IH]; [constructor |].
  apply Forall_cons in HR as [Hx HR]. constructor; [by apply HPQ | by apply IH].
Qed.

Lemma put_paths_Forall ops (R : Fs.path -> Prop) :
  Forall R (put_paths ops) ->
  Forall (fun f : Fs.path * string * string => R f.1.1) (omap put_of ops).
Proof. unfold put_paths. by rewrite Forall_fmap. Qed.

(** A first run settles every file of its plan. *)
Lemma run_plan_settles prof ops : forall st st',
  NoDup (put_paths ops) ->
  run_plan prof ops st = Some st' ->
  exists evs,
    st_log st' = st_log st ++ evs /\
    Forall2 (settled st') (omap put_of ops) evs /\
    forall d, Mkdir d ∈ ops -> dirs_ok (st_fs st') d.
Proof.
  induction ops as [| o ops IH]; intros st st' Hnd H; simpl in H.
  - simplify_eq. exists []. rewrite app_nil_r. split_and!; [done | constructor |].
    intros d Hd. by apply elem_of_nil in Hd.
  - destruct (exec_op prof o st) as [st1|] eqn:E; simplify_eq/=.
    destruct (run_plan_frame _ _ _ _ H) as [Hdirs Hframe].
    destruct o as [d | dest name content].
    + rewrite put_paths_cons_Mkdir in Hnd.
      apply exec_Mkdir in E as (fs' & Hmk & ->).
      destruct (IH _ _ Hnd H) as (evs & Hlog & Hset & Hok).
      exists evs. split_and!; try done.
      intros d' Hd'. apply elem_of_cons in Hd' as [Heq | Hd']; [| by apply Hok].
      simplify_eq. intros k. apply Hdirs. simpl.
      by apply (mkdir_p_dirs_ok _ _ _ Hmk).
    + rewrite put_paths_cons_Put in Hnd. apply NoDup_cons in Hnd as [Hnotin Hnd].
      apply exec_Put in E as (ev & Hdec & Hd & ->).
      destruct (IH _ _ Hnd H) as (evs & Hlog & Hset & Hok).
      exists (ev :: evs). split_and!.
      * rewrite Hlog, step_result_log by (by eapply decision_path).
        by rewrite <- app_assoc.
      * simpl. constructor; [| done].
        destruct (Hframe _ Hnotin) as [Hm Hfs].
        eapply settled_frame; [| | | by apply decision_settles]; cbn [fst snd].
        -- apply Hfs.
        -- apply Hm.
        -- apply Hdirs.
      * intros d' Hd'. apply elem_of_cons in Hd' as [Heq | Hd']; [done |].
        by apply Hok.
Qed.

(** A run over settled files changes nothing on disk and reports what the
    files are settled as. *)
Lemma run_plan_replay prof ops : forall st evs,
  NoDup (put_paths ops) ->
  Forall2 (settled st) (omap put_of ops) evs ->
  (forall d, Mkdir d ∈ ops -> dirs_ok (st_fs st) d) ->
  exists st',
    run_plan prof ops st = Some st' /\
    st_fs st' = st_fs st /\
    st_log st' = st_log st ++ evs.
Proof.
  induction ops as [| o ops IH]; intros st evs Hnd Hset Hok.
  - simpl in Hset. apply Forall2_nil_inv_l in Hset as ->.
    exists st. by rewrite app_nil_r.
  - destruct o as [d | dest name content].
    + rewrite put_paths_cons_Mkdir in Hnd. simpl in Hset.
      assert (Hmk : Fs.mkdir_p (st_fs st) d = Some (st_fs st)).
      { apply mkdir_p_id, Hok. by left. }
      assert (Hst : with_fs st (st_fs st) = st) by (by destruct st).
      destruct (IH st evs Hnd Hset) as (st' & Hrun & Hfs & Hlog).
      { intros d' Hd'. apply Hok. by right. }
      exists st'. split_and!; try done.
      simpl. rewrite Hmk. simpl. by rewrite Hst.
    + rewrite put_paths_cons_Put in Hnd. apply NoDup_cons in Hnd as [Hnotin Hnd].
      simpl in Hset. apply Forall2_cons_inv_l in Hset as (ev & evs' & Hev & Hset & ->).
      destruct (settled_decision name content dest prof st ev Hev)
        as (Hdec & Hd & Hfs1).
      set (st1 := step_result name content (dest ++ [name]) prof st ev) in *.
      assert (E : exec_op prof (Put dest name content) st = Some st1)
        by (apply exec_Put; eauto).
      destruct (IH st1 evs' Hnd) as (st' & Hrun & Hfs & Hlog).
      * eapply Forall2_impl_Forall; [exact Hset | |].
        -- apply (put_paths_Forall ops (fun q => q ≠ dest ++ [name])).
           apply Forall_forall. intros q Hq ->. done.
        -- intros f ev' Hne Hf. cbn beta in Hne.
           destruct (step_result_frame name content (dest ++ [name]) prof st ev f.1.1 Hne)
             as [_ Em].
           eapply settled_frame; [| | | exact Hf]; fold st1.
           ++ by rewrite Hfs1.
           ++ done.
           ++ by rewrite Hfs1.
      * intros d' Hd'. rewrite Hfs1. apply Hok. by right.
      * exists st'. split_and!.
        -- cbn [run_plan]. rewrite E. done.
        -- congruence.
        -- rewrite Hlog. unfold st1.
           rewrite step_result_log by (by eapply decision_path).
           by rewrite <- app_assoc.
Qed.

(** *** The destination paths of a well-formed source tree are distinct *)

Lemma put_paths_entry_under dest e p :
  (forall dest' p', p' ∈ put_paths (plan e.2 dest') ->
     exists name rest, p' = dest' ++ name :: rest) ->
  p ∈ put_paths (entry_plan dest e) ->
  exists rest, p = dest ++ e.1 :: rest.
Proof.
  destruct e as [name entry]. unfold entry_plan. cbn [fst snd].
  intros Hsub. destruct entry as [content | sub].
  - intros Hp. apply list_elem_of_singleton in Hp as ->. by exists [].
  - intros Hp. apply Hsub in Hp as (name' & rest & ->).
    exists (name' :: rest). by rewrite <- app_assoc.
Qed.

Lemma put_paths_entries_under dest es p :
  Forall (fun e : string * src_node =>
            forall dest' p', p' ∈ put_paths (plan e.2 dest') ->
              exists name rest, p' = dest' ++ name :: rest) es ->
  p ∈ put_paths (mjoin (entry_plan dest <$> es)) ->
  exists e rest, e ∈ es /\ p = dest ++ e.1 :: rest.
Proof.
  induction 1 as [| e es He _ IH]; simpl.
  - intros Hp. by apply elem_of_nil in Hp.
  - rewrite put_paths_app. intros Hp. apply elem_of_app in Hp as [Hp | Hp].
    + apply (put_paths_entry_under _ _ _ He) in Hp as [rest ->].
      exists e, rest. split; [by left | done].
    + apply IH in Hp as (e' & rest & Hin & ->).
      exists e', rest. split; [by right | done].
Qed.

Lemma plan_paths_under src : forall dest p,
  p ∈ put_paths (plan src dest) -> exists name rest, p = dest ++ name :: rest.
Proof.
  induction src as [c | es IH] using src_node_induction; intros dest p Hp.
  - by apply elem_of_nil in Hp.
  - rewrite plan_SDir, put_paths_cons_Mkdir in Hp.
    apply (put_paths_entries_under _ _ _ IH) in Hp as (e & rest & _ & ->).
    by exists e.1, rest.
Qed.

Lemma wf_src_SDir es :
  wf_src (SDir es) = true ->
  NoDup es.*1 /\ Forall (fun e : string * src_node => wf_src e.2 = true) es.
Proof.
  simpl. intros H. apply andb_prop in H as [H1 H2]. split.
  - by apply bool_decide_eq_true in H1.
  - apply Forall_forall. intros e He.
    rewrite forallb_forall in H2. apply H2. by apply list_elem_of_In.
Qed.

Lemma plan_entries_NoDup dest es :
  NoDup es.*1 ->
  Forall (fun e : string * src_node =>
            forall dest', NoDup (put_paths (plan e.2 dest'))) es ->
  NoDup (put_paths (mjoin (entry_plan dest <$> es))).
Proof.
  induction es as [| e es IH]; intros Hnames Hsub; simpl.
  - constructor.
  - rewrite fmap_cons in Hnames. apply NoDup_cons in Hnames as [Hfresh Hnames].
    apply Forall_cons in Hsub as [He Hsub].
    rewrite put_paths_app. apply NoDup_app. split_and!.
    + destruct e as [name entry]. unfold entry_plan. cbn [fst snd] in *.
      destruct entry as [content | sub].
      * apply NoDup_singleton.
      * apply He.
    + intros p Hp Hp'.
      apply put_paths_entry_under in Hp as [rest ->];
        [| intros ? ? ?; by eapply plan_paths_under].
      apply put_paths_entries_under in Hp' as (e' & rest' & Hin & Heq).
      * apply app_inv_head in Heq. simplify_eq.
        apply Hfresh. apply list_elem_of_fmap. by exists e'.
      * apply Forall_forall. intros ? ? ? ? ?. by eapply plan_paths_under.
    + by apply IH.
Qed.

Lemma plan_NoDup src :
  wf_src src = true -> forall dest, NoDup (put_paths (plan src dest)).
Proof.
  induction src as [c | es IH] using src_node_induction; intros Hwf dest.
  - constructor.
  - apply wf_src_SDir in Hwf as [Hnames Hwf].
    rewrite plan_SDir, put_paths_cons_Mkdir.
    apply plan_entries_NoDup; [done |].
    rewrite Forall_forall in IH, Hwf |- *. intros e He dest'.
    by apply IH, Hwf.
Qed.

(** *** Manifest entries change only where a file is installed *)

Lemma run_plan_manifest prof ops st st' q :
  run_plan prof ops st = Some st' ->
  exists evs,
    st_log st' = st_log st ++ evs /\
    (Installed q ∉ evs ->
     files (st_manifest st') !! q = files (st_manifest st) !! q).
Proof.
  intros Hrun.
  pose (I := fun st1 : State =>
    exists evs, st_log st1 = st_log st ++ evs /\
      (Installed q ∉ evs ->
       files (st_manifest st1) !! q = files (st_manifest st) !! q)).
  destruct (run_plan_events prof I (fun _ => True)) with (ops := ops) (st := st) (st' := st')
    as [HI _]; try done.
  - intros st1 dest name content ev (evs & Hlog & Hm) Hdec _. split; [| done].
    exists (evs ++ [ev]). split.
    + rewrite step_result_log by (by eapply decision_path).
      by rewrite Hlog, <- app_assoc.
    + intros Hnot.
      assert (Hnot1 : Installed q ∉ evs).
      { intros Hin. apply Hnot, elem_of_app. by left. }
      assert (Hev : ev ≠ Installed q).
      { intros ->. apply Hnot, elem_of_app. right. by left. }
      rewrite <- (Hm Hnot1).
      destruct (is_preserved ev) eqn:Hp.
      * by destruct (step_result_preserved name content (dest ++ [name]) prof st1 ev Hp)
          as [_ ->].
      * apply step_result_frame. intros ->.
        inversion Hdec; simplify_eq; done.
  - exists []. by rewrite app_nil_r.
Qed.

Lemma settled_installed st f ev p :
  settled st f ev -> f.1.1 = p ->
  (exists f', f'.1.1 = p /\ settled st f' (Installed p)) ->
  ev = Installed p.
Proof.
  intros Hf <- (f' & Hp' & Hf'). unfold settled in Hf, Hf'. rewrite Hp' in Hf'.
  destruct Hf' as (_ & _ & Hfs' & e' & Hm' & Hh').
  destruct ev as [q | q | q].
  - destruct Hf as (-> & d & e & Hfs & Hm & Hne). congruence.
  - destruct Hf as (-> & _ & Hm). congruence.
  - by destruct Hf as (-> & _).
Qed.

(** *** Objects *)

Lemma assoc_set_eq {A} k (a : A) l : Js.assoc k (Js.assoc_set k a l) = Some a.
Proof.
  induction l as [| [k' a'] l IH]; simpl.
  - by rewrite bool_decide_eq_true_2.
  - destruct (decide (k' = k)) as [-> | Hne].
    + rewrite bool_decide_eq_true_2 by done. simpl.
      by rewrite bool_decide_eq_true_2.
    + rewrite bool_decide_eq_false_2 by done. simpl.
      by rewrite bool_decide_eq_false_2.
Qed.

Lemma assoc_set_ne {A} k k' (a : A) l :
  k' ≠ k -> Js.assoc k' (Js.assoc_set k a l) = Js.assoc k' l.
Proof.
  intros Hne. induction l as [| [k0 a0] l IH]; simpl.
  - by rewrite bool_decide_eq_false_2.
  - destruct (decide (k0 = k)) as [-> | Hne0].
    + rewrite bool_decide_eq_true_2 by done. simpl.
      by rewrite !bool_decide_eq_false_2 by done.
    + rewrite bool_decide_eq_false_2 by done. simpl.
      destruct (decide (k0 = k')) as [-> | Hne1].
      * by rewrite !bool_decide_eq_true_2.
      * by rewrite !bool_decide_eq_false_2.
Qed.

(** *** Loading and saving the manifest *)

Lemma loadManifest_total fs : is_Some (loadManifest fs).
Proof.
  unfold loadManifest, try_catch.
  destruct (_ ≫= _); eauto.
Qed.

Lemma loadManifest_accepts fs m :
  loadManifest fs = Some m -> m ≠ Js.VNull ->
  exists content ps,
    Fs.readFile fs manifestPath = Some content /\
    JSON_parse content = Some m /\
    m = Js.VObj ps /\
    Js.assoc "schemaVersion" ps = Some (Js.VNum 1) /\
    Js.typeof (Js.assoc "files" ps) = "object".
Proof.
  unfold loadManifest, try_catch. intros H Hm.
  destruct (Fs.access fs manifestPath) as [[]|]; simpl in H; [| by simplify_eq].
  destruct (Fs.readFile fs manifestPath) as [content|]; simpl in H; [| by simplify_eq].
  destruct (JSON_parse content) as [v|] eqn:Hparse; simpl in H; [| by simplify_eq].
  destruct v as [| b | n | s | items | ps]; simpl in H; simplify_eq.
  destruct (Js.assoc "schemaVersion" ps) as [[| | n | | |]|] eqn:Hv;
    simpl in H; simplify_eq.
  destruct (decide (n = 1%Z)) as [-> | Hn].
  2: { rewrite bool_decide_eq_false_2 in H by done. simpl in H. by simplify_eq. }
  rewrite bool_decide_eq_true_2 in H by done. simpl in H.
  destruct (decide (Js.typeof (Js.assoc "files" ps) = "object")) as [Hf | Hf].
  2: { rewrite bool_decide_eq_false_2 in H by done. simpl in H. by simplify_eq. }
  rewrite bool_decide_eq_true_2 in H by done. simpl in H. simplify_eq.
  by exists content, ps.
Qed.

Lemma loadManifest_accepted fs content ps :
  Fs.readFile fs manifestPath = Some content ->
  JSON_parse content = Some (Js.VObj ps) ->
  Js.assoc "schemaVersion" ps = Some (Js.VNum 1) ->
  Js.typeof (Js.assoc "files" ps) = "object" ->
  loadManifest fs = Some (Js.VObj ps).
Proof.
  intros Hread Hparse Hv Hf. unfold loadManifest, try_catch, Fs.access, Fs.exists_.
  assert (Hex : is_Some (fs !! manifestPath)).
  { unfold Fs.readFile in Hread. destruct (fs !! manifestPath); [eauto | done]. }
  rewrite bool_decide_eq_true_2 by done. simpl.
  rewrite Hread. simpl. rewrite Hparse. simpl.
  rewrite Hv. simpl. rewrite Hf. by rewrite !bool_decide_eq_true_2.
Qed.

(** *** Uninstall *)

Lemma rm_rf_under fs d p : d `prefix_of` p -> Fs.rm_rf fs d !! p = None.
Proof.
  intros Hpre. unfold Fs.rm_rf. apply map_lookup_filter_None. right.
  intros n _ Hnot. by apply Hnot.
Qed.

Lemma rm_rf_outside fs d p : ¬ d `prefix_of` p -> Fs.rm_rf fs d !! p = fs !! p.
Proof.
  intros Hpre. unfold Fs.rm_rf.
  destruct (fs !! p) as [n|] eqn:E.
  - by apply map_lookup_filter_Some.
  - apply map_lookup_filter_None. by left.
Qed.

Lemma writeFile_frame fs p c fs' q :
  Fs.writeFile fs p c = Some fs' -> q ≠ p -> fs' !! q = fs !! q.
Proof.
  unfold Fs.writeFile. intros H Hne.
  destruct p; [done |].
  destruct (fs !! Fs.dirname _) as [[|]|]; try done.
  destruct (fs !! _) as [[|]|]; simplify_eq; by rewrite lookup_insert_ne.
Qed.

Lemma removeSkillsPermissions_frame fs :
  exists fs',
    removeSkillsPermissions fs = Some fs' /\
    forall p, p ≠ claudeSettingsFile -> fs' !! p = fs !! p.
Proof.
  unfold removeSkillsPermissions, try_catch.
  match goal with |- context [match ?b with _ => _ end] => destruct b as [fs'|] eqn:E end.
  2: { by exists fs. }
  exists fs'. split; [done |]. intros p Hp.
  destruct (Fs.readFile fs claudeSettingsFile) as [content|];
    cbn [mbind option_bind] in E; [| done].
  destruct (JSON_parse content) as [settings|];
    cbn [mbind option_bind] in E; [| done].
  destruct (match settings with Js.VNull => None | _ => Some (Js.prop settings "permissions") end)
    as [permissions|]; cbn [mbind option_bind] in E; [| done].
  destruct (Js.truthy _); [| by simplify_eq].
  destruct (Js.opt_prop permissions "additionalDirectories") as [[| | | | dirs |]|];
    try done.
  destruct permissions as [perms|]; [| done].
  destruct (Js.set perms _ _) as [perms1|]; cbn [mbind option_bind] in E; [| done].
  destruct (Js.set settings _ _) as [settings1|]; cbn [mbind option_bind] in E; [| done].
  by eapply writeFile_frame.
Qed.

Lemma uninstallSkills_spec fs :
  exists fs',
    uninstallSkills fs = Some fs' /\
    (is_Some (fs !! claudeSkillsDir) ->
     forall p, claudeSkillsDir `prefix_of` p -> fs' !! p = None) /\
    (forall p, ¬ claudeSkillsDir `prefix_of` p -> p ≠ claudeSettingsFile ->
               fs' !! p = fs !! p).
Proof.
  unfold uninstallSkills, try_catch, Fs.access, Fs.exists_.
  destruct (decide (is_Some (fs !! claudeSkillsDir))) as [Hex | Hex].
  - rewrite bool_decide_eq_true_2 by done. cbn [mbind option_bind].
    destruct (removeSkillsPermissions_frame (Fs.rm_rf fs claudeSkillsDir))
      as (fs' & -> & Hframe).
    exists fs'. split_and!; [done | |].
    + intros _ p Hp. rewrite Hframe.
      * by apply rm_rf_under.
      * intros ->. by destruct Hp as [k Hk].
    + intros p Hp Hs. rewrite Hframe by done. by apply rm_rf_outside.
  - rewrite bool_decide_eq_false_2 by done. cbn [mbind option_bind].
    destruct (removeSkillsPermissions_frame fs) as (fs' & -> & Hframe).
    exists fs'. split_and!; [done | done |].
    intros p _ Hs. by apply Hframe.
Qed.

Lemma readdir_nil fs d p :
  Fs.readdir fs d = Some [] -> Fs.is_child d p = true -> fs !! p = None.
Proof.
  unfold Fs.readdir. destruct (fs !! d) as [[|]|]; try done.
  intros H Hc. simplify_eq.
  destruct (fs !! p) as [n|] eqn:E; [| done]. exfalso.
  assert (Hin : p ∈ filter (fun p => Fs.is_child d p) (map_to_list fs).*1).
  { apply list_elem_of_filter. split; [by rewrite Hc |].
    apply list_elem_of_fmap. exists (p, n). split; [done |].
    by apply elem_of_map_to_list. }
  rewrite H in Hin. by apply elem_of_nil in Hin.
Qed.

Lemma uninstallManifest_spec fs fs' :
  uninstallManifest fs = Some fs' ->
  fs' !! manifestPath = None /\
  (forall p, p ≠ manifestPath -> p ≠ claudeDir -> fs' !! p = fs !! p) /\
  (fs' !! claudeDir = fs !! claudeDir \/
   (fs' !! claudeDir = None /\
    forall p, Fs.is_child claudeDir p = true -> fs' !! p = None)).
Proof.
  unfold uninstallManifest. intros H.
  assert (Hne : claudeDir ≠ manifestPath) by done.
  set (step1 := if negb (Fs.exists_ fs manifestPath) then Some fs
                else Fs.unlink fs manifestPath) in H.
  destruct step1 as [fs1|] eqn:E1; cbn [mbind option_bind] in H; [| done].
  assert (H1 : fs1 !! manifestPath = None /\
               forall p, p ≠ manifestPath -> fs1 !! p = fs !! p).
  { unfold step1, Fs.exists_, Fs.unlink in E1.
    destruct (fs !! manifestPath) as [[c|]|] eqn:Em.
    - rewrite bool_decide_eq_true_2 in E1 by eauto. simpl in E1. simplify_eq.
      split; [apply lookup_delete_eq |]. intros p Hp. by apply lookup_delete_ne.
    - rewrite bool_decide_eq_true_2 in E1 by eauto. done.
    - rewrite bool_decide_eq_false_2 in E1 by (by intros [? ?]).
      simpl in E1. by simplify_eq. }
  destruct H1 as [Hgone Hsame].
  destruct (Fs.exists_ fs1 claudeDir).
  2: { simplify_eq. split_and!; [done | by intros; apply Hsame |].
       left. by apply Hsame. }
  destruct (Fs.readdir fs1 claudeDir) as [entries|] eqn:Er;
    cbn [mbind option_bind] in H; [| done].
  destruct entries as [| x entries].
  - rewrite bool_decide_eq_true_2 in H by done.
    unfold Fs.rmdir in H. rewrite Er in H. cbn [mbind option_bind] in H.
    simplify_eq. split_and!.
    + by rewrite lookup_delete_ne.
    + intros p Hp Hd. rewrite lookup_delete_ne by done. by apply Hsame.
    + right. split; [apply lookup_delete_eq |].
      intros p Hc.
      destruct (decide (claudeDir = p)) as [<- | Hp]; [apply lookup_delete_eq |].
      rewrite lookup_delete_ne by done. by eapply readdir_nil.
  - rewrite bool_decide_eq_false_2 in H by done. simplify_eq.
    split_and!; [done | by intros; apply Hsame |].
    left. by apply Hsame.
Qed.

(** *** Schema validation of the configuration *)

Lemma assoc_notin {A} k (l : list (string * A)) : k ∉ l.*1 -> Js.assoc k l = None.
Proof.
  induction l as [| [k' a] l IH]; simpl; [done |].
  intros Hnot. apply not_elem_of_cons in Hnot as [Hne Hnot].
  rewrite bool_decide_eq_false_2 by done. by apply IH.
Qed.

Lemma assoc_app_None {A} k (l1 l2 : list (string * A)) :
  Js.assoc k (l1 ++ l2)
  = match Js.assoc k l1 with Some a => Some a | None => Js.assoc k l2 end.
Proof.
  induction l1 as [| [k' a] l1 IH]; simpl; [done |].
  by destruct (bool_decide (k' = k)).
Qed.

Lemma assoc_filter_key {A} (f : string -> bool) k (l : list (string * A)) :
  Js.assoc k (filter (fun kv => f kv.1 = true) l)
  = if f k then Js.assoc k l else None.
Proof.
  induction l as [| [k' a] l IH]; simpl.
  - by destruct (f k).
  - rewrite filter_cons. simpl. destruct (decide (f k' = true)) as [Hk' | Hk']; simpl.
    + destruct (decide (k' = k)) as [-> | Hne].
      * rewrite bool_decide_eq_true_2 by done. by rewrite Hk'.
      * rewrite bool_decide_eq_false_2 by done. apply IH.
    + rewrite IH. destruct (decide (k' = k)) as [-> | Hne].
      * by destruct (f k).
      * by rewrite bool_decide_eq_false_2.
Qed.

Lemma validate_properties_assoc l : forall ps ps',
  NoDup l.*1 ->
  validate_properties l ps = Some ps' ->
  forall k,
    match Js.assoc k ps with
    | None => Js.assoc k ps' = None
    | Some x =>
        match Js.assoc k l with
        | Some sub => exists x', Ajv.validate sub x = Some x' /\ Js.assoc k ps' = Some x'
        | None => Js.assoc k ps' = Some x
        end
    end.
Proof.
  induction l as [| [k0 sub] l IH]; intros ps ps' Hnd H k; simpl in H.
  - simplify_eq. simpl. by destruct (Js.assoc k _).
  - rewrite fmap_cons in Hnd. apply NoDup_cons in Hnd as [Hfresh Hnd].
    cbn [fst] in Hfresh. cbn [Js.assoc].
    destruct (Js.assoc k0 ps) as [x0|] eqn:E0.
    + destruct (Ajv.validate sub x0) as [x0'|] eqn:V0; simpl in H; [| done].
      pose proof (IH _ _ Hnd H k) as Hk.
      destruct (decide (k0 = k)) as [<- | Hne].
      * rewrite assoc_set_eq, (assoc_notin _ _ Hfresh) in Hk.
        rewrite E0, bool_decide_eq_true_2 by done. eauto.
      * rewrite assoc_set_ne in Hk by done.
        by rewrite bool_decide_eq_false_2.
    + simpl in H. pose proof (IH _ _ Hnd H k) as Hk.
      destruct (decide (k0 = k)) as [<- | Hne].
      * by rewrite E0 in Hk |- *.
      * by rewrite bool_decide_eq_false_2.
Qed.

Lemma validateConfigSchema_object ps :
  validateConfigSchema (Js.VObj ps)
  = ps3 ← validate_properties configProperties
            (filter (fun kv => Ajv.listed kv.1 (Some configProperties) = true)
               (if Ajv.has_key "autoupdate" ps then ps
                else ps ++ [("autoupdate", Js.VStr "disabled")]));
    Some (Js.VObj ps3).
Proof. reflexivity. Qed.

Lemma validate_string x x' :
  Ajv.validate stringSchema x = Some x' -> exists s, x = Js.VStr s /\ x' = x.
Proof. destruct x; simpl; intros ?; simplify_eq. eauto. Qed.

Lemma validate_profile_baseProfile profile profile' b :
  Ajv.validate profileSchema profile = Some profile' ->
  Js.prop profile "baseProfile" = Some b ->
  Js.prop profile' "baseProfile" = Some b /\ exists s, b = Js.VStr s.
Proof.
  destruct profile as [| | | | | pps]; simpl; try done.
  intros H Hb. rewrite Hb in H.
  destruct b as [| | | s | |]; simpl in H; simplify_eq. simpl.
  rewrite assoc_set_eq. eauto.
Qed.

Lemma validate_agents_object a a' :
  Ajv.validate agentsSchema a = Some a' -> exists ps', a' = Js.VObj ps'.
Proof.
  destruct a as [| | | | | ps]; simpl; try done.
  intros H. apply bind_Some in H as (ps3 & _ & H). simplify_eq. eauto.
Qed.

Lemma config_assoc_validated ps ps3 k :
  validateConfigSchema (Js.VObj ps) = Some (Js.VObj ps3) ->
  k ∈ ["profile"; "installDir"; "agents"; "version"] ->
  match Js.assoc k ps with
  | None => Js.assoc k ps3 = None
  | Some x =>
      match Js.assoc k configProperties with
      | Some sub => exists x', Ajv.validate sub x = Some x' /\ Js.assoc k ps3 = Some x'
      | None => Js.assoc k ps3 = Some x
      end
  end.
Proof.
  intros Hvalid Hk. rewrite validateConfigSchema_object in Hvalid.
  apply bind_Some in Hvalid as (ps3' & Hprops & ?). simplify_eq.
  assert (Hnd : NoDup configProperties.*1) by (by apply (bool_decide_unpack _)).
  pose proof (validate_properties_assoc _ _ _ Hnd Hprops k) as H.
  rewrite (assoc_filter_key
             (fun k => Ajv.listed k (Some configProperties))) in H.
  assert (Hlisted : Ajv.listed k (Some configProperties) = true).
  { repeat (apply elem_of_cons in Hk as [-> | Hk]; [done |]).
    by apply elem_of_nil in Hk. }
  rewrite Hlisted in H.
  assert (Hps1 : Js.assoc k (if Ajv.has_key "autoupdate" ps then ps
                             else ps ++ [("autoupdate", Js.VStr "disabled")])
                 = Js.assoc k ps).
  { destruct (Ajv.has_key "autoupdate" ps); [done |].
    rewrite assoc_app_None. destruct (Js.assoc k ps); [done |].
    simpl. rewrite bool_decide_eq_false_2; [done |].
    intros <-. repeat (apply elem_of_cons in Hk as [? | Hk]; [done |]).
    by apply elem_of_nil in Hk. }
  by rewrite Hps1 in H.
Qed.

Lemma config_autoupdate_validated ps ps3 :
  validateConfigSchema (Js.VObj ps) = Some (Js.VObj ps3) ->
  Js.nullish (Js.assoc "autoupdate" ps3) = false.
Proof.
  intros Hvalid. rewrite validateConfigSchema_object in Hvalid.
  apply bind_Some in Hvalid as (ps3' & Hprops & ?). simplify_eq.
  assert (Hnd : NoDup configProperties.*1) by (by apply (bool_decide_unpack _)).
  pose proof (validate_properties_assoc _ _ _ Hnd Hprops "autoupdate") as H.
  rewrite (assoc_filter_key
             (fun k => Ajv.listed k (Some configProperties))) in H.
  change (Ajv.listed "autoupdate" (Some configProperties)) with true in H.
  cbv iota in H.
  assert (Hps1 : is_Some (Js.assoc "autoupdate"
                   (if Ajv.has_key "autoupdate" ps then ps
                    else ps ++ [("autoupdate", Js.VStr "disabled")]))).
  { unfold Ajv.has_key. destruct (Js.assoc "autoupdate" ps) as [x|] eqn:E.
    - rewrite bool_decide_eq_true_2 by eauto. rewrite E. eauto.
    - rewrite bool_decide_eq_false_2 by (by intros [? ?]).
      rewrite assoc_app_None, E. simpl. eauto. }
  destruct Hps1 as [x Hx]. rewrite Hx in H. simpl in H.
  destruct H as (x' & Hv & ->).
  destruct x; simpl in Hv; simplify_eq.
  by destruct (_ || _) in Hv; simplify_eq.
Qed.

(** *** More on the manifest store *)

Lemma isFileModified_false fs p h :
  isFileModified fs p h = Some false <->
  Fs.readFile fs p = None \/ exists c, Fs.readFile fs p = Some c /\ sha256 c = h.
Proof.
  unfold isFileModified, computeFileHash, try_catch.
  destruct (Fs.readFile fs p) as [c|]; simpl.
  - destruct (decide (sha256 c = h)) as [Heq | Hne].
    + rewrite bool_decide_eq_true_2 by done. simpl. split; [eauto | done].
    + rewrite bool_decide_eq_false_2 by done. simpl. split; [done |].
      intros [? | (c' & ? & ?)]; simplify_eq.
  - split; [by left | done].
Qed.

Lemma elem_of_filter_values (P : ManifestEntry -> Prop) `{forall e, Decision (P e)}
    (m : Manifest) e :
  e ∈ filter P (map_to_list (files m)).*2 <->
  P e /\ exists p, files m !! p = Some e.
Proof.
  rewrite list_elem_of_filter, list_elem_of_fmap. split.
  - intros (HP & [p e'] & -> & Hin). split; [done |].
    exists p. by apply elem_of_map_to_list.
  - intros (HP & p & Hp). split; [done |].
    exists (p, e). split; [done |]. by apply elem_of_map_to_list.
Qed.

Lemma tally_length evs :
  preserved (tally evs) + installed (tally evs) = length evs.
Proof.
  induction evs as [| ev evs IH] using rev_ind; [done |].
  rewrite tally_app, length_app, tally_singleton. simpl.
  unfold count. destruct (is_preserved ev); simpl; lia.
Qed.

(** *** More on directories *)

Lemma ensure_dir_frame fs p fs' q :
  Fs.ensure_dir fs p = Some fs' -> q ≠ p -> fs' !! q = fs !! q.
Proof.
  unfold Fs.ensure_dir. destruct (fs !! p) as [[c|]|]; intros H Hne; simplify_eq;
    [done |]. by rewrite lookup_insert_ne.
Qed.

Lemma mkdir_from_frame rest : forall fs done_ fs' q,
  Fs.mkdir_from fs done_ rest = Some fs' ->
  ¬ q `prefix_of` (done_ ++ rest) ->
  fs' !! q = fs !! q.
Proof.
  induction rest as [| x rest IH]; intros fs done_ fs' q H Hq; simpl in H.
  - destruct (Fs.ensure_dir fs done_) as [fs1|] eqn:E; simplify_eq/=.
    eapply ensure_dir_frame; [done |]. intros ->. apply Hq.
    by rewrite app_nil_r.
  - destruct (Fs.ensure_dir fs done_) as [fs1|] eqn:E; simplify_eq/=.
    rewrite (IH _ _ _ q H).
    + eapply ensure_dir_frame; [done |]. intros ->. apply Hq.
      by apply prefix_app_r.
    + by rewrite <- app_assoc.
Qed.

Lemma mkdir_p_frame fs d fs' q :
  Fs.mkdir_p fs d = Some fs' -> ¬ q `prefix_of` d -> fs' !! q = fs !! q.
Proof. intros H Hq. by eapply (mkdir_from_frame d fs [] fs' q). Qed.

Lemma mkdir_from_blocked rest : forall fs done_ k c,
  fs !! (done_ ++ take k rest) = Some (Fs.File c) ->
  Fs.mkdir_from fs done_ rest = None.
Proof.
  induction rest as [| x rest IH]; intros fs done_ k c Hk; simpl.
  - rewrite take_nil, app_nil_r in Hk. unfold Fs.ensure_dir. by rewrite Hk.
  - destruct (Fs.ensure_dir fs done_) as [fs1|] eqn:E; [| done]. simpl.
    destruct k as [| k].
    + rewrite take_0, app_nil_r in Hk. unfold Fs.ensure_dir in E. by rewrite Hk in E.
    + simpl in Hk. apply (IH fs1 (done_ ++ [x]) k c).
      rewrite <- app_assoc. simpl.
      apply ensure_dir_grows in E as [G _]. by eapply grows_Some.
Qed.

Lemma mkdir_p_blocked fs d k c :
  fs !! take k d = Some (Fs.File c) -> Fs.mkdir_p fs d = None.
Proof. intros H. by apply (mkdir_from_blocked d fs [] k c). Qed.

(** What a plan does not reach stays exactly as it is. *)
Lemma run_plan_untouched prof ops : forall st st' q,
  run_plan prof ops st = Some st' ->
  q ∉ put_paths ops ->
  (forall d, d ∈ mkdir_paths ops -> ¬ q `prefix_of` d) ->
  st_fs st' !! q = st_fs st !! q /\
  files (st_manifest st') !! q = files (st_manifest st) !! q.
Proof.
  induction ops as [| o ops IH]; intros st st' q H Hput Hmk; simpl in H.
  - by simplify_eq.
  - destruct (exec_op prof o st) as [st1|] eqn:E; simplify_eq/=.
    destruct o as [d | dest name content].
    + apply exec_Mkdir in E as (fs' & Hfs & ->).
      destruct (IH _ _ q H) as [-> ->].
      * done.
      * intros d' Hd'. apply Hmk. unfold mkdir_paths. simpl. by right.
      * split; [| done]. simpl. eapply mkdir_p_frame; [done |].
        apply Hmk. unfold mkdir_paths. simpl. by left.
    + apply exec_Put in E as (ev & Hdec & Hd & ->).
      rewrite put_paths_cons_Put in Hput.
      apply not_elem_of_cons in Hput as [Hne Hput].
      destruct (IH _ _ q H Hput) as [-> ->]; [done |].
      by apply step_result_frame.
Qed.

Lemma mkdir_paths_app ops1 ops2 :
  mkdir_paths (ops1 ++ ops2) = mkdir_paths ops1 ++ mkdir_paths ops2.
Proof. unfold mkdir_paths. by rewrite omap_app. Qed.

Lemma mkdir_paths_entries_under dest es d :
  Forall (fun e : string * src_node =>
            forall dest' d', d' ∈ mkdir_paths (plan e.2 dest') -> dest' `prefix_of` d') es ->
  d ∈ mkdir_paths (mjoin (entry_plan dest <$> es)) ->
  exists e, e ∈ es /\ (dest ++ [e.1]) `prefix_of` d.
Proof.
  induction 1 as [| [name entry] es He _ IH]; simpl.
  - intros Hd. by apply elem_of_nil in Hd.
  - rewrite mkdir_paths_app. intros Hd. apply elem_of_app in Hd as [Hd | Hd].
    + exists (name, entry). split; [by left |].
      unfold entry_plan in Hd. cbn [fst snd] in *.
      destruct entry as [content | sub]; [by apply elem_of_nil in Hd |].
      by apply He.
    + apply IH in Hd as (e & Hin & Hpre). exists e. split; [by right | done].
Qed.

Lemma plan_mkdir_under src : forall dest d,
  d ∈ mkdir_paths (plan src dest) -> dest `prefix_of` d.
Proof.
  induction src as [c | es IH] using src_node_induction; intros dest d Hd.
  - apply list_elem_of_singleton in Hd as ->. done.
  - rewrite plan_SDir in Hd. unfold mkdir_paths in Hd. simpl in Hd.
    apply elem_of_cons in Hd as [-> | Hd]; [done |].
    apply (mkdir_paths_entries_under _ _ _ IH) in Hd as (e & _ & Hpre).
    etrans; [| exact Hpre]. by apply prefix_app_r.
Qed.

Lemma NoDup_fst_agree {A B} (l : list (A * B)) a b1 b2 :
  NoDup l.*1 -> (a, b1) ∈ l -> (a, b2) ∈ l -> b1 = b2.
Proof.
  induction l as [| [a' b'] l IH]; simpl; intros Hnd H1 H2.
  - by apply elem_of_nil in H1.
  - apply NoDup_cons in Hnd as [Hnotin Hnd].
    apply elem_of_cons in H1 as [H1 | H1]; apply elem_of_cons in H2 as [H2 | H2];
      simplify_eq; try done.
    + exfalso. apply Hnotin. apply list_elem_of_fmap. by exists (a', b2).
    + exfalso. apply Hnotin. apply list_elem_of_fmap. by exists (a', b1).
    + by apply IH.
Qed.

Lemma put_paths_join {A} (f : A -> list op) (l : list A) p :
  p ∈ put_paths (mjoin (f <$> l)) <-> exists a, a ∈ l /\ p ∈ put_paths (f a).
Proof.
  induction l as [| a l IH]; simpl.
  - split; [intros H; by apply elem_of_nil in H |].
    intros (a & H & _). by apply elem_of_nil in H.
  - rewrite put_paths_app, elem_of_app, IH. split.
    + intros [H | (a' & Hin & H)]; [exists a; split; [by left | done] |].
      exists a'. split; [by right | done].
    + intros (a' & Hin & H). apply elem_of_cons in Hin as [-> | Hin];
        [by left | right; eauto].
Qed.

Lemma mkdir_paths_join {A} (f : A -> list op) (l : list A) d :
  d ∈ mkdir_paths (mjoin (f <$> l)) <-> exists a, a ∈ l /\ d ∈ mkdir_paths (f a).
Proof.
  induction l as [| a l IH]; simpl.
  - split; [intros H; by apply elem_of_nil in H |].
    intros (a & H & _). by apply elem_of_nil in H.
  - rewrite mkdir_paths_app, elem_of_app, IH. split.
    + intros [H | (a' & Hin & H)]; [exists a; split; [by left | done] |].
      exists a'. split; [by right | done].
    + intros (a' & Hin & H). apply elem_of_cons in Hin as [-> | Hin];
        [by left | right; eauto].
Qed.

Lemma skills_entry_plan_under e :
  (forall p, p ∈ put_paths (skills_entry_plan e) ->
             exists rest, p = claudeSkillsDir ++ e.1 :: rest) /\
  (forall d, d ∈ mkdir_paths (skills_entry_plan e) ->
             (claudeSkillsDir ++ [e.1]) `prefix_of` d).
Proof.
  destruct e as [name [content | sub]]; unfold skills_entry_plan; cbn [fst snd].
  - split.
    + intros p Hp. apply list_elem_of_singleton in Hp as ->. by exists [].
    + intros d Hd. by apply elem_of_nil in Hd.
  - destruct (startsWith name "paid-").
    + split; intros ? H; by apply elem_of_nil in H.
    + split.
      * intros p Hp. apply plan_paths_under in Hp as (n & rest & ->).
        exists (n :: rest). by rewrite <- app_assoc.
      * intros d Hd. by apply plan_mkdir_under in Hd.
Qed.

(** In a well-formed tree no file stands where a directory is created. *)
Lemma plan_put_not_under_mkdir src :
  wf_src src = true -> forall dest p d,
  p ∈ put_paths (plan src dest) -> d ∈ mkdir_paths (plan src dest) ->
  ¬ p `prefix_of` d.
Proof.
  induction src as [c | es IH] using src_node_induction; intros Hwf dest p d Hp Hd.
  - by apply elem_of_nil in Hp.
  - apply wf_src_SDir in Hwf as [Hnames Hwf].
    rewrite plan_SDir in Hp, Hd. rewrite put_paths_cons_Mkdir in Hp.
    apply put_paths_join in Hp as ([n x] & He & Hp).
    assert (exists rest, p = dest ++ n :: rest) as [rest Hrest].
    { apply (put_paths_entry_under dest (n, x)); [| done].
      intros ? ? ?. by eapply plan_paths_under. }
    unfold mkdir_paths in Hd. simpl in Hd. fold (mkdir_paths) in Hd.
    apply elem_of_cons in Hd as [-> | Hd].
    + subst p. intros Hpre. apply prefix_length in Hpre.
      rewrite length_app in Hpre. simpl in Hpre. lia.
    + apply mkdir_paths_join in Hd as ([n' x'] & He' & Hd).
      unfold entry_plan in Hd. cbn [fst snd] in Hd.
      destruct x' as [c' | sub']; [by apply elem_of_nil in Hd |].
      intros Hpre.
      assert (n = n') as <-.
      { apply plan_mkdir_under in Hd as [k1 ->]. subst p.
        destruct Hpre as [k2 Hk]. rewrite <- !app_assoc in Hk.
        apply app_inv_head in Hk. simpl in Hk. by simplify_eq. }
      assert (x = SDir sub') as ->
        by exact (NoDup_fst_agree _ _ _ _ Hnames He He').
      unfold entry_plan in Hp. cbn [fst snd] in Hp.
      rewrite Forall_forall in IH, Hwf.
      apply (IH _ He (Hwf _ He) _ _ _ Hp Hd Hpre).
Qed.

Lemma decision_fresh fs m p ev :
  decision fs m p ev -> fs !! p = None -> ev = Installed p.
Proof.
  destruct 1 as [[n Hs] _ | | |]; intros Hn; simplify_eq; done.
Qed.

(** Where none of the destinations exists, every file is installed. *)
Lemma run_plan_fresh prof ops : forall st st',
  NoDup (put_paths ops) ->
  (forall p d, p ∈ put_paths ops -> d ∈ mkdir_paths ops -> ¬ p `prefix_of` d) ->
  (forall p, p ∈ put_paths ops -> st_fs st !! p = None) ->
  run_plan prof ops st = Some st' ->
  st_log st' = st_log st ++ (Installed <$> put_paths ops).
Proof.
  induction ops as [| o ops IH]; intros st st' Hnd Hsep Hnone H; simpl in H.
  - simplify_eq. by rewrite app_nil_r.
  - destruct (exec_op prof o st) as [st1|] eqn:E; simplify_eq/=.
    destruct o as [d | dest name content].
    + apply exec_Mkdir in E as (fs' & Hmk & ->).
      rewrite put_paths_cons_Mkdir in *.
      rewrite (IH (with_fs st fs') st' Hnd); [done | | | done].
      * intros p d' Hp Hd'. apply Hsep; [done | by right].
      * intros p Hp. simpl. rewrite (mkdir_p_frame _ _ _ p Hmk); [by apply Hnone |].
        apply Hsep; [done | by left].
    + apply exec_Put in E as (ev & Hdec & Hdir & ->).
      rewrite put_paths_cons_Put in *. apply NoDup_cons in Hnd as [Hfresh Hnd].
      apply decision_fresh in Hdec as ->; [| apply Hnone; by left].
      rewrite (IH (step_result name content (dest ++ [name]) prof st
                     (Installed (dest ++ [name]))) st' Hnd); [| | | done].
      * unfold step_result. simpl. by rewrite <- app_assoc.
      * intros p d' Hp Hd'. apply Hsep; [by right | done].
      * intros p Hp.
        destruct (step_result_frame name content (dest ++ [name]) prof st
                    (Installed (dest ++ [name])) p) as [-> _].
        -- intros ->. done.
        -- apply Hnone. by right.
Qed.

Lemma tally_installed ps :
  tally (Installed <$> ps) = {| preserved := 0; installed := length ps |}.
Proof.
  induction ps as [| p ps IH] using rev_ind; [done |].
  rewrite fmap_app, tally_app, IH, length_app. simpl.
  unfold add_counts. simpl. f_equal.
Qed.

(** *** Association lists *)

Lemma assoc_set_same {A} k (a : A) l :
  Js.assoc k l = Some a -> Js.assoc_set k a l = l.
Proof.
  induction l as [| [k' a'] l IH]; simpl; [done |].
  case_bool_decide; intros Hl; simplify_eq; [done |]. by rewrite IH.
Qed.

Lemma assoc_set_twice {A} k (a b : A) l :
  Js.assoc_set k b (Js.assoc_set k a l) = Js.assoc_set k b l.
Proof.
  induction l as [| [k' a'] l IH]; simpl.
  - by rewrite bool_decide_eq_true_2.
  - case_bool_decide; simpl.
    + by rewrite bool_decide_eq_true_2.
    + rewrite bool_decide_eq_false_2 by done. by rewrite IH.
Qed.

Lemma assoc_del_set {A} k (a : A) l :
  Js.assoc k l = None -> Js.assoc_del k (Js.assoc_set k a l) = l.
Proof.
  unfold Js.assoc_del.
  induction l as [| [k' a'] l IH]; simpl.
  - intros _. rewrite filter_cons_False; [done | simpl; by intros []].
  - case_bool_decide; [done |]. intros Hl.
    rewrite filter_cons_True by done. by rewrite IH.
Qed.

Lemma assoc_del_set_any {A} k (a : A) l :
  Js.assoc_del k (Js.assoc_set k a l) = Js.assoc_del k l.
Proof.
  unfold Js.assoc_del.
  induction l as [| [k' a'] l IH]; simpl.
  - rewrite filter_cons_False; [done | simpl; by intros []].
  - case_bool_decide as Hk; subst.
    + by rewrite !filter_cons_False by (simpl; by intros []).
    + rewrite !filter_cons_True by done. by rewrite IH.
Qed.

Lemma assoc_del_ne {A} k k' (l : list (string * A)) :
  k' ≠ k -> Js.assoc k' (Js.assoc_del k l) = Js.assoc k' l.
Proof.
  intros Hne. unfold Js.assoc_del.
  induction l as [| [k0 a0] l IH]; simpl; [done |].
  destruct (decide (k0 = k)) as [-> | Hk].
  - rewrite filter_cons_False by (simpl; by intros []).
    by rewrite bool_decide_eq_false_2.
  - rewrite filter_cons_True by done. simpl. by rewrite IH.
Qed.

Lemma assoc_del_eq {A} k (l : list (string * A)) :
  Js.assoc k (Js.assoc_del k l) = None.
Proof.
  unfold Js.assoc_del.
  induction l as [| [k0 a0] l IH]; simpl; [done |].
  destruct (decide (k0 = k)) as [-> | Hk].
  - by rewrite filter_cons_False by (simpl; by intros []).
  - rewrite filter_cons_True by done. simpl.
    by rewrite bool_decide_eq_false_2.
Qed.

(** *** Permissions for the skills directory *)

Lemma includesSkillsDir_app dirs :
  includesSkillsDir (dirs ++ [Js.VStr claudeSkillsDirName]) = true.
Proof.
  unfold includesSkillsDir. rewrite existsb_app. simpl.
  rewrite bool_decide_eq_true_2 by done. by rewrite orb_true_r.
Qed.

Lemma String_includes_nonempty s t :
  String_includes s t = true -> t ≠ "" -> s ≠ "".
Proof.
  unfold String_includes. intros H Ht ->. apply bool_decide_eq_true in H.
  destruct t; [done |]. simpl in H. by destruct H.
Qed.

Lemma append_nonempty (s t : string) : t ≠ "" -> s +:+ t ≠ "".
Proof. destruct s; [done | by simpl]. Qed.

Lemma claudeSkillsDirName_nonempty : claudeSkillsDirName ≠ "".
Proof. unfold claudeSkillsDirName. by apply append_nonempty. Qed.

(** The value written for settings that are an object: either the object
    as it was, when its [permissions] is an array, or the object with a
    [permissions] whose [additionalDirectories] includes the skills
    directory. *)
Lemma grantSkillsDir_object ps settings' :
  grantSkillsDir (Js.VObj ps) = Some settings' ->
  (exists items, Js.assoc "permissions" ps = Some (Js.VArr items) /\
                 settings' = Js.VObj ps) \/
  (exists pps' ad,
      settings' = Js.VObj (Js.assoc_set "permissions" (Js.VObj pps') ps) /\
      Js.assoc "additionalDirectories" pps' = Some ad /\
      Js.truthy (Some ad) = true /\
      match ad with
      | Js.VArr dirs => includesSkillsDir dirs = true
      | Js.VStr s => String_includes s claudeSkillsDirName = true
      | _ => False
      end).
Proof.
  unfold grantSkillsDir. cbn [Js.prop Js.set].
  destruct (Js.assoc "permissions" ps) as [perm|] eqn:Ep.
  - destruct (Js.truthy (Some perm)) eqn:Et;
      cbn [negb mbind option_bind Js.prop].
    + rewrite Ep. cbn [mbind option_bind].
      destruct perm as [| b | n | s | items | pps]; try done.
      * intros ?; simplify_eq. left. eauto.
      * cbn [Js.prop Js.set].
        destruct (Js.assoc "additionalDirectories" pps) as [ad|] eqn:Ead.
        -- destruct (Js.truthy (Some ad)) eqn:Ea;
             cbn [negb mbind option_bind Js.prop].
           ++ rewrite Ead. cbn [mbind option_bind].
              destruct ad as [| b | n | s | dirs | o]; try done.
              ** destruct (String_includes s claudeSkillsDirName) eqn:Ei;
                   cbn [negb mbind option_bind]; [| done].
                 intros ?; simplify_eq. right. exists pps, (Js.VStr s).
                 by split_and!.
              ** destruct (includesSkillsDir dirs) eqn:Ei;
                   cbn [negb mbind option_bind Js.set].
                 --- intros ?; simplify_eq. right. exists pps, (Js.VArr dirs).
                     by split_and!.
                 --- intros ?; simplify_eq. right.
                     eexists _, (Js.VArr (dirs ++ [Js.VStr claudeSkillsDirName])).
                     split_and!; [done | apply assoc_set_eq | done |].
                     apply includesSkillsDir_app.
           ++ rewrite assoc_set_eq.
              cbn [mbind option_bind includesSkillsDir existsb negb Js.set].
              intros ?; simplify_eq. right.
              eexists _, (Js.VArr ([] ++ [Js.VStr claudeSkillsDirName])).
              split_and!; [by rewrite assoc_set_twice | apply assoc_set_eq | done |].
              apply includesSkillsDir_app.
        -- cbn [Js.truthy negb mbind option_bind Js.prop].
           rewrite assoc_set_eq.
           cbn [mbind option_bind includesSkillsDir existsb negb Js.set].
           intros ?; simplify_eq. right.
           eexists _, (Js.VArr ([] ++ [Js.VStr claudeSkillsDirName])).
           split_and!; [by rewrite assoc_set_twice | apply assoc_set_eq | done |].
           apply includesSkillsDir_app.
    + rewrite assoc_set_eq.
      cbn [mbind option_bind Js.prop Js.assoc Js.truthy negb Js.set].
      cbn [Js.assoc_set Js.assoc]. rewrite ?bool_decide_eq_true_2 by done.
      cbn [mbind option_bind includesSkillsDir existsb negb Js.assoc_set].
      rewrite ?bool_decide_eq_true_2 by done.
      intros ?; simplify_eq. right.
      eexists _, (Js.VArr ([] ++ [Js.VStr claudeSkillsDirName])).
      split_and!; [by rewrite assoc_set_twice | | done | apply includesSkillsDir_app].
      done.
  - cbn [Js.truthy negb mbind option_bind Js.prop].
    rewrite assoc_set_eq.
    cbn [mbind option_bind Js.prop Js.assoc Js.truthy negb Js.set].
    cbn [Js.assoc_set Js.assoc]. rewrite ?bool_decide_eq_true_2 by done.
    cbn [mbind option_bind includesSkillsDir existsb negb Js.assoc_set].
    rewrite ?bool_decide_eq_true_2 by done.
    intros ?; simplify_eq. right.
    eexists _, (Js.VArr ([] ++ [Js.VStr claudeSkillsDirName])).
    split_and!; [by rewrite assoc_set_twice | | done | apply includesSkillsDir_app].
    done.
Qed.

Lemma readFile_grows fs fs' p :
  grows fs fs' -> Fs.readFile fs' p = Fs.readFile fs p.
Proof.
  intros G. unfold Fs.readFile. destruct (G p) as [-> | [-> ->]]; done.
Qed.

Lemma currentSettings_total fs : is_Some (currentSettings fs).
Proof.
  unfold currentSettings, try_catch.
  destruct (Fs.readFile fs claudeSettingsFile ≫= _); eauto.
Qed.

Lemma configureSkillsPermissions_spec fs fs' settings' :
  configureSkillsPermissions fs = Some (fs', settings') ->
  exists fs1 settings,
    Fs.mkdir_p fs claudeDir = Some fs1 /\
    currentSettings fs = Some settings /\
    grantSkillsDir settings = Some settings' /\
    fs1 !! claudeSettingsFile ≠ Some Fs.Dir /\
    fs' = <[claudeSettingsFile := Fs.File (JSON_stringify 2 settings')]> fs1.
Proof.
  unfold configureSkillsPermissions.
  change (Fs.dirname claudeSettingsFile) with claudeDir.
  destruct (Fs.mkdir_p fs claudeDir) as [fs1|] eqn:Emk;
    cbn [mbind option_bind]; [| done].
  fold (currentSettings fs1).
  destruct (currentSettings fs1) as [settings|] eqn:Es;
    cbn [mbind option_bind]; [| done].
  destruct (grantSkillsDir settings) as [s'|] eqn:Eg;
    cbn [mbind option_bind]; [| done].
  destruct (Fs.writeFile fs1 claudeSettingsFile _) as [fs2|] eqn:Ew;
    cbn [mbind option_bind]; [| done].
  intros ?; simplify_eq.
  change claudeSettingsFile with (claudeDir ++ ["settings.json"]) in Ew.
  apply writeFile_snoc in Ew as (_ & Hnd & ->).
  exists fs1, settings. split_and!; try done.
  unfold currentSettings in *.
  by rewrite <- (readFile_grows fs fs1 _ (mkdir_p_grows _ _ _ Emk)).
Qed.

Lemma grantSkillsDir_permitted settings settings' :
  grantSkillsDir settings = Some settings' ->
  plainSettings settings = true ->
  skillsDirPermitted settings' = Some true.
Proof.
  destruct settings as [| | | | | ps]; try done.
  intros Hg Hplain. apply grantSkillsDir_object in Hg
    as [(items & Hp & _) | (pps' & ad & -> & Had & _ & Hin)].
  - simpl in Hplain. by rewrite Hp in Hplain.
  - unfold skillsDirPermitted. cbn [Js.prop]. rewrite assoc_set_eq.
    cbn [Js.opt_prop Js.prop]. rewrite Had.
    destruct ad; try done; by rewrite Hin.
Qed.

Lemma grantSkillsDir_idempotent settings settings' :
  grantSkillsDir settings = Some settings' ->
  grantSkillsDir settings' = Some settings'.
Proof.
  destruct settings as [| | | | items | ps]; try done.
  - simpl. by intros ?; simplify_eq.
  - intros Hg. apply grantSkillsDir_object in Hg
      as [(items & Hp & ->) | (pps' & ad & -> & Had & Ht & Hin)].
    + unfold grantSkillsDir. cbn [Js.prop Js.set]. rewrite Hp.
      cbn [Js.truthy negb mbind option_bind Js.prop]. rewrite Hp.
      by cbn [mbind option_bind].
    + unfold grantSkillsDir. cbn [Js.prop Js.set]. rewrite assoc_set_eq.
      cbn [Js.truthy negb mbind option_bind Js.prop]. rewrite assoc_set_eq.
      cbn [mbind option_bind Js.prop]. rewrite Had, Ht.
      cbn [negb mbind option_bind Js.prop]. rewrite Had.
      cbn [mbind option_bind].
      destruct ad; try done; rewrite Hin; cbn [negb mbind option_bind Js.set];
        by rewrite assoc_set_twice.
Qed.

Lemma removeSkillsPermissions_array fs content ps pps dirs :
  fs !! claudeDir = Some Fs.Dir ->
  Fs.readFile fs claudeSettingsFile = Some content ->
  JSON_parse content = Some (Js.VObj ps) ->
  Js.assoc "permissions" ps = Some (Js.VObj pps) ->
  Js.assoc "additionalDirectories" pps = Some (Js.VArr dirs) ->
  removeSkillsPermissions fs
  = Some (<[claudeSettingsFile :=
              Fs.File (JSON_stringify 2 (revokedSettings ps pps dirs))]> fs).
Proof.
  intros Hdir Hread Hparse Hp Had.
  unfold removeSkillsPermissions. rewrite Hread. cbn [mbind option_bind].
  rewrite Hparse. cbn [mbind option_bind Js.prop]. rewrite Hp.
  cbn [Js.opt_prop Js.prop]. rewrite Had. cbn [Js.truthy Js.set mbind option_bind].
  fold (keptDirs dirs).
  assert (Hw : forall v,
    Fs.writeFile fs claudeSettingsFile v = Some (<[claudeSettingsFile := Fs.File v]> fs)).
  { intros v. change claudeSettingsFile with (claudeDir ++ ["settings.json"]).
    apply writeFile_snoc. split_and!; [done | | done].
    change (claudeDir ++ ["settings.json"]) with claudeSettingsFile.
    unfold Fs.readFile in Hread.
    destruct (fs !! claudeSettingsFile) as [[c|]|]; done. }
  unfold revokedSettings.
  destruct (bool_decide (length (keptDirs dirs) = 0));
    cbn [Js.del Js.keys];
    match goal with
    | |- context [bool_decide (length (?l.*1) = 0)] =>
        destruct (bool_decide (length (l.*1) = 0))
    end; cbn [Js.del]; by rewrite Hw.
Qed.

Lemma includesSkillsDir_keptDirs dirs : includesSkillsDir (keptDirs dirs) = false.
Proof.
  unfold includesSkillsDir, keptDirs.
  induction dirs as [| d dirs IH]; [done |].
  destruct (Js.is_str (Some d) claudeSkillsDirName) eqn:E.
  - by rewrite filter_cons_False by (by rewrite E).
  - rewrite filter_cons_True by done. simpl in *. by rewrite E, IH.
Qed.

Lemma grantSkillsDir_no_permissions ps :
  Js.assoc "permissions" ps = None ->
  grantSkillsDir (Js.VObj ps)
  = Some (Js.VObj (Js.assoc_set "permissions"
                     (Js.VObj [("additionalDirectories",
                                Js.VArr [Js.VStr claudeSkillsDirName])]) ps)).
Proof.
  intros Hp. unfold grantSkillsDir. cbn [Js.prop Js.set]. rewrite Hp.
  cbn [Js.truthy negb mbind option_bind Js.prop]. rewrite assoc_set_eq.
  cbn [mbind option_bind Js.prop Js.assoc Js.truthy negb Js.set].
  cbn [Js.assoc_set Js.assoc]. rewrite ?bool_decide_eq_true_2 by done.
  cbn [mbind option_bind includesSkillsDir existsb negb Js.assoc_set].
  rewrite ?bool_decide_eq_true_2 by done.
  by rewrite assoc_set_twice.
Qed.

(** *** The steps of [installSkills] and what [validate] looks at *)

Lemma run_plan_mkdirs prof ops : forall st st' d,
  run_plan prof ops st = Some st' ->
  d ∈ mkdir_paths ops ->
  st_fs st' !! d = Some Fs.Dir.
Proof.
  induction ops as [| o ops IH]; intros st st' d H Hd; simpl in H.
  - by apply elem_of_nil in Hd.
  - destruct (exec_op prof o st) as [st1|] eqn:E; simplify_eq/=.
    destruct o as [d0 | dest name content].
    + apply elem_of_cons in Hd as [-> | Hd]; [| by eapply IH].
      apply exec_Mkdir in E as (fs' & Hmk & ->).
      destruct (run_plan_frame _ _ _ _ H) as [Hdirs _]. apply Hdirs. simpl.
      pose proof (mkdir_p_dirs_ok _ _ _ Hmk (length d0)) as Hk.
      by rewrite firstn_all in Hk.
    + by eapply IH.
Qed.

Lemma saveManifest_fs fs manifest now fs' manifest' :
  saveManifest fs manifest now = Some (fs', manifest') ->
  exists fs1 content,
    Fs.mkdir_p fs claudeDir = Some fs1 /\
    fs1 !! manifestPath ≠ Some Fs.Dir /\
    fs' = <[manifestPath := Fs.File content]> fs1.
Proof.
  unfold saveManifest.
  change (Fs.dirname manifestPath) with claudeDir.
  destruct (Fs.mkdir_p fs claudeDir) as [fs1|]; cbn [mbind option_bind]; [| done].
  destruct (Js.set manifest _ _) as [m1|]; cbn [mbind option_bind]; [| done].
  destruct (Js.set m1 _ _) as [m2|]; cbn [mbind option_bind]; [| done].
  destruct (Fs.writeFile fs1 manifestPath _) as [fs2|] eqn:Ew;
    cbn [mbind option_bind]; [| done].
  intros ?; simplify_eq.
  change manifestPath with (claudeDir ++ [".nojo-manifest.json"]) in Ew.
  apply writeFile_snoc in Ew as (_ & Hnd & ->). eauto.
Qed.

Lemma saveManifest_keeps fs manifest now fs' manifest' q :
  saveManifest fs manifest now = Some (fs', manifest') ->
  (fs !! q = Some Fs.Dir -> fs' !! q = Some Fs.Dir) /\
  (q ≠ manifestPath -> Fs.readFile fs' q = Fs.readFile fs q).
Proof.
  intros H. apply saveManifest_fs in H as (fs1 & content & Hmk & Hnd & ->).
  apply mkdir_p_grows in Hmk. split.
  - intros Hq. rewrite lookup_insert_ne.
    + by eapply grows_Some.
    + intros <-. apply Hnd. by eapply grows_Some.
  - intros Hne. unfold Fs.readFile at 1. rewrite lookup_insert_ne by done.
    by apply readFile_grows.
Qed.

Lemma configureSkillsPermissions_keeps fs fs' settings' q :
  configureSkillsPermissions fs = Some (fs', settings') ->
  fs !! q = Some Fs.Dir -> fs' !! q = Some Fs.Dir.
Proof.
  intros H Hq. apply configureSkillsPermissions_spec in H
    as (fs1 & s & Hmk & _ & _ & Hnd & ->).
  apply mkdir_p_grows in Hmk. rewrite lookup_insert_ne.
  - by eapply grows_Some.
  - intros <-. apply Hnd. by eapply grows_Some.
Qed.

Lemma skillsPlan_mkdir entries name sub :
  (name, SDir sub) ∈ entries ->
  startsWith name "paid-" = false ->
  elem_of (claudeSkillsDir ++ [name]) (mkdir_paths (skillsPlan entries)).
Proof.
  intros Hin Hpaid. apply mkdir_paths_join. exists (name, SDir sub).
  split; [done |]. unfold skills_entry_plan. cbn [fst snd]. rewrite Hpaid.
  rewrite plan_SDir. by left.
Qed.

Lemma skillsPlan_not_settings entries :
  (claudeSettingsFile ∉ put_paths (skillsPlan entries)) /\
  forall d, d ∈ mkdir_paths (skillsPlan entries) ->
            ¬ claudeSettingsFile `prefix_of` d.
Proof.
  split.
  - intros Hp. apply put_paths_join in Hp as (e & _ & Hp).
    destruct (skills_entry_plan_under e) as [Hput _].
    destruct (Hput _ Hp) as (rest & Heq). done.
  - intros d Hd Hpre. apply mkdir_paths_join in Hd as (e & _ & Hd).
    destruct (skills_entry_plan_under e) as [_ Hmk].
    destruct (Hmk _ Hd) as [k1 ->]. destruct Hpre as [k2 Hk]. done.
Qed.

Lemma expectedSkillErrors_cons fs e entries :
  expectedSkillErrors fs (e :: entries)
  = match e.2 with
    | SFile _ => []
    | SDir _ =>
        if startsWith e.1 "paid-" then []
        else if Fs.exists_ fs (claudeSkillsDir ++ [e.1]) then []
        else ["Expected skill '" +:+ e.1 +:+ "' not found"]
    end ++ expectedSkillErrors fs entries.
Proof. reflexivity. Qed.

Lemma expectedSkillErrors_nil fs entries :
  (forall name sub, (name, SDir sub) ∈ entries ->
     startsWith name "paid-" = false ->
     fs !! (claudeSkillsDir ++ [name]) = Some Fs.Dir) ->
  expectedSkillErrors fs entries = [].
Proof.
  induction entries as [| [name entry] entries IH]; intros H; [done |].
  rewrite expectedSkillErrors_cons, IH.
  - rewrite app_nil_r. cbn [fst snd]. destruct entry as [c | sub]; [done |].
    destruct (startsWith name "paid-") eqn:Ep; [done |].
    unfold Fs.exists_. rewrite (H name sub); [| by left | done].
    by rewrite bool_decide_eq_true_2.
  - intros n s Hin. apply (H n s). by right.
Qed.

(** *** The schema of the configuration leaves valid values as they are *)

Lemma validate_profile_id y y' :
  Ajv.validate profileSchema y = Some y' -> y' = y.
Proof.
  destruct y as [| | | | | rs]; simpl; try done.
  - by intros ?; simplify_eq.
  - destruct (Js.assoc "baseProfile" rs) as [b|] eqn:Eb; simpl.
    + destruct b; simpl; try done. intros ?; simplify_eq.
      by rewrite (assoc_set_same _ _ _ Eb).
    + by intros ?; simplify_eq.
Qed.

Lemma validate_agent_object qs :
  Ajv.validate agentSchema (Js.VObj qs)
  = ps3 ← validate_properties [("profile", profileSchema)] qs; Some (Js.VObj ps3).
Proof. reflexivity. Qed.

Lemma validate_agent_id x x' :
  Ajv.validate agentSchema x = Some x' -> x' = x.
Proof.
  destruct x as [| | | | | qs]; try done.
  rewrite validate_agent_object. cbn [validate_properties].
  destruct (Js.assoc "profile" qs) as [y|] eqn:Ey; cbn [mbind option_bind].
  - destruct (Ajv.validate profileSchema y) as [y'|] eqn:Ev;
      cbn [mbind option_bind]; [| done].
    apply validate_profile_id in Ev as ->. intros ?; simplify_eq.
    by rewrite (assoc_set_same _ _ _ Ey).
  - by intros ?; simplify_eq.
Qed.

Lemma validate_agents_each ps :
  Ajv.validate agentsSchema (Js.VObj ps)
  = ps2 ← validate_each agentSchema ps; Some (Js.VObj ps2).
Proof. reflexivity. Qed.

Lemma validate_each_id extra ps ps' :
  (forall x x', Ajv.validate extra x = Some x' -> x' = x) ->
  validate_each extra ps = Some ps' -> ps' = ps.
Proof.
  intros Hid. revert ps'.
  induction ps as [| [k x] ps IH]; intros ps' H; simpl in H; [by simplify_eq |].
  destruct (Ajv.validate extra x) as [x'|] eqn:Ex; cbn [mbind option_bind] in H;
    [| done].
  destruct (validate_each extra ps) as [rest|] eqn:Er;
    cbn [mbind option_bind] in H; [| done].
  simplify_eq. by rewrite (Hid _ _ Ex), (IH _ eq_refl).
Qed.

Lemma validate_agents_id a a' :
  Ajv.validate agentsSchema a = Some a' -> a' = a.
Proof.
  destruct a as [| | | | | ps]; try done.
  rewrite validate_agents_each.
  destruct (validate_each agentSchema ps) as [ps2|] eqn:E;
    cbn [mbind option_bind]; [| done].
  intros ?; simplify_eq.
  by rewrite (validate_each_id _ _ _ validate_agent_id E).
Qed.

Lemma validate_autoupdate_id x x' :
  Ajv.validate autoupdateSchema x = Some x' -> x' = x.
Proof.
  destruct x; simpl; try done. destruct (_ || _); [| done].
  by intros ?; simplify_eq.
Qed.

Lemma config_autoupdate_value ps ps3 :
  validateConfigSchema (Js.VObj ps) = Some (Js.VObj ps3) ->
  Js.assoc "autoupdate" ps3
  = Some (default (Js.VStr "disabled") (Js.assoc "autoupdate" ps)).
Proof.
  intros Hvalid. rewrite validateConfigSchema_object in Hvalid.
  apply bind_Some in Hvalid as (ps3' & Hprops & ?). simplify_eq.
  assert (Hnd : NoDup configProperties.*1) by (by apply (bool_decide_unpack _)).
  pose proof (validate_properties_assoc _ _ _ Hnd Hprops "autoupdate") as H.
  rewrite (assoc_filter_key
             (fun k => Ajv.listed k (Some configProperties))) in H.
  change (Ajv.listed "autoupdate" (Some configProperties)) with true in H.
  cbv iota in H.
  assert (Hps1 : Js.assoc "autoupdate"
                   (if Ajv.has_key "autoupdate" ps then ps
                    else ps ++ [("autoupdate", Js.VStr "disabled")])
                 = Some (default (Js.VStr "disabled") (Js.assoc "autoupdate" ps))).
  { unfold Ajv.has_key. destruct (Js.assoc "autoupdate" ps) as [x|] eqn:E.
    - rewrite bool_decide_eq_true_2 by eauto. by rewrite E.
    - rewrite bool_decide_eq_false_2 by (by intros [? ?]).
      by rewrite assoc_app_None, E. }
  rewrite Hps1 in H. cbn [Js.assoc configProperties] in H.
  rewrite bool_decide_eq_true_2 in H by done.
  destruct H as (x' & Hv & ->). by rewrite (validate_autoupdate_id _ _ Hv).
Qed.

(** What [loadConfig] returns for a file that holds a valid object. *)
Lemma loadConfig_valid fs content ps ps3 :
  Fs.readFile fs configPath = Some content ->
  JSON_parse content = Some (Js.VObj ps) ->
  JSON_parse (JSON_stringify 0 (Js.VObj ps)) = Some (Js.VObj ps) ->
  validateConfigSchema (Js.VObj ps) = Some (Js.VObj ps3) ->
  loadConfig fs
  = Some (Some
      {| config_installDir :=
           Js.coalesce (Js.assoc "installDir" ps3) (Js.VStr installDir);
         config_autoupdate := Js.assoc "autoupdate" ps3;
         config_version := Js.assoc "version" ps3;
         config_agents :=
           if negb (Js.nullish (Js.assoc "agents" ps3))
           then Js.assoc "agents" ps3
           else
             match Js.opt_prop (Js.assoc "profile" ps3) "baseProfile" with
             | None | Some Js.VNull => None
             | Some baseProfile => Some (legacyAgents baseProfile)
             end |}).
Proof.
  intros Hread Hparse Hclone Hvalid.
  pose proof (config_autoupdate_validated _ _ Hvalid) as Hauto.
  assert (Hex : Fs.access fs configPath = Some ()).
  { unfold Fs.access, Fs.exists_. unfold Fs.readFile in Hread.
    destruct (fs !! configPath); [| done].
    by rewrite bool_decide_eq_true_2 by eauto. }
  unfold loadConfig, try_catch. rewrite Hex. cbn [mbind option_bind].
  rewrite Hread. cbn [mbind option_bind]. rewrite Hparse. cbn [mbind option_bind].
  cbn [Js.nullish Js.typeof orb negb].
  rewrite bool_decide_eq_true_2 by done. cbn [negb].
  rewrite Hclone. cbn [mbind option_bind]. rewrite Hvalid.
  cbn [config_agents config_autoupdate Js.prop]. rewrite Hauto.
  cbn [negb]. by rewrite orb_true_r.
Qed.

Lemma validateConfigSchema_VObj ps validated :
  validateConfigSchema (Js.VObj ps) = Some validated ->
  exists ps3, validated = Js.VObj ps3.
Proof.
  rewrite validateConfigSchema_object. intros H.
  apply bind_Some in H as (ps3 & _ & ?). simplify_eq. eauto.
Qed.

Lemma configObject_assoc autoupdate agents version :
  exists ps,
    configObject autoupdate agents version = Js.VObj ps /\
    Js.assoc "agents" ps = given agents /\
    Js.assoc "autoupdate" ps = given autoupdate /\
    Js.assoc "version" ps = given version /\
    Js.assoc "installDir" ps = Some (Js.VStr installDir) /\
    Js.assoc "profile" ps = None.
Proof.
  eexists. split; [reflexivity |].
  destruct agents as [[]|]; destruct autoupdate as [[]|];
    destruct version as [[]|]; by split_and!.
Qed.

Lemma saveConfig_then_loadConfig fs autoupdate agents version fs' validated :
  saveConfig fs autoupdate agents version = Some fs' ->
  JSON_parse (JSON_stringify 2 (configObject autoupdate agents version))
  = Some (configObject autoupdate agents version) ->
  JSON_parse (JSON_stringify 0 (configObject autoupdate agents version))
  = Some (configObject autoupdate agents version) ->
  validateConfigSchema (configObject autoupdate agents version) = Some validated ->
  Js.prop (configObject autoupdate agents version) "profile" = None /\
  exists cfg,
    loadConfig fs' = Some (Some cfg) /\
    config_installDir cfg = Js.VStr installDir /\
    config_agents cfg = given agents /\
    config_version cfg = given version /\
    config_autoupdate cfg
    = Some (default (Js.VStr "disabled") (given autoupdate)).
Proof.
  intros Hsave Hcodec Hclone Hvalid.
  destruct (configObject_assoc autoupdate agents version)
    as (ps & Hobj & Hag & Hau & Hver & Hdir & Hprof).
  rewrite Hobj in *. split; [done |].
  destruct (validateConfigSchema_VObj _ _ Hvalid) as [ps3 ->].
  unfold saveConfig in Hsave.
  destruct (Fs.mkdir_p fs (Fs.dirname configPath)) as [fs1|];
    cbn [mbind option_bind] in Hsave; [| done].
  rewrite Hobj in Hsave.
  change configPath with (claudeDir ++ [".nojo-config.json"]) in Hsave.
  apply writeFile_snoc in Hsave as (_ & _ & ->).
  change (claudeDir ++ [".nojo-config.json"]) with configPath.
  eexists. split.
  - apply (loadConfig_valid _ (JSON_stringify 2 (Js.VObj ps)) ps ps3); try done.
    unfold Fs.readFile. by rewrite lookup_insert_eq.
  - pose proof (config_assoc_validated _ _ "installDir" Hvalid) as Hd.
    pose proof (config_assoc_validated _ _ "agents" Hvalid) as Ha.
    pose proof (config_assoc_validated _ _ "version" Hvalid) as Hv.
    pose proof (config_assoc_validated _ _ "profile" Hvalid) as Hp.
    rewrite Hdir in Hd. rewrite Hprof in Hp.
    cbn [Js.assoc configProperties] in Hd, Ha, Hv.
    cbn [config_installDir config_agents config_version config_autoupdate].
    destruct Hd as (d' & Hvd & Hd); [apply (bool_decide_unpack _); reflexivity |].
    apply validate_string in Hvd as (s & _ & ->).
    rewrite Hd, Hp by (apply (bool_decide_unpack _); reflexivity).
    rewrite (config_autoupdate_value _ _ Hvalid), Hau.
    cbn [Js.coalesce Js.opt_prop]. split_and!.
    + done.
    + rewrite Hag in Ha. unfold given in *.
      destruct (Js.nullish agents) eqn:En.
      * rewrite Ha by (apply (bool_decide_unpack _); reflexivity). done.
      * destruct agents as [a|]; [| done].
        rewrite bool_decide_eq_false_2 in Ha by done.
        rewrite bool_decide_eq_false_2 in Ha by done.
        rewrite bool_decide_eq_false_2 in Ha by done.
        rewrite bool_decide_eq_true_2 in Ha by done.
        destruct Ha as (a' & Hva & ->); [apply (bool_decide_unpack _); reflexivity |].
        apply validate_agents_id in Hva as ->. by rewrite En.
    + rewrite Hver in Hv. unfold given in *.
      destruct (Js.nullish version) eqn:En.
      * by rewrite Hv by (apply (bool_decide_unpack _); reflexivity).
      * destruct version as [v|]; [| done].
        repeat (rewrite bool_decide_eq_false_2 in Hv by done).
        rewrite bool_decide_eq_true_2 in Hv by done.
        destruct Hv as (v' & Hvv & ->); [apply (bool_decide_unpack _); reflexivity |].
        by apply validate_string in Hvv as (s' & _ & ->).
    + unfold given. by destruct (Js.nullish autoupdate).
Qed.

(** *** Uninstalling the configuration *)

Lemma loadConfig_frame fs fs' :
  fs' !! configPath = fs !! configPath -> loadConfig fs' = loadConfig fs.
Proof.
  intros H. unfold loadConfig, Fs.access, Fs.exists_, Fs.readFile. by rewrite H.
Qed.

Lemma loadConfig_exists fs cfg :
  loadConfig fs = Some (Some cfg) -> exists c, fs !! configPath = Some (Fs.File c).
Proof.
  unfold loadConfig, try_catch, Fs.access, Fs.exists_, Fs.readFile.
  destruct (fs !! configPath) as [[c|]|]; [eauto | |].
  - rewrite bool_decide_eq_true_2 by eauto. done.
  - rewrite bool_decide_eq_false_2 by (by intros [? ?]). done.
Qed.

Lemma assoc_elem_of {A} (l : list (string * A)) k a :
  NoDup l.*1 -> (k, a) ∈ l -> Js.assoc k l = Some a.
Proof.
  induction l as [| [k' a'] l IH]; simpl; intros Hnd Hin.
  - by apply elem_of_nil in Hin.
  - apply NoDup_cons in Hnd as [Hfresh Hnd].
    apply elem_of_cons in Hin as [? | Hin]; simplify_eq.
    + by rewrite bool_decide_eq_true_2.
    + rewrite bool_decide_eq_false_2; [by apply IH |].
      intros ->. apply Hfresh. apply list_elem_of_fmap. by exists (k, a).
Qed.

Lemma assoc_set_fresh {A} k (a : A) l :
  k ∉ l.*1 -> Js.assoc_set k a l = l ++ [(k, a)].
Proof.
  induction l as [| [k' a'] l IH]; simpl; [done |].
  intros Hnot. apply not_elem_of_cons in Hnot as [Hne Hnot].
  rewrite bool_decide_eq_false_2 by done. by rewrite IH.
Qed.

(** The loop of [uninstallConfig] keeps the agents that are not removed,
    in the order of the object. *)
Lemma remainingAgents_filter existing aps toRemove :
  config_agents existing = Some (Js.VObj aps) ->
  NoDup aps.*1 ->
  remainingAgents existing aps.*1 toRemove
  = (fun kv : string * Js.value => (kv.1, Some kv.2)) <$> keptAgents toRemove aps.
Proof.
  intros Hag Hnd. unfold remainingAgents. rewrite Hag.
  cbn [Js.truthy mbind option_bind ownProperty]. unfold keptAgents.
  assert (Hgen : forall l (acc : list (string * Js.maybe)),
    l ⊆ aps -> NoDup l.*1 -> (forall k, k ∈ acc.*1 -> k ∉ l.*1) ->
    foldl (fun remainingAgentsObj agentName =>
             if negb (bool_decide (agentName ∈ toRemove)) && true
             then Js.assoc_set agentName (Js.assoc agentName aps)
                    remainingAgentsObj
             else remainingAgentsObj) acc l.*1
    = acc ++ ((fun kv : string * Js.value => (kv.1, Some kv.2))
                <$> filter (fun kv => kv.1 ∉ toRemove) l)).
  { induction l as [| [k a] l IH]; intros acc Hsub Hndl Hdisj.
    - by rewrite app_nil_r.
    - rewrite fmap_cons in Hndl. apply NoDup_cons in Hndl as [Hfresh Hndl].
      cbn [fmap list_fmap foldl fst].
      assert (Hk : Js.assoc k aps = Some a).
      { apply assoc_elem_of; [done |]. apply Hsub. by left. }
      rewrite Hk.
      destruct (decide (k ∈ toRemove)) as [Hin | Hout].
      + rewrite bool_decide_eq_true_2 by done. cbn [negb andb].
        rewrite filter_cons_False by (simpl; by intros ?).
        apply IH; [| done |].
        * intros x Hx. apply Hsub. by right.
        * intros k' Hk'. specialize (Hdisj k' Hk').
          by apply not_elem_of_cons in Hdisj as [_ ?].
      + rewrite bool_decide_eq_false_2 by done. cbn [negb andb].
        rewrite filter_cons_True by done.
        rewrite assoc_set_fresh.
        2:{ intros Hk'. specialize (Hdisj k Hk'). apply Hdisj. by left. }
        rewrite IH.
        * rewrite fmap_cons. by rewrite <- app_assoc.
        * intros x Hx. apply Hsub. by right.
        * done.
        * intros k' Hk'. rewrite fmap_app in Hk'.
          apply elem_of_app in Hk' as [Hk' | Hk'].
          -- specialize (Hdisj k' Hk').
             by apply not_elem_of_cons in Hdisj as [_ ?].
          -- apply list_elem_of_singleton in Hk'. simpl in Hk'. by subst. }
  rewrite (Hgen aps []); [done | done | done |].
  intros k Hk. by apply elem_of_nil in Hk.
Qed.

Lemma printedObject_defined (ps : list (string * Js.value)) :
  printedObject ((fun kv : string * Js.value => (kv.1, Some kv.2)) <$> ps)
  = Js.VObj ps.
Proof.
  unfold printedObject. f_equal.
  induction ps as [| [k v] ps IH]; [done |]. simpl. f_equal. apply IH.
Qed.

Lemma assoc_set_keys {A} k k' (a : A) l :
  k' ∈ (Js.assoc_set k a l).*1 <-> k' = k \/ k' ∈ l.*1.
Proof.
  induction l as [| [k0 a0] l IH]; simpl.
  - rewrite list_elem_of_singleton. split; [by left | intros [? | Hin]; [done |]].
    by apply elem_of_nil in Hin.
  - case_bool_decide as Hk; simpl; subst.
    + rewrite !elem_of_cons. split.
      * intros [-> | Hin]; [by left | by right; right].
      * intros [-> | [-> | Hin]]; [by left | by left | by right].
    + rewrite !elem_of_cons, IH. split.
      * intros [-> | [-> | Hin]]; [by right; left | by left | by right; right].
      * intros [-> | [-> | Hin]]; [by right; left | by left | by right; right].
Qed.

(** An installed agent that is not being removed is a key of what the loop
    of [uninstallConfig] builds, whatever its value. *)
Lemma remainingAgents_stays existing installed toRemove a :
  Js.truthy (config_agents existing) = true ->
  a ∈ installed -> a ∉ toRemove ->
  a ∈ (remainingAgents existing installed toRemove).*1.
Proof.
  intros Ht Hin Hout. unfold remainingAgents. rewrite Ht.
  assert (Hgen : forall l (acc : list (string * Js.maybe)),
    a ∈ acc.*1 \/ a ∈ l ->
    a ∈ (foldl (fun remainingAgentsObj agentName =>
                  if negb (bool_decide (agentName ∈ toRemove)) && true
                  then Js.assoc_set agentName
                         (agents ← config_agents existing;
                          ownProperty agents agentName)
                         remainingAgentsObj
                  else remainingAgentsObj) acc l).*1).
  { induction l as [| x l IH]; intros acc H; simpl.
    - destruct H as [H | H]; [done | by apply elem_of_nil in H].
    - apply IH. destruct H as [H | H].
      + left. destruct (negb _ && true); [| done].
        apply assoc_set_keys. by right.
      + apply elem_of_cons in H as [<- | H]; [| by right].
        left. rewrite bool_decide_eq_false_2 by done. simpl.
        apply assoc_set_keys. by left. }
  apply Hgen. by right.
Qed.

Lemma configObject_coalesce autoupdate agents version :
  configObject (Some (Js.coalesce autoupdate Js.VNull)) agents
    (Some (Js.coalesce version Js.VNull))
  = configObject autoupdate agents version.
Proof.
  destruct autoupdate as [[]|]; destruct version as [[]|]; reflexivity.
Qed.

(** [uninstallConfig] step by step. *)
Lemma uninstallConfig_spec fs config fs' :
  uninstallConfig fs config = Some fs' ->
  let fs1 := if Fs.exists_ fs legacyConfigPath then delete legacyConfigPath fs
             else fs in
  fs1 !! legacyConfigPath = None /\
  (fs !! configPath = None /\ fs' = fs1 \/
   exists loaded,
     is_Some (fs !! configPath) /\ loadConfig fs = Some loaded /\
     match loaded with
     | None => fs' = delete configPath fs1
     | Some existingConfig =>
         let remainingAgentsObj :=
           remainingAgents existingConfig (getInstalledAgents existingConfig)
             (agentsToRemove config) in
         if bool_decide (length remainingAgentsObj.*1 = 0)
         then fs' = delete configPath fs1
         else
           saveConfig fs1 (config_autoupdate existingConfig)
             (Some (printedObject remainingAgentsObj))
             (config_version existingConfig)
           = Some fs'
     end).
Proof.
  unfold uninstallConfig. intros H. cbn zeta.
  set (fs1 := if Fs.exists_ fs legacyConfigPath then delete legacyConfigPath fs
              else fs).
  assert (Hfs1 : (if Fs.exists_ fs legacyConfigPath
                  then Fs.unlink fs legacyConfigPath else Some fs) = Some fs1
                 /\ fs1 !! legacyConfigPath = None
                 /\ fs1 !! configPath = fs !! configPath).
  { unfold fs1, Fs.exists_, Fs.unlink in *.
    destruct (fs !! legacyConfigPath) as [[c|]|] eqn:El.
    - rewrite bool_decide_eq_true_2 by eauto.
      by rewrite lookup_delete_eq, lookup_delete_ne.
    - rewrite bool_decide_eq_true_2 in H by eauto. done.
    - rewrite bool_decide_eq_false_2 by (by intros [? ?]). done. }
  destruct Hfs1 as (Hun & Hlegacy & Hcfg). rewrite Hun in H.
  cbn [mbind option_bind] in H. split; [done |].
  unfold Fs.exists_ in H. rewrite Hcfg in H.
  destruct (fs !! configPath) as [n|] eqn:En.
  - right. rewrite bool_decide_eq_true_2 in H by eauto. cbn [negb] in H.
    rewrite (loadConfig_frame fs fs1) in H by (by rewrite En).
    destruct (loadConfig fs) as [loaded|] eqn:El; cbn [mbind option_bind] in H;
      [| done].
    exists loaded. split; [eauto |]. split; [done |].
    assert (Hunlink : Fs.unlink fs1 configPath = Some fs' ->
                      fs' = delete configPath fs1).
    { unfold Fs.unlink. destruct (fs1 !! configPath) as [[c|]|]; [| done | done].
      by intros ?; simplify_eq. }
    destruct loaded as [existingConfig|]; [| by apply Hunlink].
    assert (bool_decide (length (getInstalledAgents existingConfig) = 0) = false)
      as Hne.
    { apply bool_decide_eq_false_2. unfold getInstalledAgents.
      destruct (Nat.ltb 0 _) eqn:Elt; [| done].
      apply Nat.ltb_lt in Elt. lia. }
    rewrite Hne in H.
    destruct (bool_decide (length _ = 0)); [by apply Hunlink |].
    unfold saveConfig in *. by rewrite configObject_coalesce in H.
  - left. rewrite bool_decide_eq_false_2 in H by (by intros [? ?]).
    cbn [negb] in H. by simplify_eq.
Qed.

Lemma remainingAgents_none existing installed toRemove :
  (Js.truthy (config_agents existing) = false \/
   forall a, a ∈ installed -> a ∈ toRemove) ->
  remainingAgents existing installed toRemove = [].
Proof.
  intros H. unfold remainingAgents.
  induction installed as [| a installed IH]; [done |].
  cbn [foldl].
  assert (negb (bool_decide (a ∈ toRemove))
          && Js.truthy (config_agents existing) = false) as ->.
  { destruct H as [-> | H]; [by rewrite andb_false_r |].
    rewrite bool_decide_eq_true_2; [done |]. apply H. by left. }
  apply IH. destruct H as [? | H]; [by left | right].
  intros a' Ha'. apply H. by right.
Qed.

Lemma saveConfig_fs fs autoupdate agents version fs' :
  saveConfig fs autoupdate agents version = Some fs' ->
  exists fs1,
    Fs.mkdir_p fs claudeDir = Some fs1 /\
    fs' = <[configPath :=
              Fs.File (JSON_stringify 2 (configObject autoupdate agents version))]> fs1.
Proof.
  unfold saveConfig. change (Fs.dirname configPath) with claudeDir.
  destruct (Fs.mkdir_p fs claudeDir) as [fs1|]; cbn [mbind option_bind]; [| done].
  change configPath with (claudeDir ++ [".nojo-config.json"]).
  intros H. apply writeFile_snoc in H as (_ & _ & ->). eauto.
Qed.

Lemma uninstallConfig_remaining fs config fs' existingConfig aps :
  uninstallConfig fs config = Some fs' ->
  loadConfig fs = Some (Some existingConfig) ->
  config_agents existingConfig = Some (Js.VObj aps) ->
  NoDup aps.*1 ->
  (exists a, a ∈ getInstalledAgents existingConfig /\
             a ∉ agentsToRemove config) ->
  exists fs1,
    saveConfig fs1 (config_autoupdate existingConfig)
      (Some (Js.VObj (keptAgents (agentsToRemove config) aps)))
      (config_version existingConfig) = Some fs'.
Proof.
  intros H Hload Hag Hnd (a & Hin & Hout).
  apply uninstallConfig_spec in H as (_ & [[Hnone _] | (loaded & _ & Hl & H)]).
  { apply loadConfig_exists in Hload as [c Hc]. congruence. }
  rewrite Hload in Hl. simplify_eq. cbn zeta in H.
  assert (Hkeys : bool_decide
            (length (remainingAgents existingConfig
                       (getInstalledAgents existingConfig)
                       (agentsToRemove config)).*1 = 0) = false).
  { apply bool_decide_eq_false_2. intros Hlen.
    assert (Hst := remainingAgents_stays existingConfig _ _ a
                     ltac:(by rewrite Hag) Hin Hout).
    destruct (remainingAgents _ _ _).*1; [by apply elem_of_nil in Hst | done]. }
  rewrite Hkeys in H.
  assert (printedObject (remainingAgents existingConfig
                           (getInstalledAgents existingConfig)
                           (agentsToRemove config))
          = Js.VObj (keptAgents (agentsToRemove config) aps)) as Hprinted.
  { unfold getInstalledAgents in *. rewrite Hag in *.
    cbn [Js.coalesce Js.keys] in *.
    destruct aps as [| kv aps'].
    - simpl in Hin. apply list_elem_of_singleton in Hin as ->.
      unfold remainingAgents. rewrite Hag. simpl.
      by rewrite bool_decide_eq_false_2.
    - change (if Nat.ltb 0 (length (kv :: aps').*1) then (kv :: aps').*1
              else ["claude-code"]) with (kv :: aps').*1.
      rewrite (remainingAgents_filter _ _ _ Hag Hnd).
      apply printedObject_defined. }
  rewrite Hprinted in H. eauto.
Qed.

(** [isFileModified] answers [true] exactly for a readable file with
    another hash. *)
Lemma isFileModified_true_iff fs p h :
  exists b,
    isFileModified fs p h = Some b /\
    (b = true <-> exists c, fs !! p = Some (Fs.File c) /\ sha256 c ≠ h).
Proof.
  unfold isFileModified, computeFileHash, Fs.readFile, try_catch.
  destruct (fs !! p) as [[c|]|] eqn:E; simpl.
  - eexists. split; [done |]. destruct (decide (sha256 c = h)) as [Heq | Hne].
    + rewrite bool_decide_eq_true_2 by done. simpl. split; [done |].
      intros (c' & ? & ?). by simplify_eq.
    + rewrite bool_decide_eq_false_2 by done. simpl. split; [eauto | done].
  - exists false. split; [done |]. split; [done | by intros (c' & ? & ?)].
  - exists false. split; [done |]. split; [done | by intros (c' & ? & ?)].
Qed.


(** *** The claims about one run of the synchroniser *)

(** C1 (user-edit preservation).  For every sync run and every source file
    whose destination file exists and is tracked in the manifest, if the
    SHA-256 hash of the destination file differs from the hash of the
    tracked entry, the run leaves the content of the destination file
    unchanged, leaves the manifest entry (and so its hash) unchanged, and
    reports the file as preserved, not as installed; the counts returned
    are the tally of the reported events. *)
Theorem C1_user_edit_preserved src dest prof st st' r p name content d e :
  copyDirWithManifestTracking src dest prof st = Some (st', r) ->
  ((p, name, content) ∈ sourceFiles src dest) ->
  st_fs st !! p = Some (Fs.File d) ->
  getManifestEntry (st_manifest st) p = Some e ->
  sha256 d ≠ hash e ->
  st_fs st' !! p = Some (Fs.File d) /\
  getManifestEntry (st_manifest st') p = Some e /\
  PreservedModified p ∈ events_since st st' /\
  (Installed p ∉ events_since st st') /\
  r = tally (events_since st st').
Proof.
  intros Hrun Hin Hfs Hm Hne.
  apply copyDir_run in Hrun as (Hplan & evs0 & Hlog0 & ->).
  destruct (run_plan_modified _ _ _ _ _ _ _ Hplan Hfs Hm Hne)
    as (Hfs' & Hm' & evs & Hlog & Hpres & Hinst).
  rewrite (events_since_app _ _ _ Hlog).
  assert (evs0 = evs) as -> by (apply (app_inv_head (st_log st)); congruence).
  split_and!; try done.
  apply Hpres. by apply (sourceFiles_put_paths _ _ _ Hin).
Qed.

(** C2 (untracked-file preservation).  For every sync run, be it a call of
    [copyDirWithManifestTracking] or the loop of [installSkills], and every
    source file whose destination exists but has no entry in the manifest,
    the run leaves the destination as it is, leaves the manifest without an
    entry for that path, and reports the file as preserved. *)
Theorem C2_untracked_preserved :
  (forall src dest prof st st' r p name content n,
      copyDirWithManifestTracking src dest prof st = Some (st', r) ->
      ((p, name, content) ∈ sourceFiles src dest) ->
      st_fs st !! p = Some n ->
      getManifestEntry (st_manifest st) p = None ->
      st_fs st' !! p = Some n /\
      getManifestEntry (st_manifest st') p = None /\
      PreservedExisting p ∈ events_since st st' /\
      (Installed p ∉ events_since st st') /\
      r = tally (events_since st st')) /\
  (forall entries prof st st' totals p name content n,
      installSkillsEntries entries prof st zero = Some (st', totals) ->
      ((p, name, content) ∈ skillsFiles entries) ->
      st_fs st !! p = Some n ->
      getManifestEntry (st_manifest st) p = None ->
      st_fs st' !! p = Some n /\
      getManifestEntry (st_manifest st') p = None /\
      PreservedExisting p ∈ events_since st st' /\
      (Installed p ∉ events_since st st') /\
      totals = tally (events_since st st')).
Proof.
  split.
  - intros src dest prof st st' r p name content n Hrun Hin Hfs Hm.
    apply copyDir_run in Hrun as (Hplan & evs0 & Hlog0 & ->).
    destruct (run_plan_untracked _ _ _ _ _ _ Hplan Hfs Hm)
      as (Hfs' & Hm' & evs & Hlog & Hpres & Hinst).
    rewrite (events_since_app _ _ _ Hlog).
    assert (evs0 = evs) as -> by (apply (app_inv_head (st_log st)); congruence).
    split_and!; try done.
    apply Hpres. by apply (sourceFiles_put_paths _ _ _ Hin).
  - intros entries prof st st' totals p name content n Hrun Hin Hfs Hm.
    apply installSkillsEntries_run in Hrun as (Hplan & evs0 & Hlog0 & ->).
    destruct (run_plan_untracked _ _ _ _ _ _ Hplan Hfs Hm)
      as (Hfs' & Hm' & evs & Hlog & Hpres & Hinst).
    rewrite (events_since_app _ _ _ Hlog).
    assert (evs0 = evs) as -> by (apply (app_inv_head (st_log st)); congruence).
    rewrite add_counts_zero_l.
    split_and!; try done.
    apply Hpres. by apply (skillsFiles_put_paths _ _ Hin).
Qed.

(** C4 (idempotence).  Running the synchroniser twice in succession over
    the same source tree, with nothing else touching the destination in
    between, succeeds the second time, reports the same files as preserved
    (in fact the same events, with the same counts: a tracked unmodified
    file is rewritten, with identical content) and leaves every destination
    file as the first run left it. *)
Theorem C4_sync_idempotent src dest prof st0 st1 r1 :
  wf_src src = true ->
  copyDirWithManifestTracking src dest prof st0 = Some (st1, r1) ->
  exists st2 r2,
    copyDirWithManifestTracking src dest prof st1 = Some (st2, r2) /\
    preservedFiles (events_since st1 st2) = preservedFiles (events_since st0 st1) /\
    events_since st1 st2 = events_since st0 st1 /\
    st_fs st2 = st_fs st1 /\
    r2 = r1.
Proof.
  intros Hwf Hrun1.
  destruct src as [c | es].
  { simpl in Hrun1. by destruct (Fs.mkdir_p (st_fs st0) dest). }
  pose proof (plan_NoDup _ Hwf dest) as Hnd.
  apply copyDir_run in Hrun1 as (Hplan1 & evs0 & Hlog0 & ->).
  destruct (run_plan_settles _ _ _ _ Hnd Hplan1) as (evs & Hlog & Hset & Hok).
  assert (evs0 = evs) as -> by (apply (app_inv_head (st_log st0)); congruence).
  destruct (run_plan_replay prof _ _ _ Hnd Hset Hok) as (st2 & Hplan2 & Hfs & Hlog2).
  destruct (run_copyDir prof _ _ _ _ es eq_refl Hplan2) as [r2 Hrun2].
  exists st2, r2. split; [done |].
  apply copyDir_run in Hrun2 as (_ & evs2 & Hlog2' & ->).
  assert (evs2 = evs) as -> by (apply (app_inv_head (st_log st1)); congruence).
  rewrite (events_since_app _ _ _ Hlog), (events_since_app _ _ _ Hlog2).
  done.
Qed.

(** C6 (the recorded hash is the hash of what was written).  After a sync
    run, for every source file the run reports as installed, the
    destination holds the final content ([.md] files after the template
    substitution, the others as they are) and the manifest entry of the
    path carries the SHA-256 hash of exactly that content, which is the
    hash of the file on disk; and the manifest entry of a path is the one
    from before the run unless the run reports an install for that path,
    so a run that preserves a file leaves its entry alone. *)
Theorem C6_hash_of_written_content src dest prof st st' r :
  wf_src src = true ->
  copyDirWithManifestTracking src dest prof st = Some (st', r) ->
  (forall p name content,
      ((p, name, content) ∈ sourceFiles src dest) ->
      (Installed p ∈ events_since st st') ->
      st_fs st' !! p = Some (Fs.File (finalContent name content)) /\
      exists e,
        getManifestEntry (st_manifest st') p = Some e /\
        hash e = sha256 (finalContent name content) /\
        computeFileHash (st_fs st') p = Some (hash e)) /\
  (forall p,
      (Installed p ∉ events_since st st') ->
      getManifestEntry (st_manifest st') p = getManifestEntry (st_manifest st) p).
Proof.
  intros Hwf Hrun.
  pose proof (plan_NoDup _ Hwf dest) as Hnd.
  apply copyDir_run in Hrun as (Hplan & evs0 & Hlog0 & ->).
  rewrite (events_since_app _ _ _ Hlog0).
  split.
  - intros p name content Hin Hev.
    destruct (run_plan_settles _ _ _ _ Hnd Hplan) as (evs & Hlog & Hset & _).
    assert (evs0 = evs) as -> by (apply (app_inv_head (st_log st)); congruence).
    apply list_elem_of_lookup in Hin as [i Hi].
    destruct (Forall2_lookup_l _ _ _ _ _ Hset Hi) as (ev & Hevi & Hf).
    apply list_elem_of_lookup in Hev as [j Hj].
    destruct (Forall2_lookup_r _ _ _ _ _ Hset Hj) as (f' & Hf'j & Hf').
    assert (ev = Installed p) as ->.
    { eapply settled_installed; [exact Hf | done |].
      exists f'. split; [| done]. symmetry. by apply (settled_path _ _ _ Hf'). }
    destruct Hf as (_ & _ & Hfs & e & Hm & Hh). cbn [fst snd] in *.
    split; [done |]. exists e. split_and!; try done.
    unfold computeFileHash, Fs.readFile. rewrite Hfs. simpl. by rewrite Hh.
  - intros p Hp.
    destruct (run_plan_manifest prof _ _ _ p Hplan) as (evs & Hlog & Hm).
    assert (evs0 = evs) as -> by (apply (app_inv_head (st_log st)); congruence).
    by apply Hm.
Qed.

(** *** The claims about the manifest store and the configuration *)

(** C9.  For every file path and expected hash, if the file cannot be
    read (it does not exist, or it is a directory), [isFileModified]
    returns [false] and does not throw. *)
Theorem C9_unreadable_is_not_modified fs filePath expectedHash :
  Fs.readFile fs filePath = None ->
  isFileModified fs filePath expectedHash = Some false.
Proof.
  intros H. unfold isFileModified, computeFileHash. by rewrite H.
Qed.

(** C5, the part that holds: [loadManifest] never throws, and what it
    returns is [null] unless the file parses to an object whose
    [schemaVersion] is the number 1 and whose [files] has [typeof]
    ["object"]. *)
Lemma loadManifest_fails_soft fs :
  exists m,
    loadManifest fs = Some m /\
    (m ≠ Js.VNull ->
     Js.is_num (Js.prop m "schemaVersion") 1 = true /\
     Js.typeof (Js.prop m "files") = "object").
Proof.
  destruct (loadManifest_total fs) as [m Hm]. exists m. split; [done |].
  intros Hnull.
  destruct (loadManifest_accepts _ _ Hm Hnull) as (content & ps & _ & _ & -> & Hv & Hf).
  simpl. rewrite Hv. by split.
Qed.

(** C7, the part that holds: saving the manifest that was loaded writes a
    file that loads again, with [updatedAt] set to the time of the save and
    with the [files] mapping and every field other than [updatedAt] and
    [nojoVersion] untouched.  The text written is assumed to parse back to
    the value it was printed from. *)
Lemma saveManifest_keeps_the_rest fs m now fs' m' :
  loadManifest fs = Some m ->
  m ≠ Js.VNull ->
  saveManifest fs m now = Some (fs', m') ->
  JSON_parse (JSON_stringify 2 m') = Some m' ->
  loadManifest fs' = Some m' /\
  Js.prop m' "files" = Js.prop m "files" /\
  (forall k, k ≠ "updatedAt" -> k ≠ "nojoVersion" -> Js.prop m' k = Js.prop m k) /\
  Js.prop m' "updatedAt" = Some (Js.VStr now).
Proof.
  intros Hload Hnull Hsave Hcodec.
  destruct (loadManifest_accepts _ _ Hload Hnull)
    as (content & ps & _ & _ & -> & Hv & Hf).
  unfold saveManifest in Hsave.
  destruct (Fs.mkdir_p fs (Fs.dirname manifestPath)) as [fs1|];
    cbn [mbind option_bind Js.set] in Hsave; [| done].
  destruct (Fs.writeFile fs1 manifestPath _) as [fs2|] eqn:W;
    cbn [mbind option_bind] in Hsave; [| done].
  simplify_eq.
  change manifestPath with ([".claude"] ++ [".nojo-manifest.json"]) in W.
  apply writeFile_snoc in W as (_ & _ & ->).
  set (ps' := Js.assoc_set "nojoVersion" _ _) in *.
  assert (Hother : forall k, k ≠ "updatedAt" -> k ≠ "nojoVersion" ->
                             Js.assoc k ps' = Js.assoc k ps).
  { intros k H1 H2. unfold ps'. by rewrite !assoc_set_ne. }
  split_and!.
  - eapply loadManifest_accepted.
    + unfold Fs.readFile.
      change manifestPath with ([".claude"] ++ [".nojo-manifest.json"]).
      by rewrite lookup_insert_eq.
    + done.
    + by rewrite Hother.
    + by rewrite Hother.
  - simpl. by apply Hother.
  - intros k H1 H2. simpl. by apply Hother.
  - simpl. unfold ps'. rewrite assoc_set_ne by done. apply assoc_set_eq.
Qed.

(** C8 as the code has it.  The installed agents are the keys of the
    [agents] object of the configuration when it has any; a configuration
    without [agents], or with an empty one, answers [claude-code]. *)
Theorem C8_installed_agents config :
  (forall ps, config_agents config = Some (Js.VObj ps) -> ps ≠ [] ->
     getInstalledAgents config = ps.*1) /\
  (Js.keys (Js.coalesce (config_agents config) (Js.VObj [])) = [] ->
     getInstalledAgents config = ["claude-code"]).
Proof.
  unfold getInstalledAgents. split.
  - intros ps -> Hne. simpl. by destruct ps.
  - by intros ->.
Qed.

(** C3 as the code has it.  On uninstall the skills loader does not consult
    the manifest: when the skills directory exists it removes everything
    under it, tracked or not, modified or not, and leaves the rest of the
    file system alone except for settings.json; the manifest loader deletes
    the manifest file whenever there is one, whatever it records, and
    removes the enclosing [.claude] directory only when nothing is left
    in it. *)
Theorem C3_uninstall_removes_directory fs :
  (exists fs',
     uninstallSkills fs = Some fs' /\
     (is_Some (fs !! claudeSkillsDir) ->
      forall p, claudeSkillsDir `prefix_of` p -> fs' !! p = None) /\
     (forall p, ¬ claudeSkillsDir `prefix_of` p -> p ≠ claudeSettingsFile ->
                fs' !! p = fs !! p)) /\
  (forall fs',
     uninstallManifest fs = Some fs' ->
     fs' !! manifestPath = None /\
     (forall p, p ≠ manifestPath -> p ≠ claudeDir -> fs' !! p = fs !! p) /\
     (fs' !! claudeDir = fs !! claudeDir \/
      (fs' !! claudeDir = None /\
       forall p, Fs.is_child claudeDir p = true -> fs' !! p = None))).
Proof.
  split; [apply uninstallSkills_spec | apply uninstallManifest_spec].
Qed.

(** C10 as the code has it.  For a configuration file that holds a JSON
    value: when the value is an object which passes the schema validation,
    [loadConfig] returns a configuration; when the object has no [agents]
    property but has [profile.baseProfile], the [agents] of the result is
    [{ "claude-code": { profile: { baseProfile } } }] with that legacy
    value; when the object has an [agents] property, the [agents] of the
    result is the validated [agents] of the file, whatever the legacy
    [profile] property holds.  When the value fails the schema validation,
    [loadConfig] returns [null], whatever [agents] and [profile] hold.  The
    clone [JSON.parse(JSON.stringify(rawConfig))] is assumed to give back
    the value that was parsed. *)
Theorem C10_legacy_profile_migration fs content rawConfig :
  Fs.readFile fs configPath = Some content ->
  JSON_parse content = Some rawConfig ->
  JSON_parse (JSON_stringify 0 rawConfig) = Some rawConfig ->
  (forall ps validated,
     rawConfig = Js.VObj ps ->
     validateConfigSchema rawConfig = Some validated ->
     exists cfg,
       loadConfig fs = Some (Some cfg) /\
       (Js.assoc "agents" ps = None ->
        forall profile baseProfile,
          Js.assoc "profile" ps = Some profile ->
          Js.prop profile "baseProfile" = Some baseProfile ->
          config_agents cfg = Some (legacyAgents baseProfile)) /\
       (forall agents,
          Js.assoc "agents" ps = Some agents ->
          exists agents',
            Ajv.validate agentsSchema agents = Some agents' /\
            config_agents cfg = Some agents')) /\
  (validateConfigSchema rawConfig = None -> loadConfig fs = Some None).
Proof.
  intros Hread Hparse Hclone.
  assert (Hex : Fs.access fs configPath = Some ()).
  { unfold Fs.access, Fs.exists_. unfold Fs.readFile in Hread.
    destruct (fs !! configPath); [| done].
    by rewrite bool_decide_eq_true_2 by eauto. }
  split.
  - intros ps validated -> Hvalid.
    assert (exists ps3, validated = Js.VObj ps3) as [ps3 ->].
    { rewrite validateConfigSchema_object in Hvalid.
      apply bind_Some in Hvalid as (ps3 & _ & ?). simplify_eq. eauto. }
    pose proof (config_autoupdate_validated _ _ Hvalid) as Hauto.
    pose proof (config_assoc_validated _ _ "agents" Hvalid) as Hagents.
    pose proof (config_assoc_validated _ _ "profile" Hvalid) as Hprofile.
    unfold loadConfig, try_catch. rewrite Hex. cbn [mbind option_bind].
    rewrite Hread. cbn [mbind option_bind]. rewrite Hparse. cbn [mbind option_bind].
    cbn [Js.nullish Js.typeof orb negb].
    rewrite bool_decide_eq_true_2 by done. cbn [negb].
    rewrite Hclone. cbn [mbind option_bind]. rewrite Hvalid.
    cbn [config_agents config_autoupdate Js.prop]. rewrite Hauto.
    cbn [negb]. rewrite orb_true_r.
    eexists. split; [reflexivity |]. cbn [config_agents]. split.
    + intros Hnone profile b Hp Hb.
      rewrite Hnone in Hagents. rewrite Hagents by (apply (bool_decide_unpack _); reflexivity).
      cbn [Js.nullish negb].
      rewrite Hp in Hprofile. simpl in Hprofile.
      destruct Hprofile as (profile' & Hv & ->); [apply (bool_decide_unpack _); reflexivity |].
      destruct (validate_profile_baseProfile _ _ _ Hv Hb) as (Hb' & s & ->).
      destruct profile' as [| | | | | pps']; simpl in Hb'; try done.
      simpl. by rewrite Hb'.
    + intros a Ha. rewrite Ha in Hagents. simpl in Hagents.
      destruct Hagents as (a' & Hv & Ha'); [apply (bool_decide_unpack _); reflexivity |].
      exists a'. split; [done |]. rewrite Ha'.
      by destruct (validate_agents_object _ _ Hv) as [ps' ->].
  - intros Hnone.
    unfold loadConfig, try_catch. rewrite Hex. cbn [mbind option_bind].
    rewrite Hread. cbn [mbind option_bind]. rewrite Hparse. cbn [mbind option_bind].
    destruct (Js.nullish (Some rawConfig)
              || negb (bool_decide (Js.typeof (Some rawConfig) = "object")));
      [reflexivity |].
    rewrite Hclone. cbn [mbind option_bind]. by rewrite Hnone.
Qed.

(** *** Further properties of the manifest store *)

(** X1 (manifest store round trip).  Looking up a path just added returns
    an entry with the given hash, source, profile and version whose [path]
    field is the key; looking it up after a removal returns nothing; both
    operations leave every other path as it was, and removing what was
    added to a manifest that did not track the path gives back the files
    of the manifest. *)
Theorem manifest_add_get_remove m p h s prof ver now :
  (exists e,
      getManifestEntry (addToManifest m p h s prof ver now) p = Some e /\
      path e = p /\ hash e = h /\ source e = s /\ profile e = prof /\
      version e = ver /\ installedAt e = now) /\
  getManifestEntry (removeFromManifest m p) p = None /\
  (forall q, q ≠ p ->
     getManifestEntry (addToManifest m p h s prof ver now) q = getManifestEntry m q /\
     getManifestEntry (removeFromManifest m p) q = getManifestEntry m q) /\
  (getManifestEntry m p = None ->
   files (removeFromManifest (addToManifest m p h s prof ver now) p) = files m).
Proof.
  unfold getManifestEntry, addToManifest, removeFromManifest. simpl. split_and!.
  - eexists. rewrite lookup_insert_eq. by split_and!.
  - by rewrite lookup_delete_eq.
  - intros q Hq. by rewrite lookup_insert_ne, lookup_delete_ne.
  - intros Hnone. by rewrite delete_insert_eq, delete_id.
Qed.

(** *** Further properties of the synchroniser *)

(** X3 (a consistent manifest stays consistent).  If no tracked file
    differs from the hash the manifest holds for it, as after
    [createManifest], a run that returns reports no file as modified by
    the user, and no tracked file differs from its hash afterwards. *)
Theorem sync_keeps_manifest_clean src dest prof st st' r :
  manifest_clean (st_fs st) (st_manifest st) ->
  copyDirWithManifestTracking src dest prof st = Some (st', r) ->
  manifest_clean (st_fs st') (st_manifest st') /\
  forall p, PreservedModified p ∉ events_since st st'.
Proof.
  intros Hclean H. apply copyDir_run in H as (Hrun & _).
  destruct (run_plan_events prof
              (fun s => manifest_clean (st_fs s) (st_manifest s))
              (fun ev => forall p, ev ≠ PreservedModified p))
    with (ops := plan src dest) (st := st) (st' := st')
    as (HI & evs & Hlog & HQ & _); try done.
  - intros s d fs' Hc Hmk p e He. simpl. apply isFileModified_false.
    specialize (Hc p e He). apply isFileModified_false in Hc.
    apply mkdir_p_grows in Hmk. unfold Fs.readFile in *.
    destruct (Hmk p) as [Eq | [N D]]; [by rewrite Eq | left; by rewrite D].
  - intros s d name content ev Hc Hdec Hdir. split.
    + unfold step_result. destruct (is_preserved ev) eqn:Ep; [done |].
      intros p e He. simpl in *. apply isFileModified_false.
      unfold getManifestEntry in He. simpl in He. unfold Fs.readFile.
      destruct (decide (p = d ++ [name])) as [-> | Hne].
      * rewrite lookup_insert_eq in He. rewrite lookup_insert_eq.
        simplify_eq/=. eauto.
      * rewrite lookup_insert_ne in He by done. rewrite lookup_insert_ne by done.
        specialize (Hc p e He). by apply isFileModified_false in Hc.
    + intros p ->. inversion Hdec as [| d0 e0 Hf He Hne | |]; subst.
      specialize (Hc _ _ He). apply isFileModified_false in Hc.
      unfold Fs.readFile in Hc. rewrite Hf in Hc.
      destruct Hc as [? | (c & ? & ?)]; simplify_eq.
  - split; [done |]. intros p Hin. rewrite (events_since_app _ _ _ Hlog) in Hin.
    rewrite Forall_forall in HQ. by apply (HQ _ Hin p).
Qed.

(** X4 (provenance of installed files).  After a run, every file it
    reported as installed has a manifest entry keyed by its path, whose
    source is nojo, whose profile is the profile of the run and whose
    version is the package version; the entry is listed by
    [getEntriesForProfile] for that profile and by
    [getNojoManagedEntries]. *)
Theorem sync_installed_provenance src dest prof st st' r p :
  copyDirWithManifestTracking src dest prof st = Some (st', r) ->
  Installed p ∈ events_since st st' ->
  exists e,
    getManifestEntry (st_manifest st') p = Some e /\
    path e = p /\ source e = nojo /\ profile e = Some prof /\
    version e = packageVersion /\
    e ∈ getEntriesForProfile (st_manifest st') prof /\
    e ∈ getNojoManagedEntries (st_manifest st').
Proof.
  intros H Hin. apply copyDir_run in H as (Hrun & _).
  set (good := fun (s : State) (e : ManifestEntry) q =>
         files (st_manifest s) !! q = Some e /\
         path e = q /\ source e = nojo /\ profile e = Some prof /\
         version e = packageVersion).
  destruct (run_plan_events prof
              (fun s => exists evs, st_log s = st_log st ++ evs /\
                 forall q, Installed q ∈ evs -> exists e, good s e q)
              (fun _ => True))
    with (ops := plan src dest) (st := st) (st' := st')
    as ((evs & Hlog & HI) & _); try done.
  - intros s d name content ev (evs & Hlog & HI) Hdec Hdir. split; [| done].
    exists (evs ++ [ev]). unfold step_result.
    destruct (is_preserved ev) eqn:Ep; simpl.
    + split; [by rewrite Hlog, <- app_assoc |].
      intros q Hq. apply elem_of_app in Hq as [Hq | Hq]; [by apply HI |].
      apply list_elem_of_singleton in Hq as <-. done.
    + apply decision_path in Hdec as Hpath.
      destruct ev; simplify_eq/=.
      split; [by rewrite Hlog, <- app_assoc |].
      intros q Hq. unfold good. simpl.
      destruct (decide (q = d ++ [name])) as [-> | Hne].
      * rewrite lookup_insert_eq. eexists. by split_and!.
      * rewrite lookup_insert_ne by done.
        apply elem_of_app in Hq as [Hq | Hq]; [by apply HI |].
        apply list_elem_of_singleton in Hq. by simplify_eq.
  - exists []. split; [by rewrite app_nil_r |]. intros q Hq.
    by apply elem_of_nil in Hq.
  - rewrite (events_since_app _ _ _ Hlog) in Hin.
    destruct (HI p Hin) as (e & He & ? & ? & ? & ?). exists e.
    split_and!; try done.
    + apply elem_of_filter_values. eauto.
    + apply elem_of_filter_values. eauto.
Qed.

(** X5 (nothing is deleted).  A run that returns removes no path from the
    file system and no entry from the manifest: what existed still exists,
    a directory is still a directory, and a tracked path is still
    tracked. *)
Theorem sync_never_deletes src dest prof st st' r :
  copyDirWithManifestTracking src dest prof st = Some (st', r) ->
  (forall q, is_Some (st_fs st !! q) -> is_Some (st_fs st' !! q)) /\
  (forall q, st_fs st !! q = Some Fs.Dir -> st_fs st' !! q = Some Fs.Dir) /\
  (forall q, is_Some (getManifestEntry (st_manifest st) q) ->
             is_Some (getManifestEntry (st_manifest st') q)).
Proof.
  intros H. apply copyDir_run in H as (Hrun & _).
  split_and!.
  - intros q Hq.
    destruct (run_plan_events prof (fun s => is_Some (st_fs s !! q)) (fun _ => True))
      with (ops := plan src dest) (st := st) (st' := st') as (HI & _); try done.
    + intros s d fs' [n Hn] Hmk. exists n. simpl.
      apply mkdir_p_grows in Hmk. by eapply grows_Some.
    + intros s d name content ev Hs _ _. split; [| done].
      unfold step_result. destruct (is_preserved ev); simpl; [done |].
      destruct (decide (q = d ++ [name])) as [-> | Hne].
      * rewrite lookup_insert_eq. eauto.
      * by rewrite lookup_insert_ne.
  - intros q Hq. destruct (run_plan_frame _ _ _ _ Hrun) as [Hd _]. by apply Hd.
  - intros q Hq. unfold getManifestEntry in *.
    destruct (run_plan_events prof
                (fun s => is_Some (files (st_manifest s) !! q)) (fun _ => True))
      with (ops := plan src dest) (st := st) (st' := st') as (HI & _); try done.
    intros s d name content ev Hs _ _. split; [| done].
    unfold step_result. destruct (is_preserved ev); simpl; [done |].
    destruct (decide (q = d ++ [name])) as [-> | Hne].
    + rewrite lookup_insert_eq. eauto.
    + by rewrite lookup_insert_ne.
Qed.

(** X6 (confined to the destination).  A path that is neither below the
    destination directory nor one of its ancestors is left exactly as it
    was by a run, on disk and in the manifest. *)
Theorem sync_confined_to_dest src dest prof st st' r q :
  copyDirWithManifestTracking src dest prof st = Some (st', r) ->
  ¬ dest `prefix_of` q -> ¬ q `prefix_of` dest ->
  st_fs st' !! q = st_fs st !! q /\
  getManifestEntry (st_manifest st') q = getManifestEntry (st_manifest st) q.
Proof.
  intros H Hout Hanc. apply copyDir_run in H as (Hrun & _).
  apply (run_plan_untouched _ _ _ _ q Hrun).
  - intros Hin. apply plan_paths_under in Hin as (n & rest & ->).
    apply Hout. by apply prefix_app_r.
  - intros d Hd Hq. apply plan_mkdir_under in Hd.
    destruct (prefix_weak_total _ _ _ Hd Hq); done.
Qed.

(** X7 (one decision per source file).  A run that returns reports exactly
    one event per file of the source tree, in the order of the traversal,
    each about the destination path of its file; the two counts it returns
    add up to the number of source files. *)
Theorem sync_one_event_per_file src dest prof st st' r :
  copyDirWithManifestTracking src dest prof st = Some (st', r) ->
  event_path <$> events_since st st'
  = (fun f : Fs.path * string * string => f.1.1) <$> sourceFiles src dest /\
  preserved r + installed r = length (sourceFiles src dest).
Proof.
  intros H. apply copyDir_run in H as (Hrun & evs0 & Hlog0 & ->).
  destruct (run_plan_events prof (fun _ => True) (fun _ => True))
    with (ops := plan src dest) (st := st) (st' := st')
    as (_ & evs & Hlog & _ & Hpaths); try done.
  assert (evs0 = evs) as -> by (apply (app_inv_head (st_log st)); congruence).
  rewrite (events_since_app _ _ _ Hlog). split; [done |].
  rewrite tally_length.
  apply (f_equal length) in Hpaths. unfold put_paths in Hpaths.
  by rewrite !length_fmap in Hpaths.
Qed.

(** X8 (a run aborts rather than replace).  The synchroniser throws, and
    so returns no counts, when a file stands where the destination
    directory or one of its ancestors has to be, and when the destination
    of a source file is a directory that the manifest tracks. *)
Theorem sync_aborts_when_blocked src dest prof st :
  (forall k c, st_fs st !! take k dest = Some (Fs.File c) ->
     copyDirWithManifestTracking src dest prof st = None) /\
  (forall p name content e,
     (p, name, content) ∈ sourceFiles src dest ->
     st_fs st !! p = Some Fs.Dir ->
     getManifestEntry (st_manifest st) p = Some e ->
     copyDirWithManifestTracking src dest prof st = None).
Proof.
  split.
  - intros k c Hk. apply mkdir_p_blocked in Hk.
    destruct src; simpl; by rewrite Hk.
  - intros p name content e Hin Hdir He.
    destruct (copyDirWithManifestTracking src dest prof st) as [[st' r]|] eqn:E;
      [exfalso | done].
    apply copyDir_run in E as (Hrun & _).
    destruct (run_plan_events prof
                (fun s => st_fs s !! p = Some Fs.Dir /\
                          files (st_manifest s) !! p = Some e)
                (fun ev => event_path ev ≠ p))
      with (ops := plan src dest) (st := st) (st' := st')
      as (_ & evs & _ & HQ & Hpaths); try done.
    + intros s d fs' [Hd Hm] Hmk. split; [| done]. simpl.
      apply mkdir_p_grows in Hmk. by eapply grows_Some.
    + intros s d name' content' ev [Hd Hm] Hdec _.
      destruct (decide (d ++ [name'] = p)) as [<- | Hne].
      * destruct Hdec; simplify_eq.
      * split; [| by rewrite (decision_path _ _ _ _ Hdec)].
        destruct (step_result_frame name' content' (d ++ [name']) prof s ev p)
          as [-> ->]; done.
    + apply sourceFiles_put_paths in Hin. simpl in Hin.
      rewrite <- Hpaths in Hin. apply list_elem_of_fmap in Hin as (ev & Hev & Hin).
      rewrite Forall_forall in HQ. by apply (HQ ev).
Qed.

(** X9 (paid skills are skipped).  The loop of [installSkills] leaves
    everything at and below the destination of a [paid-] directory of the
    profile as it was, on disk and in the manifest. *)
Theorem skills_paid_directory_skipped entries prof st st' totals name sub q :
  NoDup entries.*1 ->
  (name, SDir sub) ∈ entries ->
  startsWith name "paid-" = true ->
  installSkillsEntries entries prof st zero = Some (st', totals) ->
  (claudeSkillsDir ++ [name]) `prefix_of` q ->
  st_fs st' !! q = st_fs st !! q /\
  getManifestEntry (st_manifest st') q = getManifestEntry (st_manifest st) q.
Proof.
  intros Hnd Hin Hpaid H Hq. apply installSkillsEntries_run in H as (Hrun & _).
  assert (Hskip : forall e, e ∈ entries -> e.1 = name -> skills_entry_plan e = []).
  { intros [n x] He Hn. simpl in Hn. subst n.
    rewrite (NoDup_fst_agree _ _ _ _ Hnd He Hin).
    unfold skills_entry_plan. simpl. by rewrite Hpaid. }
  apply (run_plan_untouched _ _ _ _ q Hrun).
  - intros Hp. apply put_paths_join in Hp as (e & He & Hp).
    destruct (skills_entry_plan_under e) as [Hput _].
    destruct (Hput _ Hp) as (rest & ->).
    assert (e.1 = name) as Hn.
    { destruct Hq as [k Hk]. rewrite <- !app_assoc in Hk.
      apply app_inv_head in Hk. simpl in Hk. by simplify_eq. }
    rewrite (Hskip e He Hn) in Hp. by apply elem_of_nil in Hp.
  - intros d Hd Hqd. apply mkdir_paths_join in Hd as (e & He & Hd).
    destruct (skills_entry_plan_under e) as [_ Hmk].
    specialize (Hmk _ Hd).
    assert (e.1 = name) as Hn.
    { destruct Hq as [k1 ->]. destruct Hqd as [k2 ->]. destruct Hmk as [k3 Hk].
      rewrite <- !app_assoc in Hk. apply app_inv_head in Hk. simpl in Hk.
      by simplify_eq. }
    rewrite (Hskip e He Hn) in Hd. by apply elem_of_nil in Hd.
Qed.

(** X10 (fresh destination).  When the source tree names each entry of a
    directory once and none of the destinations of its files exists, a run
    that returns installs every file: it reports one installation per
    source file, in the order of the traversal, preserves nothing, and
    counts as many installed files as the source has. *)
Theorem sync_fresh_installs_all src dest prof st st' r :
  wf_src src = true ->
  (forall f, f ∈ sourceFiles src dest -> st_fs st !! f.1.1 = None) ->
  copyDirWithManifestTracking src dest prof st = Some (st', r) ->
  events_since st st'
  = Installed <$> ((fun f : Fs.path * string * string => f.1.1)
                     <$> sourceFiles src dest) /\
  preserved r = 0 /\
  installed r = length (sourceFiles src dest).
Proof.
  intros Hwf Hnone H. apply copyDir_run in H as (Hrun & evs & Hlog & ->).
  assert (Hfresh : st_log st' = st_log st ++ (Installed <$> put_paths (plan src dest))).
  { apply (run_plan_fresh prof); [by apply plan_NoDup | | | done].
    - intros p d. by apply plan_put_not_under_mkdir.
    - intros p Hp. unfold put_paths in Hp.
      apply list_elem_of_fmap in Hp as (f & -> & Hf). by apply Hnone. }
  assert (evs = Installed <$> put_paths (plan src dest)) as ->
    by (apply (app_inv_head (st_log st)); congruence).
  rewrite (events_since_app _ _ _ Hfresh), tally_installed. simpl.
  split_and!; [done | done |]. unfold put_paths. by rewrite length_fmap.
Qed.

(** X2 (the verdicts agree with [isFileModified]).  After a run over a
    source tree that names each entry of a directory once, every file the
    run reported as modified by the user has a manifest entry for which
    [isFileModified] answers [true], and every file it reported as
    installed has an entry for which [isFileModified] answers [false]. *)
Theorem sync_verdicts_match_isFileModified src dest prof st st' r p :
  wf_src src = true ->
  copyDirWithManifestTracking src dest prof st = Some (st', r) ->
  (PreservedModified p ∈ events_since st st' ->
   exists e, getManifestEntry (st_manifest st') p = Some e /\
             isFileModified (st_fs st') p (hash e) = Some true) /\
  (Installed p ∈ events_since st st' ->
   exists e, getManifestEntry (st_manifest st') p = Some e /\
             isFileModified (st_fs st') p (hash e) = Some false).
Proof.
  intros Hwf H. apply copyDir_run in H as (Hrun & _).
  destruct (run_plan_settles prof _ _ _ (plan_NoDup _ Hwf dest) Hrun)
    as (evs & Hlog & Hset & _).
  rewrite (events_since_app _ _ _ Hlog).
  assert (Hev : forall ev, ev ∈ evs -> exists f, settled st' f ev).
  { intros ev Hin. apply list_elem_of_lookup in Hin as [i Hi].
    destruct (Forall2_lookup_r _ _ _ _ _ Hset Hi) as (f & _ & Hf). eauto. }
  split; intros Hin; destruct (Hev _ Hin) as ([[q name] content] & Hs);
    simpl in Hs.
  - destruct Hs as (-> & d & e & Hd & He & Hne). exists e. split; [done |].
    destruct (isFileModified_true_iff (st_fs st') q (hash e)) as (b & -> & Hb).
    f_equal. apply Hb. eauto.
  - destruct Hs as (-> & _ & Hw & e & He & Hh). exists e. split; [done |].
    apply isFileModified_false. right. unfold Fs.readFile. rewrite Hw. eauto.
Qed.

(** *** After an uninstall *)

(** X19 (no skills after an uninstall).  [uninstallSkills] always
    returns, and [validate] afterwards reports that the skills directory
    was not found, whatever the configuration and the profile hold. *)
Theorem skills_invalid_after_uninstall fs config sourceEntries :
  exists fs',
    uninstallSkills fs = Some fs' /\
    validate fs' config sourceEntries
    = Some {| valid := false;
              message := "Skills directory not found";
              errors := Some ["Skills directory not found at " +:+ claudeSkillsDirName;
                              runInstallTo "install skills"] |}.
Proof.
  destruct (uninstallSkills_spec fs) as (fs' & Hun & Hgone & Hframe).
  exists fs'. split; [done |].
  assert (fs' !! claudeSkillsDir = None) as Hnone.
  { destruct (fs !! claudeSkillsDir) as [n|] eqn:E.
    - apply Hgone; [eauto | done].
    - unfold uninstallSkills in Hun. unfold Fs.access, Fs.exists_ in Hun.
      rewrite E in Hun. rewrite bool_decide_eq_false_2 in Hun by (by intros [? ?]).
      cbn [try_catch mbind option_bind] in Hun.
      destruct (removeSkillsPermissions_frame fs) as (fs2 & Hrm & Hfr).
      rewrite Hrm in Hun. simplify_eq. by rewrite Hfr. }
  unfold validate, Fs.exists_. rewrite Hnone.
  by rewrite bool_decide_eq_false_2 by (by intros [? ?]).
Qed.

(** X20 (no manifest after an uninstall).  After [uninstallManifest]
    has returned, [loadManifest] answers [null]: the next installation
    starts from a new manifest. *)
Theorem manifest_absent_after_uninstall fs fs' :
  uninstallManifest fs = Some fs' ->
  loadManifest fs' = Some Js.VNull.
Proof.
  intros H. apply uninstallManifest_spec in H as (Hnone & _).
  unfold loadManifest, Fs.access, Fs.exists_. rewrite Hnone.
  by rewrite bool_decide_eq_false_2 by (by intros [? ?]).
Qed.

(** *** Permissions for the skills directory *)

(** X11 (the skills directory is granted).  When
    [configureSkillsPermissions] returns and the settings it started from
    are an object whose [permissions] is not an array (in particular when
    settings.json was missing or unparseable), settings.json holds the
    printed settings, the check [validate] makes on them,
    [permissions.additionalDirectories.includes(skillsDir)], succeeds, and
    no path besides settings.json and the [.claude] directory and its
    ancestors has changed. *)
Theorem configure_grants_skills_dir fs fs' settings settings' :
  configureSkillsPermissions fs = Some (fs', settings') ->
  currentSettings fs = Some settings ->
  plainSettings settings = true ->
  Fs.readFile fs' claudeSettingsFile = Some (JSON_stringify 2 settings') /\
  skillsDirPermitted settings' = Some true /\
  (forall p, p ≠ claudeSettingsFile -> ¬ p `prefix_of` claudeDir ->
             fs' !! p = fs !! p).
Proof.
  intros H Hs Hplain.
  apply configureSkillsPermissions_spec in H
    as (fs1 & s & Hmk & Hs' & Hg & Hnd & ->).
  simplify_eq. split_and!.
  - unfold Fs.readFile. by rewrite lookup_insert_eq.
  - by eapply grantSkillsDir_permitted.
  - intros p Hp Hpre. rewrite lookup_insert_ne by done.
    by eapply mkdir_p_frame.
Qed.

(** X12 (granting is idempotent).  Running
    [configureSkillsPermissions] again on its own result, when the text
    it wrote parses back to the value it printed, changes nothing: the file
    system and the settings written are the same. *)
Theorem configure_idempotent fs fs1 settings1 :
  configureSkillsPermissions fs = Some (fs1, settings1) ->
  JSON_parse (JSON_stringify 2 settings1) = Some settings1 ->
  configureSkillsPermissions fs1 = Some (fs1, settings1).
Proof.
  intros H Hcodec.
  apply configureSkillsPermissions_spec in H
    as (fsa & s & Hmk & Hs & Hg & Hnd & ->).
  set (fs1 := <[claudeSettingsFile := _]> fsa).
  assert (Hdirs : dirs_ok fs1 claudeDir).
  { intros k. unfold fs1. rewrite lookup_insert_ne.
    - by apply (mkdir_p_dirs_ok _ _ _ Hmk).
    - intros Heq. apply (f_equal length) in Heq. rewrite length_take in Heq.
      simpl in Heq. lia. }
  unfold configureSkillsPermissions.
  change (Fs.dirname claudeSettingsFile) with claudeDir.
  rewrite (mkdir_p_id _ _ Hdirs). cbn [mbind option_bind].
  assert (Fs.readFile fs1 claudeSettingsFile = Some (JSON_stringify 2 settings1)) as ->.
  { unfold Fs.readFile, fs1. by rewrite lookup_insert_eq. }
  cbn [mbind option_bind]. rewrite Hcodec. cbn [try_catch mbind option_bind].
  rewrite (grantSkillsDir_idempotent _ _ Hg). cbn [mbind option_bind].
  assert (Fs.writeFile fs1 claudeSettingsFile (JSON_stringify 2 settings1) = Some fs1) as ->.
  { change claudeSettingsFile with (claudeDir ++ ["settings.json"]).
    apply writeFile_snoc. split_and!.
    - apply (Hdirs 1).
    - unfold fs1. change (claudeDir ++ ["settings.json"]) with claudeSettingsFile.
      by rewrite lookup_insert_eq.
    - unfold fs1. change (claudeDir ++ ["settings.json"]) with claudeSettingsFile.
      by rewrite insert_insert_eq. }
  done.
Qed.

(** X15 (revoking the skills directory).  When settings.json holds an
    object whose [permissions.additionalDirectories] is an array,
    [removeSkillsPermissions] writes settings in which the check of
    [validate] fails: the array has lost every entry equal to the skills
    directory and kept the others in order, or is gone when none is left;
    the [permissions] property holds what is left of the object, or is
    gone when nothing is left in it; every other property of the settings
    and of [permissions] is as it was. *)
Theorem remove_revokes_skills_dir fs content ps pps dirs :
  fs !! claudeDir = Some Fs.Dir ->
  Fs.readFile fs claudeSettingsFile = Some content ->
  JSON_parse content = Some (Js.VObj ps) ->
  Js.assoc "permissions" ps = Some (Js.VObj pps) ->
  Js.assoc "additionalDirectories" pps = Some (Js.VArr dirs) ->
  exists fs' settings',
    removeSkillsPermissions fs = Some fs' /\
    Fs.readFile fs' claudeSettingsFile = Some (JSON_stringify 2 settings') /\
    skillsDirPermitted settings' = Some false /\
    Js.opt_prop (Js.prop settings' "permissions") "additionalDirectories"
    = (if bool_decide (keptDirs dirs = []) then None
       else Some (Js.VArr (keptDirs dirs))) /\
    (forall k, k ≠ "additionalDirectories" ->
       Js.opt_prop (Js.prop settings' "permissions") k = Js.assoc k pps) /\
    (forall k, k ≠ "permissions" -> Js.prop settings' k = Js.assoc k ps) /\
    Js.prop settings' "permissions"
    = (if bool_decide (remainingPermissions pps dirs = []) then None
       else Some (Js.VObj (remainingPermissions pps dirs))).
Proof.
  intros Hdir Hread Hparse Hp Had.
  exists (<[claudeSettingsFile :=
             Fs.File (JSON_stringify 2 (revokedSettings ps pps dirs))]> fs),
         (revokedSettings ps pps dirs).
  split; [by eapply removeSkillsPermissions_array |].
  split; [unfold Fs.readFile; by rewrite lookup_insert_eq |].
  set (kept := keptDirs dirs).
  set (perms1 := Js.assoc_set "additionalDirectories" (Js.VArr kept) pps).
  set (perms2 := if bool_decide (length kept = 0)
                 then Js.assoc_del "additionalDirectories" perms1 else perms1).
  assert (Hrest : perms2 = remainingPermissions pps dirs).
  { unfold perms2, perms1, remainingPermissions. fold kept.
    destruct kept as [| d kept']; simpl; [apply assoc_del_set_any | done]. }
  assert (Hother : forall k, k ≠ "additionalDirectories" ->
                             Js.assoc k perms2 = Js.assoc k pps).
  { intros k Hk. unfold perms2, perms1. case_bool_decide.
    - by rewrite assoc_del_ne, assoc_set_ne.
    - by rewrite assoc_set_ne. }
  assert (Had2 : Js.assoc "additionalDirectories" perms2
                 = if bool_decide (kept = []) then None else Some (Js.VArr kept)).
  { unfold perms2, perms1. destruct kept as [| d kept'].
    - simpl. apply assoc_del_eq.
    - simpl. apply assoc_set_eq. }
  assert (Hprop : Js.prop (revokedSettings ps pps dirs) "permissions"
                  = if bool_decide (perms2 = []) then None
                    else Some (Js.VObj perms2)).
  { unfold revokedSettings. fold kept. fold perms1. fold perms2.
    destruct perms2 as [| [k0 v0] rest] eqn:E2; simpl.
    - apply assoc_del_eq.
    - apply assoc_set_eq. }
  assert (Hperm :
    forall k, Js.opt_prop (Js.prop (revokedSettings ps pps dirs) "permissions") k
              = Js.assoc k perms2).
  { intros k. rewrite Hprop. destruct perms2 as [| [k0 v0] rest]; done. }
  split_and!.
  - unfold skillsDirPermitted.
    assert (exists qs, revokedSettings ps pps dirs = Js.VObj qs) as [qs Hqs].
    { unfold revokedSettings. fold kept. fold perms1. fold perms2.
      destruct (bool_decide (length perms2.*1 = 0)); eauto. }
    rewrite Hqs. rewrite <- Hqs, Hperm, Had2.
    destruct (bool_decide (kept = [])); [done |]. unfold kept.
    by rewrite includesSkillsDir_keptDirs.
  - by rewrite Hperm, Had2.
  - intros k Hk. by rewrite Hperm, Hother.
  - intros k Hk. unfold revokedSettings. fold kept. fold perms1. fold perms2.
    destruct (bool_decide (length perms2.*1 = 0)); cbn [Js.prop].
    + by rewrite assoc_del_ne, assoc_set_ne.
    + by rewrite assoc_set_ne.
  - by rewrite Hprop, Hrest.
Qed.

(** X14 (granting then revoking).  When the settings
    [configureSkillsPermissions] starts from are an object without a
    [permissions] property (as when settings.json is missing), and the text
    it writes parses back to the value printed, [removeSkillsPermissions]
    afterwards writes exactly the settings the first started from, and
    touches nothing but settings.json. *)
Theorem configure_then_remove_restores fs ps fs1 settings1 :
  currentSettings fs = Some (Js.VObj ps) ->
  Js.assoc "permissions" ps = None ->
  configureSkillsPermissions fs = Some (fs1, settings1) ->
  JSON_parse (JSON_stringify 2 settings1) = Some settings1 ->
  exists fs2,
    removeSkillsPermissions fs1 = Some fs2 /\
    Fs.readFile fs2 claudeSettingsFile = Some (JSON_stringify 2 (Js.VObj ps)) /\
    forall p, p ≠ claudeSettingsFile -> fs2 !! p = fs1 !! p.
Proof.
  intros Hs Hp H Hcodec.
  apply configureSkillsPermissions_spec in H
    as (fsa & s & Hmk & Hs' & Hg & Hnd & ->).
  simplify_eq. rewrite (grantSkillsDir_no_permissions _ Hp) in Hg. simplify_eq.
  set (granted := Js.assoc_set "permissions" _ ps) in *.
  set (fs1 := <[claudeSettingsFile := _]> fsa).
  assert (Hrm := removeSkillsPermissions_array fs1
                   (JSON_stringify 2 (Js.VObj granted)) granted
                   [("additionalDirectories", Js.VArr [Js.VStr claudeSkillsDirName])]
                   [Js.VStr claudeSkillsDirName]).
  rewrite Hrm; clear Hrm.
  - eexists. split; [done |]. split.
    + unfold Fs.readFile. rewrite lookup_insert_eq. do 2 f_equal.
      unfold revokedSettings, keptDirs.
      rewrite filter_cons_False
        by (simpl; by rewrite bool_decide_eq_true_2).
      rewrite filter_nil. simpl. unfold Js.assoc_del at 2. simpl.
      rewrite filter_cons_False by (simpl; by intros []).
      rewrite filter_nil. simpl. unfold granted.
      by rewrite assoc_set_twice, assoc_del_set.
    + intros p Hne. by rewrite lookup_insert_ne.
  - unfold fs1. rewrite lookup_insert_ne by done.
    apply (mkdir_p_dirs_ok _ _ _ Hmk 1).
  - unfold Fs.readFile, fs1. by rewrite lookup_insert_eq.
  - done.
  - unfold granted. apply assoc_set_eq.
  - done.
Qed.

(** *** Validation of the installed skills *)

(** X15 (an installation validates).  After the steps of [installSkills]
    have run in order for a configuration with a profile (the skills
    directory created, the loop over the entries of the profile, the
    manifest saved, the permissions configured), [validate] reports a valid
    installation, provided the settings before the run were an object
    whose [permissions] is not an array (or were missing) and the text
    written to settings.json parses back to the value printed. *)
Theorem skills_valid_after_install
    config prof entries fs fs1 m t log st2 totals mobj now fs3 mobj' fs4
    settings settings' :
  Js.opt_prop (Some (getAgentProfile config "claude-code")) "baseProfile"
  = Some (Js.VStr prof) ->
  Fs.mkdir_p fs claudeSkillsDir = Some fs1 ->
  installSkillsEntries entries prof
    {| st_fs := fs1; st_manifest := m; st_ticks := t; st_log := log |} zero
  = Some (st2, totals) ->
  saveManifest (st_fs st2) mobj now = Some (fs3, mobj') ->
  configureSkillsPermissions fs3 = Some (fs4, settings') ->
  currentSettings fs = Some settings ->
  plainSettings settings = true ->
  JSON_parse (JSON_stringify 2 settings') = Some settings' ->
  validate fs4 config (Some entries)
  = Some {| valid := true;
            message := "Skills are properly installed";
            errors := None |}.
Proof.
  intros Hprof Hmk Hloop Hsave Hconf Hs Hplain Hcodec.
  apply installSkillsEntries_run in Hloop as (Hrun & _).
  assert (Hdirs : forall q, st_fs st2 !! q = Some Fs.Dir -> fs4 !! q = Some Fs.Dir).
  { intros q Hq. eapply configureSkillsPermissions_keeps; [done |].
    by eapply saveManifest_keeps. }
  assert (Hsettings : currentSettings fs3 = Some settings).
  { unfold currentSettings in *.
    destruct (saveManifest_keeps _ _ _ _ _ claudeSettingsFile Hsave) as [_ ->];
      [| done].
    destruct (skillsPlan_not_settings entries) as [Hput Hmkd].
    unfold Fs.readFile at 1.
    destruct (run_plan_untouched _ _ _ _ claudeSettingsFile Hrun Hput Hmkd)
      as [-> _]. simpl.
    fold (Fs.readFile fs1 claudeSettingsFile).
    by rewrite (readFile_grows _ _ _ (mkdir_p_grows _ _ _ Hmk)). }
  unfold validate.
  assert (fs4 !! claudeSkillsDir = Some Fs.Dir) as Hskills.
  { apply Hdirs. destruct (run_plan_frame _ _ _ _ Hrun) as [Hd _]. apply Hd.
    simpl. apply (mkdir_p_dirs_ok _ _ _ Hmk 2). }
  unfold Fs.exists_ at 1. rewrite Hskills.
  rewrite bool_decide_eq_true_2 by eauto. cbn [negb].
  rewrite Hprof. cbn [length].
  rewrite expectedSkillErrors_nil.
  2:{ intros name sub Hin Hpaid. apply Hdirs.
      eapply run_plan_mkdirs; [done |]. by eapply skillsPlan_mkdir. }
  cbn [length Nat.ltb Nat.leb].
  destruct (configureSkillsPermissions_spec _ _ _ Hconf)
    as (fsa & s & _ & Hs' & Hg & _ & Heq).
  rewrite Hsettings in Hs'. simplify_eq.
  unfold Fs.readFile. rewrite lookup_insert_eq. cbn [mbind option_bind].
  rewrite Hcodec. cbn [mbind option_bind].
  by rewrite (grantSkillsDir_permitted _ _ Hg Hplain).
Qed.

(** *** Saving and loading the configuration *)

(** X16 (configuration round trip).  When the object [saveConfig] writes
    passes the schema and its text parses back to it, [loadConfig]
    afterwards returns a configuration with the install directory, the
    agents and the version that were saved (a [null] one is absent), and
    the autoupdate setting that was saved, or ["disabled"] when none was
    given; a saved configuration never has the legacy [profile]. *)
Theorem config_save_load_roundtrip fs autoupdate agents version fs' validated :
  saveConfig fs autoupdate agents version = Some fs' ->
  JSON_parse (JSON_stringify 2 (configObject autoupdate agents version))
  = Some (configObject autoupdate agents version) ->
  JSON_parse (JSON_stringify 0 (configObject autoupdate agents version))
  = Some (configObject autoupdate agents version) ->
  validateConfigSchema (configObject autoupdate agents version) = Some validated ->
  Js.prop (configObject autoupdate agents version) "profile" = None /\
  exists cfg,
    loadConfig fs' = Some (Some cfg) /\
    config_installDir cfg = Js.VStr installDir /\
    config_agents cfg = given agents /\
    config_version cfg = given version /\
    config_autoupdate cfg
    = Some (default (Js.VStr "disabled") (given autoupdate)).
Proof. apply saveConfig_then_loadConfig. Qed.

(** *** Uninstalling the configuration *)


End Engine.

(** ** The properties on the concrete installation *)

Local Abbreviation sync :=
  (copyDirWithManifestTracking Ex.sha256 Ex.clock Ex.pkgVersion Ex.substitute
     Ex.installDir).

Local Abbreviation skillsLoop :=
  (installSkillsEntries Ex.sha256 Ex.clock Ex.pkgVersion Ex.substitute
     Ex.installDir).

Local Abbreviation load := (loadManifest Json.parse).
Local Abbreviation save := (saveManifest Ex.pkgVersion Ex.stringify).
Local Abbreviation loadCfg := (loadConfig Ex.installDir Json.parse Ex.stringify).
Local Abbreviation uninstallSk := (uninstallSkills Ex.installDir Json.parse Ex.stringify).

Ltac by_eval := vm_compute; reflexivity.

Local Abbreviation report o :=
  (o ≫= fun x : State * Counts => Some (events_since Ex.state x.1, x.2)).

Lemma sync_example_runs :
  exists st' r,
    sync Ex.src claudeSkillsDir "alpha" Ex.state = Some (st', r) /\
    events_since Ex.state st'
    = [PreservedModified Ex.skillMd; Installed Ex.readmeMd;
       Installed Ex.helperSh; PreservedExisting Ex.notesTxt] /\
    r = {| preserved := 2; installed := 2 |}.
Proof.
  assert (H : report (sync Ex.src claudeSkillsDir "alpha" Ex.state)
              = Some ([PreservedModified Ex.skillMd; Installed Ex.readmeMd;
                       Installed Ex.helperSh; PreservedExisting Ex.notesTxt],
                      {| preserved := 2; installed := 2 |})) by by_eval.
  destruct (sync Ex.src claudeSkillsDir "alpha" Ex.state) as [[st' r]|];
    [| discriminate H].
  exists st', r. split; [reflexivity |]. simpl in H. by injection H as -> ->.
Qed.

Lemma skills_example_runs :
  exists st' totals,
    skillsLoop Ex.entries "alpha" Ex.state zero = Some (st', totals) /\
    totals = {| preserved := 2; installed := 2 |}.
Proof.
  assert (H : report (skillsLoop Ex.entries "alpha" Ex.state zero)
              = Some ([PreservedModified Ex.skillMd; Installed Ex.readmeMd;
                       Installed Ex.helperSh; PreservedExisting Ex.notesTxt],
                      {| preserved := 2; installed := 2 |})) by by_eval.
  destruct (skillsLoop Ex.entries "alpha" Ex.state zero) as [[st' r]|];
    [| discriminate H].
  exists st', r. split; [reflexivity |]. simpl in H. by injection H as _ ->.
Qed.

Lemma C1_witness :
  exists st' r,
    sync Ex.src claudeSkillsDir "alpha" Ex.state = Some (st', r) /\
    st_fs st' !! Ex.skillMd = Some (Fs.File "v1-edited") /\
    getManifestEntry (st_manifest st') Ex.skillMd = Some Ex.skillEntry /\
    (PreservedModified Ex.skillMd ∈ events_since Ex.state st') /\
    (Installed Ex.skillMd ∉ events_since Ex.state st') /\
    r = tally (events_since Ex.state st').
Proof.
  destruct sync_example_runs as (st' & r & E & _). exists st', r. split; [exact E |].
  apply (C1_user_edit_preserved Ex.sha256 Ex.clock Ex.pkgVersion Ex.substitute
           Ex.installDir Ex.src claudeSkillsDir "alpha" Ex.state st' r
           Ex.skillMd "SKILL.md" "v2" "v1-edited" Ex.skillEntry E).
  - apply (bool_decide_unpack _). by_eval.
  - by_eval.
  - by_eval.
  - apply (bool_decide_unpack _). by_eval.
Defined.

Lemma C2_witness :
  (exists st' r,
     sync Ex.src claudeSkillsDir "alpha" Ex.state = Some (st', r) /\
     st_fs st' !! Ex.notesTxt = Some (Fs.File "my notes") /\
     getManifestEntry (st_manifest st') Ex.notesTxt = None /\
     (PreservedExisting Ex.notesTxt ∈ events_since Ex.state st') /\
     (Installed Ex.notesTxt ∉ events_since Ex.state st') /\
     r = tally (events_since Ex.state st')) /\
  (exists st' totals,
     skillsLoop Ex.entries "alpha" Ex.state zero = Some (st', totals) /\
     st_fs st' !! Ex.notesTxt = Some (Fs.File "my notes") /\
     getManifestEntry (st_manifest st') Ex.notesTxt = None /\
     (PreservedExisting Ex.notesTxt ∈ events_since Ex.state st') /\
     (Installed Ex.notesTxt ∉ events_since Ex.state st') /\
     totals = tally (events_since Ex.state st')).
Proof.
  split.
  - destruct sync_example_runs as (st' & r & E & _). exists st', r.
    split; [exact E |].
    apply (proj1 (C2_untracked_preserved Ex.sha256 Ex.clock Ex.pkgVersion
                    Ex.substitute Ex.installDir)
             Ex.src claudeSkillsDir "alpha" Ex.state st' r
             Ex.notesTxt "notes.txt" "shipped notes" (Fs.File "my notes") E).
    + apply (bool_decide_unpack _). by_eval.
    + by_eval.
    + by_eval.
  - destruct skills_example_runs as (st' & totals & E & _). exists st', totals.
    split; [exact E |].
    apply (proj2 (C2_untracked_preserved Ex.sha256 Ex.clock Ex.pkgVersion
                    Ex.substitute Ex.installDir)
             Ex.entries "alpha" Ex.state st' totals
             Ex.notesTxt "notes.txt" "shipped notes" (Fs.File "my notes") E).
    + apply (bool_decide_unpack _). by_eval.
    + by_eval.
    + by_eval.
Defined.

Lemma C4_witness :
  exists st1 r1 st2 r2,
    sync Ex.src claudeSkillsDir "alpha" Ex.state = Some (st1, r1) /\
    sync Ex.src claudeSkillsDir "alpha" st1 = Some (st2, r2) /\
    preservedFiles (events_since st1 st2) = [Ex.skillMd; Ex.notesTxt] /\
    preservedFiles (events_since Ex.state st1) = [Ex.skillMd; Ex.notesTxt] /\
    st_fs st2 = st_fs st1 /\
    r2 = r1.
Proof.
  destruct sync_example_runs as (st1 & r1 & E & Hev & _).
  destruct (C4_sync_idempotent Ex.sha256 Ex.clock Ex.pkgVersion Ex.substitute
              Ex.installDir Ex.src claudeSkillsDir "alpha" Ex.state st1 r1)
    as (st2 & r2 & E2 & Hpres & Hevs & Hfs & Hr).
  - by_eval.
  - exact E.
  - exists st1, r1, st2, r2. rewrite Hpres, Hev.
    split_and!; [exact E | exact E2 | by_eval | by_eval | exact Hfs | exact Hr].
Defined.

Lemma C6_witness :
  exists st' r,
    sync Ex.src claudeSkillsDir "alpha" Ex.state = Some (st', r) /\
    (Installed Ex.readmeMd ∈ events_since Ex.state st') /\
    st_fs st' !! Ex.readmeMd
    = Some (Fs.File (Ex.substitute "see SKILL.md" Ex.installDir)) /\
    (exists e,
       getManifestEntry (st_manifest st') Ex.readmeMd = Some e /\
       hash e = Ex.sha256 (Ex.substitute "see SKILL.md" Ex.installDir) /\
       computeFileHash Ex.sha256 (st_fs st') Ex.readmeMd = Some (hash e)) /\
    getManifestEntry (st_manifest st') Ex.skillMd
    = getManifestEntry Ex.manifest Ex.skillMd.
Proof.
  destruct sync_example_runs as (st' & r & E & Hev & _). exists st', r.
  destruct (C6_hash_of_written_content Ex.sha256 Ex.clock Ex.pkgVersion
              Ex.substitute Ex.installDir Ex.src claudeSkillsDir "alpha"
              Ex.state st' r) as [Hinst Hkeep].
  - by_eval.
  - exact E.
  - assert (Hin : Installed Ex.readmeMd ∈ events_since Ex.state st').
    { rewrite Hev. apply (bool_decide_unpack _). by_eval. }
    assert (Hsrc : (Ex.readmeMd, "README.md", "see SKILL.md")
                   ∈ sourceFiles Ex.src claudeSkillsDir).
    { apply (bool_decide_unpack _). by_eval. }
    split_and!; [exact E | exact Hin | | |].
    + apply (Hinst Ex.readmeMd "README.md" "see SKILL.md" Hsrc Hin).
    + apply (Hinst Ex.readmeMd "README.md" "see SKILL.md" Hsrc Hin).
    + apply Hkeep. rewrite Hev. apply (bool_decide_unpack _). by_eval.
Defined.

(** C3 as the claim states it fails: the uninstall of the skills loader
    removes the file the user edited and the file the user added, and the
    uninstall of the manifest loader then deletes a manifest that still
    records an entry. *)
Lemma C3_counterexample :
  exists fs1 fs2,
    uninstallSk Ex.disk = Some fs1 /\
    Ex.disk !! Ex.skillMd = Some (Fs.File "v1-edited") /\
    fs1 !! Ex.skillMd = None /\
    Ex.disk !! Ex.notesTxt = Some (Fs.File "my notes") /\
    fs1 !! Ex.notesTxt = None /\
    load fs1 = Some Ex.manifestJson /\
    Js.keys (Js.coalesce (Js.prop Ex.manifestJson "files") Js.VNull)
    = [".claude/skills/using-skills/SKILL.md"] /\
    uninstallManifest fs1 = Some fs2 /\
    fs2 !! manifestPath = None.
Proof.
  assert (H : (fs1 ← uninstallSk Ex.disk;
               Some (fs1 !! Ex.skillMd, fs1 !! Ex.notesTxt, load fs1,
                     fs2 ← uninstallManifest fs1; Some (fs2 !! manifestPath)))
              = Some (None, None, Some Ex.manifestJson, Some None)) by by_eval.
  destruct (uninstallSk Ex.disk) as [fs1|]; [| discriminate H].
  cbn [mbind option_bind] in H. injection H as H1 H2 H3 H4.
  destruct (uninstallManifest fs1) as [fs2|] eqn:E2; [| discriminate H4].
  cbn [mbind option_bind] in H4. injection H4 as H4.
  exists fs1, fs2.
  split_and!; [reflexivity | by_eval | exact H1 | by_eval | exact H2 | exact H3
              | by_eval | exact E2 | exact H4].
Qed.

Lemma C3_witness :
  exists fs1,
    uninstallSk Ex.disk = Some fs1 /\
    fs1 !! Ex.notesTxt = None /\
    fs1 !! manifestPath = Ex.disk !! manifestPath /\
    exists fs2,
      uninstallManifest fs1 = Some fs2 /\
      fs2 !! manifestPath = None /\
      fs2 !! claudeSettingsFile = fs1 !! claudeSettingsFile.
Proof.
  destruct (proj1 (C3_uninstall_removes_directory Ex.installDir Json.parse
                     Ex.stringify Ex.disk)) as (fs1 & E1 & Hrm & Hkeep).
  exists fs1. split_and!; [exact E1 | | |].
  - apply Hrm.
    + apply (bool_decide_unpack _). by_eval.
    + apply (bool_decide_unpack _). by_eval.
  - apply Hkeep; [| discriminate].
    apply (bool_decide_unpack _). by_eval.
  - assert (H : bool_decide (is_Some (uninstallSk Ex.disk ≫= uninstallManifest)) = true)
      by by_eval.
    rewrite E1 in H. cbn [mbind option_bind] in H.
    destruct (uninstallManifest fs1) as [fs2|] eqn:E2.
    + exists fs2. split; [reflexivity |].
      destruct (proj2 (C3_uninstall_removes_directory Ex.installDir Json.parse
                         Ex.stringify fs1) fs2 E2) as (Hgone & Hsame & _).
      split; [exact Hgone |]. apply Hsame; discriminate.
    + apply bool_decide_eq_true in H. destruct H as [? H]. discriminate H.
Defined.

(** C5: a manifest file whose [files] is [null] is not rejected; it is
    returned as a manifest, because [typeof null] is ["object"]. *)
Lemma C5_null_files_accepted :
  load Ex.nullFilesDisk = Some Ex.nullFilesJson /\
  Js.prop Ex.nullFilesJson "files" = Some Js.VNull.
Proof. split; by_eval. Qed.

(** C7: saving a loaded manifest changes more than [updatedAt].  A
    manifest written by version 12.0.0 and saved by version 13.0.0 comes
    back with [nojoVersion] 13.0.0: [saveManifest] overwrites the field
    that records the version which created the manifest. *)
Lemma C7_nojoVersion_overwritten :
  exists fs',
    load Ex.disk = Some Ex.manifestJson /\
    save Ex.disk Ex.manifestJson Ex.savedAt = Some (fs', Ex.savedManifestJson) /\
    load fs' = Some Ex.savedManifestJson /\
    Js.prop Ex.manifestJson "nojoVersion" = Some (Js.VStr "12.0.0") /\
    Js.prop Ex.savedManifestJson "nojoVersion" = Some (Js.VStr "13.0.0") /\
    Js.prop Ex.savedManifestJson "nojoVersion" ≠ Js.prop Ex.manifestJson "nojoVersion".
Proof.
  assert (H : ('(fs', m') ← save Ex.disk Ex.manifestJson Ex.savedAt;
               Some (m', load fs'))
              = Some (Ex.savedManifestJson, Some Ex.savedManifestJson)) by by_eval.
  destruct (save Ex.disk Ex.manifestJson Ex.savedAt) as [[fs' m']|];
    [| discriminate H].
  cbn [mbind option_bind] in H. injection H as -> H.
  exists fs'.
  split_and!; [by_eval | reflexivity | exact H | by_eval | by_eval | discriminate].
Qed.

Lemma saveManifest_keeps_the_rest_example :
  exists fs' m',
    save Ex.disk Ex.manifestJson Ex.savedAt = Some (fs', m') /\
    load fs' = Some m' /\
    Js.prop m' "files" = Js.prop Ex.manifestJson "files" /\
    (forall k, k ≠ "updatedAt" -> k ≠ "nojoVersion" ->
               Js.prop m' k = Js.prop Ex.manifestJson k) /\
    Js.prop m' "updatedAt" = Some (Js.VStr Ex.savedAt).
Proof.
  assert (H : snd <$> save Ex.disk Ex.manifestJson Ex.savedAt
              = Some Ex.savedManifestJson) by by_eval.
  destruct (save Ex.disk Ex.manifestJson Ex.savedAt) as [[fs' m']|] eqn:E;
    [| discriminate H].
  injection H as ->.
  exists fs', Ex.savedManifestJson. split; [reflexivity |].
  apply (saveManifest_keeps_the_rest Ex.pkgVersion Json.parse Ex.stringify
           Ex.disk Ex.manifestJson Ex.savedAt fs' Ex.savedManifestJson).
  - by_eval.
  - discriminate.
  - exact E.
  - by_eval.
Defined.

(** C8 as the claim states it fails: with an empty [agents] object the
    installed agents are not its keys. *)
Lemma C8_counterexample :
  config_agents Ex.noAgents = Some (Js.VObj []) /\
  Js.keys (Js.VObj []) = [] /\
  getInstalledAgents Ex.noAgents = ["claude-code"].
Proof. split_and!; reflexivity. Qed.

Lemma C8_witness :
  getInstalledAgents Ex.twoAgents = ["claude-code"; "cursor-agent"] /\
  getInstalledAgents Ex.noAgents = ["claude-code"].
Proof.
  split.
  - apply (proj1 (C8_installed_agents Ex.twoAgents) _ eq_refl). discriminate.
  - apply (proj2 (C8_installed_agents Ex.noAgents)). reflexivity.
Defined.

Lemma C9_witness :
  Fs.readFile Ex.disk [".claude"; "skills"; "deleted.md"] = None /\
  isFileModified Ex.sha256 Ex.disk [".claude"; "skills"; "deleted.md"]
    (Ex.sha256 "old") = Some false.
Proof.
  split; [by_eval |].
  apply (C9_unreadable_is_not_modified Ex.sha256). by_eval.
Defined.

(** C10 as the claim states it fails: a file without [agents] and with
    [profile.baseProfile] loads as [null] when another property does not
    pass the schema. *)
Lemma C10_counterexample :
  Js.assoc "agents" Ex.badLegacyConfig = None /\
  Js.opt_prop (Js.assoc "profile" Ex.badLegacyConfig) "baseProfile"
  = Some (Js.VStr "amol") /\
  loadCfg (Ex.configDisk Ex.badLegacyConfig) = Some None.
Proof. split_and!; by_eval. Qed.

Lemma C10_witness :
  (exists cfg,
     loadCfg (Ex.configDisk Ex.legacyConfig) = Some (Some cfg) /\
     config_agents cfg = Some (legacyAgents (Js.VStr "amol"))) /\
  (exists cfg,
     loadCfg (Ex.configDisk Ex.bothConfig) = Some (Some cfg) /\
     Js.opt_prop (Js.opt_prop (Js.opt_prop (config_agents cfg) "claude-code")
                    "profile") "baseProfile"
     = Some (Js.VStr "new-profile")) /\
  validateConfigSchema (Js.VObj Ex.badLegacyConfig) = None /\
  loadCfg (Ex.configDisk Ex.badLegacyConfig) = Some None.
Proof.
  split_and!.
  - destruct (C10_legacy_profile_migration Ex.installDir Json.parse Ex.stringify
                (Ex.configDisk Ex.legacyConfig)
                (Json.print (Js.VObj Ex.legacyConfig)) (Js.VObj Ex.legacyConfig))
      as [Hvalid _]; [by_eval | by_eval | by_eval |].
    destruct (Hvalid Ex.legacyConfig
                (Js.VObj (Ex.legacyConfig ++ [("autoupdate", Js.VStr "disabled")])))
      as (cfg & Hload & Hlegacy & _); [reflexivity | by_eval |].
    exists cfg. split; [exact Hload |].
    apply (Hlegacy eq_refl (Js.VObj [("baseProfile", Js.VStr "amol")]));
      reflexivity.
  - destruct (C10_legacy_profile_migration Ex.installDir Json.parse Ex.stringify
                (Ex.configDisk Ex.bothConfig)
                (Json.print (Js.VObj Ex.bothConfig)) (Js.VObj Ex.bothConfig))
      as [Hvalid _]; [by_eval | by_eval | by_eval |].
    destruct (Hvalid Ex.bothConfig
                (Js.VObj (Ex.bothConfig ++ [("autoupdate", Js.VStr "disabled")])))
      as (cfg & Hload & _ & Hagents); [reflexivity | by_eval |].
    exists cfg. split; [exact Hload |].
    destruct (Hagents (Js.VObj [("claude-code",
                Js.VObj [("profile", Js.VObj [("baseProfile", Js.VStr "new-profile")])])])
                eq_refl) as (agents' & Hv & ->).
    assert (Hv' : Ajv.validate agentsSchema
                    (Js.VObj [("claude-code",
                       Js.VObj [("profile", Js.VObj [("baseProfile", Js.VStr "new-profile")])])])
                  = Some (Js.VObj [("claude-code",
                       Js.VObj [("profile", Js.VObj [("baseProfile", Js.VStr "new-profile")])])]))
      by by_eval.
    rewrite Hv' in Hv. injection Hv as <-. reflexivity.
  - by_eval.
  - apply (C10_legacy_profile_migration Ex.installDir Json.parse Ex.stringify
             (Ex.configDisk Ex.badLegacyConfig)
             (Json.print (Js.VObj Ex.badLegacyConfig)) (Js.VObj Ex.badLegacyConfig));
      by_eval.
Defined.

(** ** The further properties on concrete installations *)

Local Abbreviation configure :=
  (configureSkillsPermissions Ex.installDir Json.parse Ex.stringify).
Local Abbreviation removePerm :=
  (removeSkillsPermissions Ex.installDir Json.parse Ex.stringify).
Local Abbreviation validateSk := (validate Ex.installDir Json.parse).
Local Abbreviation saveCfg := (saveConfig Ex.installDir Ex.stringify).
Local Abbreviation uninstallCfg :=
  (uninstallConfig Ex.installDir Json.parse Ex.stringify).
Local Abbreviation settingsOf := (currentSettings Json.parse).
Local Abbreviation modified := (isFileModified Ex.sha256).

Local Abbreviation freshReport o :=
  (o ≫= fun x : State * Counts => Some (events_since Ex.freshState x.1, x.2)).

Lemma fresh_example_runs :
  exists st' r,
    sync Ex.src claudeSkillsDir "alpha" Ex.freshState = Some (st', r) /\
    events_since Ex.freshState st'
    = [Installed Ex.skillMd; Installed Ex.readmeMd; Installed Ex.helperSh;
       Installed Ex.notesTxt] /\
    r = {| preserved := 0; installed := 4 |}.
Proof.
  assert (H : freshReport (sync Ex.src claudeSkillsDir "alpha" Ex.freshState)
              = Some ([Installed Ex.skillMd; Installed Ex.readmeMd;
                       Installed Ex.helperSh; Installed Ex.notesTxt],
                      {| preserved := 0; installed := 4 |})) by by_eval.
  destruct (sync Ex.src claudeSkillsDir "alpha" Ex.freshState) as [[st' r]|];
    [| discriminate H].
  exists st', r. split; [reflexivity |]. simpl in H. by injection H as -> ->.
Qed.

Lemma manifest_add_get_remove_witness :
  getManifestEntry Ex.manifest Ex.notesTxt = None /\
  getManifestEntry
    (addToManifest Ex.manifest Ex.notesTxt "h" nojo (Some "alpha") "13.0.0" "now")
    Ex.skillMd = Some Ex.skillEntry /\
  files (removeFromManifest
           (addToManifest Ex.manifest Ex.notesTxt "h" nojo (Some "alpha")
              "13.0.0" "now")
           Ex.notesTxt)
  = files Ex.manifest.
Proof.
  destruct (manifest_add_get_remove Ex.manifest Ex.notesTxt "h" nojo
              (Some "alpha") "13.0.0" "now") as (_ & _ & Hother & Hback).
  split_and!.
  - by_eval.
  - rewrite (proj1 (Hother Ex.skillMd ltac:(discriminate))). by_eval.
  - apply Hback. by_eval.
Defined.

Lemma sync_verdicts_match_isFileModified_witness :
  exists st' r,
    sync Ex.src claudeSkillsDir "alpha" Ex.state = Some (st', r) /\
    (exists e, getManifestEntry (st_manifest st') Ex.skillMd = Some e /\
               modified (st_fs st') Ex.skillMd (hash e) = Some true) /\
    (exists e, getManifestEntry (st_manifest st') Ex.readmeMd = Some e /\
               modified (st_fs st') Ex.readmeMd (hash e) = Some false).
Proof.
  destruct sync_example_runs as (st' & r & E & Hev & _). exists st', r.
  split; [exact E |]. split.
  - apply (proj1 (sync_verdicts_match_isFileModified Ex.sha256 Ex.clock
                    Ex.pkgVersion Ex.substitute Ex.installDir Ex.src
                    claudeSkillsDir "alpha" Ex.state st' r Ex.skillMd
                    ltac:(by_eval) E)).
    rewrite Hev. apply (bool_decide_unpack _). by_eval.
  - apply (proj2 (sync_verdicts_match_isFileModified Ex.sha256 Ex.clock
                    Ex.pkgVersion Ex.substitute Ex.installDir Ex.src
                    claudeSkillsDir "alpha" Ex.state st' r Ex.readmeMd
                    ltac:(by_eval) E)).
    rewrite Hev. apply (bool_decide_unpack _). by_eval.
Defined.

Lemma sync_keeps_manifest_clean_witness :
  exists st' r,
    sync Ex.src claudeSkillsDir "alpha" Ex.freshState = Some (st', r) /\
    manifest_clean Ex.sha256 (st_fs st') (st_manifest st') /\
    forall p, PreservedModified p ∉ events_since Ex.freshState st'.
Proof.
  destruct fresh_example_runs as (st' & r & E & _). exists st', r.
  split; [exact E |].
  apply (sync_keeps_manifest_clean Ex.sha256 Ex.clock Ex.pkgVersion
           Ex.substitute Ex.installDir Ex.src claudeSkillsDir "alpha"
           Ex.freshState st' r); [| exact E].
  intros p e He. discriminate He.
Defined.

Lemma sync_installed_provenance_witness :
  exists st' r e,
    sync Ex.src claudeSkillsDir "alpha" Ex.state = Some (st', r) /\
    getManifestEntry (st_manifest st') Ex.readmeMd = Some e /\
    source e = nojo /\ profile e = Some "alpha" /\
    e ∈ getEntriesForProfile (st_manifest st') "alpha".
Proof.
  destruct sync_example_runs as (st' & r & E & Hev & _).
  destruct (sync_installed_provenance Ex.sha256 Ex.clock Ex.pkgVersion
              Ex.substitute Ex.installDir Ex.src claudeSkillsDir "alpha"
              Ex.state st' r Ex.readmeMd E)
    as (e & He & _ & Hsrc & Hprof & _ & Hin & _).
  - rewrite Hev. apply (bool_decide_unpack _). by_eval.
  - exists st', r, e. by split_and!.
Defined.

Lemma sync_never_deletes_witness :
  exists st' r,
    sync Ex.src claudeSkillsDir "alpha" Ex.state = Some (st', r) /\
    is_Some (st_fs st' !! Ex.notesTxt) /\
    st_fs st' !! claudeSkillsDir = Some Fs.Dir /\
    is_Some (getManifestEntry (st_manifest st') Ex.skillMd).
Proof.
  destruct sync_example_runs as (st' & r & E & _). exists st', r.
  destruct (sync_never_deletes Ex.sha256 Ex.clock Ex.pkgVersion Ex.substitute
              Ex.installDir Ex.src claudeSkillsDir "alpha" Ex.state st' r E)
    as (Hfs & Hdir & Hm).
  split_and!; [exact E | apply Hfs | apply Hdir | apply Hm].
  - apply (bool_decide_unpack _). by_eval.
  - by_eval.
  - apply (bool_decide_unpack _). by_eval.
Defined.

Lemma sync_confined_to_dest_witness :
  exists st' r,
    sync Ex.src claudeSkillsDir "alpha" Ex.state = Some (st', r) /\
    st_fs st' !! claudeSettingsFile = Ex.disk !! claudeSettingsFile /\
    getManifestEntry (st_manifest st') claudeSettingsFile = None.
Proof.
  destruct sync_example_runs as (st' & r & E & _). exists st', r.
  destruct (sync_confined_to_dest Ex.sha256 Ex.clock Ex.pkgVersion Ex.substitute
              Ex.installDir Ex.src claudeSkillsDir "alpha" Ex.state st' r
              claudeSettingsFile E) as (Hfs & Hm).
  - apply (bool_decide_unpack _). by_eval.
  - apply (bool_decide_unpack _). by_eval.
  - split_and!; [exact E | exact Hfs |]. rewrite Hm. by_eval.
Defined.

Lemma sync_one_event_per_file_witness :
  exists st' r,
    sync Ex.src claudeSkillsDir "alpha" Ex.state = Some (st', r) /\
    event_path <$> events_since Ex.state st'
    = [Ex.skillMd; Ex.readmeMd; Ex.helperSh; Ex.notesTxt] /\
    preserved r + installed r = 4.
Proof.
  destruct sync_example_runs as (st' & r & E & _). exists st', r.
  destruct (sync_one_event_per_file Ex.sha256 Ex.clock Ex.pkgVersion
              Ex.substitute Ex.installDir Ex.src claudeSkillsDir "alpha"
              Ex.state st' r E) as (Hpaths & Hcount).
  split_and!; [exact E | rewrite Hpaths; by_eval | rewrite Hcount; by_eval].
Defined.

Lemma sync_aborts_when_blocked_witness :
  sync Ex.src claudeSkillsDir "alpha" Ex.blockedState = None /\
  sync Ex.src claudeSkillsDir "alpha" Ex.trackedDirState = None.
Proof.
  split.
  - apply (proj1 (sync_aborts_when_blocked Ex.sha256 Ex.clock Ex.pkgVersion
                    Ex.substitute Ex.installDir Ex.src claudeSkillsDir "alpha"
                    Ex.blockedState) 1 "not a directory").
    by_eval.
  - apply (proj2 (sync_aborts_when_blocked Ex.sha256 Ex.clock Ex.pkgVersion
                    Ex.substitute Ex.installDir Ex.src claudeSkillsDir "alpha"
                    Ex.trackedDirState)
             Ex.notesTxt "notes.txt" "shipped notes" Ex.notesEntry).
    + apply (bool_decide_unpack _). by_eval.
    + by_eval.
    + by_eval.
Defined.

Lemma skills_paid_directory_skipped_witness :
  exists st' totals,
    skillsLoop Ex.paidEntries "alpha" Ex.state zero = Some (st', totals) /\
    st_fs st' !! Ex.paidSkillMd = None /\
    st_fs st' !! [".claude"; "skills"; "paid-recall"] = None /\
    getManifestEntry (st_manifest st') Ex.paidSkillMd = None.
Proof.
  assert (H : bool_decide (is_Some (skillsLoop Ex.paidEntries "alpha" Ex.state zero))
              = true) by by_eval.
  destruct (skillsLoop Ex.paidEntries "alpha" Ex.state zero) as [[st' totals]|] eqn:E.
  2:{ apply bool_decide_eq_true in H. destruct H as [? H]. discriminate H. }
  exists st', totals. split; [reflexivity |].
  assert (Hskip := fun q =>
    skills_paid_directory_skipped Ex.sha256 Ex.clock Ex.pkgVersion Ex.substitute
      Ex.installDir Ex.paidEntries "alpha" Ex.state st' totals "paid-recall"
      Ex.paidSkill q
      ltac:(apply (bool_decide_unpack _); by_eval)
      ltac:(left)
      ltac:(by_eval) E).
  split_and!.
  - rewrite (proj1 (Hskip Ex.paidSkillMd ltac:(apply (bool_decide_unpack _); by_eval))).
    by_eval.
  - rewrite (proj1 (Hskip [".claude"; "skills"; "paid-recall"]
                      ltac:(apply (bool_decide_unpack _); by_eval))).
    by_eval.
  - rewrite (proj2 (Hskip Ex.paidSkillMd ltac:(apply (bool_decide_unpack _); by_eval))).
    by_eval.
Defined.

Lemma sync_fresh_installs_all_witness :
  exists st' r,
    sync Ex.src claudeSkillsDir "alpha" Ex.freshState = Some (st', r) /\
    events_since Ex.freshState st'
    = [Installed Ex.skillMd; Installed Ex.readmeMd; Installed Ex.helperSh;
       Installed Ex.notesTxt] /\
    preserved r = 0 /\ installed r = 4.
Proof.
  destruct fresh_example_runs as (st' & r & E & _). exists st', r.
  destruct (sync_fresh_installs_all Ex.sha256 Ex.clock Ex.pkgVersion
              Ex.substitute Ex.installDir Ex.src claudeSkillsDir "alpha"
              Ex.freshState st' r) as (Hev & Hp & Hi).
  - by_eval.
  - apply Forall_forall. apply (bool_decide_unpack _). by_eval.
  - exact E.
  - split_and!; [exact E | rewrite Hev; by_eval | exact Hp | rewrite Hi; by_eval].
Defined.

Lemma configure_grants_skills_dir_witness :
  exists fs',
    configure Ex.bareDisk
    = Some (fs', Js.VObj
                   [("$schema",
                     Js.VStr "https://json.schemastore.org/claude-code-settings.json");
                    ("permissions",
                     Js.VObj [("additionalDirectories",
                               Js.VArr [Js.VStr "/home/u/.claude/skills"])])]) /\
    is_Some (Fs.readFile fs' claudeSettingsFile) /\
    fs' !! Ex.notesTxt = None.
Proof.
  assert (H : snd <$> configure Ex.bareDisk
              = Some (Js.VObj
                   [("$schema",
                     Js.VStr "https://json.schemastore.org/claude-code-settings.json");
                    ("permissions",
                     Js.VObj [("additionalDirectories",
                               Js.VArr [Js.VStr "/home/u/.claude/skills"])])]))
    by by_eval.
  destruct (configure Ex.bareDisk) as [[fs' s']|] eqn:E; [| discriminate H].
  injection H as ->. exists fs'. split; [reflexivity |].
  destruct (configure_grants_skills_dir Ex.installDir Json.parse Ex.stringify
              Ex.bareDisk fs' (defaultSettings) _ E) as (Hread & _ & Hframe).
  - by_eval.
  - by_eval.
  - split.
    + rewrite Hread. eauto.
    + rewrite Hframe; [by_eval | discriminate |].
      apply (bool_decide_unpack _). by_eval.
Defined.

Lemma configure_idempotent_witness :
  exists fs1,
    configure Ex.disk = Some (fs1, Ex.settingsJson) /\
    configure fs1 = Some (fs1, Ex.settingsJson).
Proof.
  assert (H : snd <$> configure Ex.disk = Some Ex.settingsJson) by by_eval.
  destruct (configure Ex.disk) as [[fs1 s1]|] eqn:E; [| discriminate H].
  injection H as ->. exists fs1. split; [reflexivity |].
  apply (configure_idempotent Ex.installDir Json.parse Ex.stringify
           Ex.disk fs1 Ex.settingsJson E).
  by_eval.
Defined.

Lemma remove_revokes_skills_dir_witness :
  exists fs' settings',
    removePerm Ex.disk = Some fs' /\
    Fs.readFile fs' claudeSettingsFile = Some (Ex.stringify 2 settings') /\
    Js.prop settings' "permissions" = None /\
    Fs.readFile fs' claudeSettingsFile = Some (Ex.stringify 2 (Js.VObj [])).
Proof.
  destruct (remove_revokes_skills_dir Ex.installDir Json.parse Ex.stringify
              Ex.disk (Json.print Ex.settingsJson)
              [("permissions",
                Js.VObj [("additionalDirectories",
                          Js.VArr [Js.VStr "/home/u/.claude/skills"])])]
              [("additionalDirectories", Js.VArr [Js.VStr "/home/u/.claude/skills"])]
              [Js.VStr "/home/u/.claude/skills"])
    as (fs' & s' & Hrm & Hread & _ & _ & _ & _ & Hprop);
    [by_eval | by_eval | by_eval | by_eval | by_eval |].
  exists fs', s'. split_and!; [exact Hrm | exact Hread | |].
  - rewrite Hprop. by_eval.
  - assert (H : (fs ← removePerm Ex.disk; Fs.readFile fs claudeSettingsFile)
                = Some (Ex.stringify 2 (Js.VObj []))) by by_eval.
    rewrite Hrm in H. exact H.
Defined.

Lemma configure_then_remove_restores_witness :
  exists fs1 settings1 fs2,
    configure Ex.bareDisk = Some (fs1, settings1) /\
    removePerm fs1 = Some fs2 /\
    Fs.readFile fs2 claudeSettingsFile
    = Some (Ex.stringify 2 (defaultSettings)).
Proof.
  assert (H : snd <$> configure Ex.bareDisk
              = Some (Js.VObj
                   [("$schema",
                     Js.VStr "https://json.schemastore.org/claude-code-settings.json");
                    ("permissions",
                     Js.VObj [("additionalDirectories",
                               Js.VArr [Js.VStr "/home/u/.claude/skills"])])]))
    by by_eval.
  destruct (configure Ex.bareDisk) as [[fs1 s1]|] eqn:E; [| discriminate H].
  injection H as ->.
  destruct (configure_then_remove_restores Ex.installDir Json.parse Ex.stringify
              Ex.bareDisk
              [("$schema",
                Js.VStr "https://json.schemastore.org/claude-code-settings.json")]
              fs1 _ ltac:(by_eval) ltac:(by_eval) E ltac:(by_eval))
    as (fs2 & Hrm & Hread & _).
  eexists fs1, _, fs2. split_and!; [reflexivity | exact Hrm | exact Hread].
Defined.

Lemma manifest_absent_after_uninstall_witness :
  exists fs',
    uninstallManifest Ex.disk = Some fs' /\
    load Ex.disk = Some Ex.manifestJson /\
    load fs' = Some Js.VNull.
Proof.
  assert (H : bool_decide (is_Some (uninstallManifest Ex.disk)) = true) by by_eval.
  destruct (uninstallManifest Ex.disk) as [fs'|] eqn:E.
  2:{ apply bool_decide_eq_true in H. destruct H as [? H]. discriminate H. }
  exists fs'. split_and!; [reflexivity | by_eval |].
  apply (manifest_absent_after_uninstall Json.parse Ex.disk fs' E).
Defined.

(** The steps of [installSkills] on a directory without [.claude]. *)
Local Abbreviation installSteps :=
  (fs1 ← Fs.mkdir_p Ex.bareDisk claudeSkillsDir;
   '(st2, _) ← skillsLoop Ex.entries "senior-swe"
                 {| st_fs := fs1; st_manifest := Ex.freshManifest;
                    st_ticks := 0; st_log := [] |} zero;
   '(fs3, _) ← save (st_fs st2) Ex.manifestJson Ex.savedAt;
   configure fs3).

Lemma skills_valid_after_install_witness :
  exists fs4 settings',
    installSteps = Some (fs4, settings') /\
    validateSk fs4 Ex.twoAgents (Some Ex.entries)
    = Some {| valid := true;
              message := "Skills are properly installed";
              errors := None |}.
Proof.
  assert (H : snd <$> installSteps
              = Some (Js.VObj
                   [("$schema",
                     Js.VStr "https://json.schemastore.org/claude-code-settings.json");
                    ("permissions",
                     Js.VObj [("additionalDirectories",
                               Js.VArr [Js.VStr "/home/u/.claude/skills"])])]))
    by by_eval.
  destruct (Fs.mkdir_p Ex.bareDisk claudeSkillsDir) as [fs1|] eqn:E1;
    [| discriminate H].
  cbn [mbind option_bind] in H |- *.
  destruct (skillsLoop Ex.entries "senior-swe" _ zero) as [[st2 totals]|] eqn:E2;
    [| discriminate H].
  cbn [mbind option_bind] in H |- *.
  destruct (save (st_fs st2) Ex.manifestJson Ex.savedAt) as [[fs3 m']|] eqn:E3;
    [| discriminate H].
  cbn [mbind option_bind] in H |- *.
  destruct (configure fs3) as [[fs4 s']|] eqn:E4; [| discriminate H].
  injection H as ->. eexists fs4, _. split; [reflexivity |].
  apply (skills_valid_after_install Ex.sha256 Ex.clock Ex.pkgVersion
           Ex.substitute Ex.installDir Json.parse Ex.stringify
           Ex.twoAgents "senior-swe" Ex.entries
           Ex.bareDisk fs1 Ex.freshManifest 0 [] st2 totals
           Ex.manifestJson Ex.savedAt fs3 m' fs4 defaultSettings _
           ltac:(by_eval) E1 E2 E3 E4 ltac:(by_eval) ltac:(by_eval)
           ltac:(by_eval)).
Defined.

Local Abbreviation savedAgents := (Some (Js.VObj Ex.twoAgentsList)).
Local Abbreviation savedObject :=
  (configObject Ex.installDir None savedAgents (Some (Js.VStr "13.0.0"))).

Lemma config_save_load_roundtrip_witness :
  exists fs' cfg,
    saveCfg Ex.bareDisk None savedAgents (Some (Js.VStr "13.0.0")) = Some fs' /\
    loadCfg fs' = Some (Some cfg) /\
    config_agents cfg = savedAgents /\
    config_version cfg = Some (Js.VStr "13.0.0") /\
    config_autoupdate cfg = Some (Js.VStr "disabled") /\
    getInstalledAgents cfg = ["claude-code"; "cursor-agent"].
Proof.
  assert (H : bool_decide (is_Some (saveCfg Ex.bareDisk None savedAgents
                                      (Some (Js.VStr "13.0.0")))) = true)
    by by_eval.
  destruct (saveCfg Ex.bareDisk None savedAgents (Some (Js.VStr "13.0.0")))
    as [fs'|] eqn:E.
  2:{ apply bool_decide_eq_true in H. destruct H as [? H]. discriminate H. }
  destruct (config_save_load_roundtrip Ex.installDir Json.parse Ex.stringify
              Ex.bareDisk None savedAgents (Some (Js.VStr "13.0.0")) fs'
              (default Js.VNull (validateConfigSchema savedObject)) E
              ltac:(by_eval) ltac:(by_eval) ltac:(by_eval))
    as (_ & cfg & Hload & _ & Hag & Hver & Hau).
  exists fs', cfg. split_and!; [reflexivity | exact Hload | exact Hag | exact Hver
                               | exact Hau |].
  unfold getInstalledAgents. rewrite Hag. by_eval.
Defined.


Local Abbreviation keptObject :=
  (configObject Ex.installDir (Some (Js.VStr "enabled"))
     (Some (Js.VObj (keptAgents (agentsToRemove Ex.removeCursor) Ex.twoAgentsList)))
     (Some (Js.VStr "12.0.0"))).

Local Abbreviation keptNothing :=
  (configObject Ex.installDir (Some (Js.VStr "enabled"))
     (Some (Js.VObj (keptAgents (agentsToRemove Ex.removeCursor) [])))
     (Some (Js.VStr "12.0.0"))).

